(** * Galileo transform layers: a shallow embedding

    The Python transform classes of [galileo.framework] reshape tensors and
    call an opaque graph-sampling service.  The tensors are modelled by their
    static shape and their row-major data, the TensorFlow / PyTorch operators
    the transforms use by functions on that representation, Python
    exceptions by a result type, and the sampling service by an explicit
    state that the sampling calls thread through. *)

From Stdlib Require Import ZArith List Lia Permutation Sorted.
From Stdlib Require Import Ascii.
From stdpp Require Import base tactics option list gmap strings pretty.

(** ** Exceptions and results *)

Inductive exn :=
  | ValueError
  | KeyError
  | TypeError
  | IndexError
  | AssertionError
  | InvalidArgumentError   (* tf.errors.InvalidArgumentError *)
  | RuntimeError.          (* raised by torch operators *)

Inductive result (A : Type) :=
  | Ok (a : A)
  | Raise (e : exn).
Arguments Ok {A} a.
Arguments Raise {A} e.

#[global] Instance exn_eq_dec : EqDecision exn.
Proof. solve_decision. Defined.

#[global] Instance result_ret : MRet result := @Ok.
#[global] Instance result_bind : MBind result := λ A B f m,
  match m with
  | Ok a => f a
  | Raise e => Raise e
  end.
#[global] Instance result_fmap : FMap result := λ A B f m,
  match m with
  | Ok a => Ok (f a)
  | Raise e => Raise e
  end.

Definition is_ok {A} (r : result A) : bool :=
  match r with Ok _ => true | Raise _ => false end.

(** ** Tensors *)

Record tensor (A : Type) := Tensor { shape : list nat; data : list A }.
Arguments Tensor {A} shape data.
Arguments shape {A} t.
Arguments data {A} t.

(** Number of elements of a shape. *)
Definition numel (sh : list nat) : nat := foldr Nat.mul 1 sh.

Definition rank {A} (t : tensor A) : nat := length (shape t).
(** [tf.size], [Tensor.numel]. *)
Definition size {A} (t : tensor A) : nat := length (data t).
(** The representation invariant of a tensor. *)
Definition wf {A} (t : tensor A) : Prop := length (data t) = numel (shape t).

#[global] Instance wf_dec {A} (t : tensor A) : Decision (wf t).
Proof. unfold wf. apply _. Defined.

(** A Python list of numbers converted to a rank-1 tensor, and a scalar. *)
Definition vector {A} (l : list A) : tensor A := Tensor [length l] l.
Definition scalar {A} (x : A) : tensor A := Tensor [] [x].

(** The [i]-th block of [p] consecutive elements of a flat list. *)
Definition block {A} (p i : nat) (l : list A) : list A := take p (drop (i * p) l).

Definition gather_blocks {A} (p : nat) (idx : list nat) (l : list A) : list A :=
  flat_map (λ i, block p i l) idx.

Section tensor_ops.
Context {A : Type}.

(** [tf.reshape(t, dims)]: at most one entry of [dims] is [-1] and is
    inferred from the size; it cannot be inferred when the other entries
    multiply to zero. *)
Definition tf_reshape (t : tensor A) (dims : list Z) : result (tensor A) :=
  let known := Z.to_nat (foldr Z.mul 1%Z (filter (λ d, d ≠ (-1)%Z) dims)) in
  if bool_decide (Forall (λ d, (-1 ≤ d)%Z) dims) then
    match length (filter (λ d, d = (-1)%Z) dims) with
    | 0 =>
        if bool_decide (known = size t)
        then Ok (Tensor (Z.to_nat <$> dims) (data t))
        else Raise InvalidArgumentError
    | 1 =>
        if bool_decide (known ≠ 0 ∧ size t `mod` known = 0)
        then Ok (Tensor ((λ d, if bool_decide (d = (-1)%Z)
                               then size t `div` known
                               else Z.to_nat d) <$> dims) (data t))
        else Raise InvalidArgumentError
    | _ => Raise InvalidArgumentError
    end
  else Raise InvalidArgumentError.

(** [tf.transpose(t)] with the default permutation, which reverses the
    dimensions: the element at [i1, ..., in] moves to [in, ..., i1]. *)
Fixpoint transpose_data (sh : list nat) (l : list A) : list A :=
  match sh with
  | [] => l
  | d :: rest =>
      let p := numel rest in
      flat_map (λ q,
        flat_map (λ i, block 1 q (transpose_data rest (block p i l))) (seq 0 d))
        (seq 0 p)
  end.

Definition tf_transpose (t : tensor A) : tensor A :=
  Tensor (reverse (shape t)) (transpose_data (shape t) (data t)).

(** [t[i]] for a non-negative Python int [i]. *)
Definition tf_index (t : tensor A) (i : nat) : result (tensor A) :=
  match shape t with
  | [] => Raise InvalidArgumentError
  | d :: rest =>
      if bool_decide (i < d)
      then Ok (Tensor rest (block (numel rest) i (data t)))
      else Raise InvalidArgumentError
  end.

(** [tf.gather(t, idx, axis)] for [axis] 0 and 1.  The result has the
    shape of [t] with dimension [axis] replaced by the shape of [idx]; an
    index out of range is an error. *)
Definition tf_gather (t : tensor A) (idx : tensor nat) (axis : nat)
  : result (tensor A) :=
  match axis, shape t with
  | 0, d :: rest =>
      if bool_decide (Forall (λ i, i < d) (data idx))
      then Ok (Tensor (shape idx ++ rest)
                      (gather_blocks (numel rest) (data idx) (data t)))
      else Raise InvalidArgumentError
  | 1, a :: b :: rest =>
      if bool_decide (Forall (λ i, i < b) (data idx))
      then Ok (Tensor (a :: shape idx ++ rest)
                 (flat_map (λ o, gather_blocks (numel rest) (data idx)
                                   (block (b * numel rest) o (data t)))
                           (seq 0 a)))
      else Raise InvalidArgumentError
  | _, _ => Raise InvalidArgumentError
  end.

(** [tf.split(t, num, axis=0)] with an int [num]: [num] pieces of equal
    size along the first axis. *)
Definition tf_split (t : tensor A) (num : nat) : result (list (tensor A)) :=
  match shape t with
  | [] => Raise InvalidArgumentError
  | d :: rest =>
      if bool_decide (num ≠ 0 ∧ d `mod` num = 0)
      then Ok ((λ k, Tensor (d `div` num :: rest)
                       (block (d `div` num * numel rest) k (data t)))
               <$> seq 0 num)
      else Raise InvalidArgumentError
  end.

(** [tf.concat(ts, axis)] for a non-negative [axis]: the shapes agree on
    every other dimension. *)
Definition concat_compatible (axis : nat) (sh : list nat) (t : tensor A) : Prop :=
  axis < rank t ∧ take axis (shape t) = take axis sh
  ∧ drop (S axis) (shape t) = drop (S axis) sh.

#[global] Instance concat_compatible_dec axis sh t :
  Decision (concat_compatible axis sh t).
Proof. unfold concat_compatible. apply _. Defined.

Definition axis_dim (axis : nat) (t : tensor A) : nat :=
  default 0 (shape t !! axis).

Definition tf_concat_at (ts : list (tensor A)) (axis : nat) : result (tensor A) :=
  match ts with
  | [] => Raise InvalidArgumentError
  | t0 :: _ =>
      if bool_decide (Forall (concat_compatible axis (shape t0)) ts)
      then
        let pre := take axis (shape t0) in
        let post := drop (S axis) (shape t0) in
        Ok (Tensor (pre ++ sum_list (axis_dim axis <$> ts) :: post)
              (flat_map (λ o,
                 flat_map (λ t, block (axis_dim axis t * numel post) o (data t)) ts)
                 (seq 0 (numel pre))))
      else Raise InvalidArgumentError
  end.

(** A negative [axis] counts from the last dimension. *)
Definition tf_concat (ts : list (tensor A)) (axis : Z) : result (tensor A) :=
  match ts with
  | [] => Raise InvalidArgumentError
  | t0 :: _ =>
      let ax := if bool_decide (axis < 0)%Z then (Z.of_nat (rank t0) + axis)%Z else axis in
      if bool_decide (0 ≤ ax)%Z
      then tf_concat_at ts (Z.to_nat ax)
      else Raise InvalidArgumentError
  end.

(** [t[:, 1:]]. *)
Definition tf_tail_columns (t : tensor A) : result (tensor A) :=
  match shape t with
  | a :: b :: rest =>
      let inner := numel rest in
      Ok (Tensor (a :: (b - 1) :: rest)
            (flat_map (λ o, drop inner (block (b * inner) o (data t))) (seq 0 a)))
  | _ => Raise InvalidArgumentError
  end.

(** [tf.argsort(t)]: ascending along the last axis, equal elements keep
    their order. *)
Fixpoint insert_by (leb : A → A → bool) (x : A * nat) (l : list (A * nat))
  : list (A * nat) :=
  match l with
  | [] => [x]
  | y :: l' => if leb x.1 y.1 then x :: l else y :: insert_by leb x l'
  end.

Definition stable_sort (leb : A → A → bool) (l : list (A * nat)) : list (A * nat) :=
  foldr (insert_by leb) [] l.

Definition argsort_list (leb : A → A → bool) (l : list A) : list nat :=
  (stable_sort leb (zip l (seq 0 (length l)))).*2.

Definition tf_argsort (leb : A → A → bool) (t : tensor A) : result (tensor nat) :=
  match reverse (shape t) with
  | [] => Raise InvalidArgumentError
  | c :: outer =>
      Ok (Tensor (shape t)
            (flat_map (λ o, argsort_list leb (block c o (data t)))
                      (seq 0 (numel outer))))
  end.
End tensor_ops.

(** Column [j] of the [r] x [c] matrix with the row-major data [l]. *)
Definition column {A} (r c j : nat) (l : list A) : list A :=
  flat_map (λ i, block 1 (i * c + j) l) (seq 0 r).

(** The columns of a rank-2 tensor. *)
Definition columns {A} (t : tensor A) : list (list A) :=
  match shape t with
  | [r; c] => (λ j, column r c j (data t)) <$> seq 0 c
  | _ => []
  end.

(** The first row of a rank-2 tensor. *)
Definition first_row {A} (t : tensor A) : list A :=
  match shape t with
  | [r; c] => block c 0 (data t)
  | _ => []
  end.

(** [tf.unique(x)] of a rank-1 tensor: the distinct values in the order of
    their first occurrence, and for every position of [x] the index of its
    value among them. *)
Fixpoint index_of (v : Z) (ys : list Z) : option nat :=
  match ys with
  | [] => None
  | y :: ys' => if bool_decide (y = v) then Some 0 else S <$> index_of v ys'
  end.

Fixpoint unique_values (seen : list Z) (xs : list Z) : list Z :=
  match xs with
  | [] => seen
  | x :: xs' =>
      match index_of x seen with
      | Some _ => unique_values seen xs'
      | None => unique_values (seen ++ [x]) xs'
      end
  end.

Definition tf_unique (x : tensor Z) : result (tensor Z * tensor nat) :=
  match shape x with
  | [n] =>
      let y := unique_values [] (data x) in
      Ok (vector y, Tensor [n] ((λ v, default 0 (index_of v y)) <$> data x))
  | _ => Raise InvalidArgumentError
  end.

(** ** Python values and the sampling service *)

(** What a tensor-valued entry of an input or output dict can hold:
    [None], an integer tensor or a float tensor.  Floats are only moved
    around and compared, so their type [F] is left abstract. *)
Inductive value (F : Type) :=
  | VNone
  | VInt (t : tensor Z)
  | VFloat (t : tensor F).
Arguments VNone {F}.
Arguments VInt {F} t.
Arguments VFloat {F} t.

(** A computation that may call the sampling service: the state [W] of the
    service (its graph, its random generators) is threaded through. *)
Definition M (W A : Type) : Type := W → result A * W.

#[global] Instance M_ret {W} : MRet (M W) := λ A a w, (Ok a, w).
#[global] Instance M_bind {W} : MBind (M W) := λ A B f m w,
  match m w with
  | (Ok a, w') => f a w'
  | (Raise e, w') => (Raise e, w')
  end.

(** A computation that does not touch the service. *)
Definition lift {W A} (r : result A) : M W A := λ w, (r, w).

(** [torch.Tensor.view], [torch.reshape]: as [tf.reshape], with torch's
    exception. *)
Definition torch_view {A} (t : tensor A) (dims : list Z) : result (tensor A) :=
  match tf_reshape t dims with
  | Ok r => Ok r
  | Raise _ => Raise RuntimeError
  end.

(** [torch.split(t, sizes, dim=-1)]. *)
Fixpoint offsets (acc : nat) (sizes : list nat) : list nat :=
  match sizes with
  | [] => []
  | s :: sizes' => acc :: offsets (acc + s) sizes'
  end.

Definition torch_split_last {A} (t : tensor A) (sizes : list nat)
  : result (list (tensor A)) :=
  match reverse (shape t) with
  | [] => Raise RuntimeError
  | c :: outer =>
      if bool_decide (sum_list sizes = c)
      then Ok ((λ '(off, sz),
                  Tensor (reverse outer ++ [sz])
                    (flat_map (λ o, take sz (drop off (block c o (data t))))
                              (seq 0 (numel outer))))
               <$> zip (offsets 0 sizes) sizes)
      else Raise RuntimeError
  end.

(** [t.size(0)]. *)
Definition torch_size0 {A} (t : tensor A) : result nat :=
  match shape t with
  | [] => Raise IndexError
  | d :: _ => Ok d
  end.

(** [xs[i]] on a Python list. *)
Definition py_index {A} (xs : list A) (i : nat) : result A :=
  match xs !! i with
  | Some x => Ok x
  | None => Raise IndexError
  end.

(** [[x] * n] on Python lists: no copies when [n] is not positive. *)
Definition py_repeat {A} (x : A) (n : Z) : list A := replicate (Z.to_nat n) x.

(** Shape, size and well-formedness of a tensor-valued entry. *)
Definition value_shape {F} (v : value F) : option (list nat) :=
  match v with
  | VNone => None
  | VInt t => Some (shape t)
  | VFloat t => Some (shape t)
  end.

Definition value_size {F} (v : value F) : option nat :=
  match v with
  | VNone => None
  | VInt t => Some (size t)
  | VFloat t => Some (size t)
  end.

Definition value_wf {F} (v : value F) : Prop :=
  match v with
  | VNone => True
  | VInt t => wf t
  | VFloat t => wf t
  end.

(** ** [galileo.tf.RelationTransform] *)

Module RelationTransform.

(** Modelled from the spec: [get_fanouts_list] of
    [galileo.framework.python.utils.utils] is not part of the sources; the
    per-vertex width of a multi-hop table is 1 + f1 + f1*f2 + ... for the
    fanouts [f1, f2, ...], so the list is [1, f1, f1*f2, ...]. *)
Fixpoint fanouts_from (acc : nat) (fanouts : list nat) : list nat :=
  match fanouts with
  | [] => [acc]
  | f :: fanouts' => acc :: fanouts_from (acc * f) fanouts'
  end.

Definition get_fanouts_list (fanouts : list nat) : list nat :=
  fanouts_from 1 fanouts.

Record t := {
  fanouts : list nat;
  fanouts_list : list nat;
  fanouts_dim : nat;
  fanouts_indices : list nat;
  sort_indices : bool;
}.

Inductive inputs (F : Type) :=
  | InSeq (xs : list (value F))             (* a list or a tuple *)
  | InDict (d : gmap string (value F))
  | InOther (v : value F).
Arguments InSeq {F} xs.
Arguments InDict {F} d.
Arguments InOther {F} v.

Section relation.
Context {F : Type}.
(** The order [tf.argsort] uses on floats. *)
Variable F_leb : F → F → bool.
(** [get_fanouts_indices] of [galileo.framework.python.utils.utils] is
    not part of the sources: the table of column pairs it computes is a
    parameter. *)
Variable get_fanouts_indices : list nat → list nat.

Definition init (fanouts : list nat) (sort_indices : bool) : result t :=
  if bool_decide (fanouts = [])
  then Raise AssertionError
  else Ok {| fanouts := fanouts;
             fanouts_list := get_fanouts_list fanouts;
             fanouts_dim := sum_list (get_fanouts_list fanouts);
             fanouts_indices := get_fanouts_indices fanouts;
             sort_indices := sort_indices |}.

Definition unpack (inputs : inputs F) : result (value F * value F) :=
  match inputs with
  | InSeq xs =>
      match take 2 xs with
      | [indices; edge_weight] => Ok (indices, edge_weight)
      | _ => Raise ValueError
      end
  | InDict d =>
      match d !! "indices"%string with
      | Some indices => Ok (indices, default VNone (d !! "edge_weight"%string))
      | None => Raise KeyError
      end
  | InOther v => Ok (v, VNone)
  end.

(** The body of [if self.sort_indices]: the columns are reordered by
    the [argsort] of the first row. *)
Definition sorted_by_first_row {A} (leb : A → A → bool)
    (relation_indices : tensor A) : result (tensor A) :=
  row ← tf_gather relation_indices (scalar 0) 0;
  idx ← tf_argsort leb row;
  tf_gather relation_indices idx 1.

(** The part of [transform] under [tf.name_scope] that computes the
    relation indices and the target indices. *)
Definition relation_of {A} (leb : A → A → bool) (self : t) (indices : tensor A)
  : result (tensor A * tensor A) :=
  m ← tf_reshape indices [(-1)%Z; Z.of_nat (fanouts_dim self)];
  let indices_t := tf_transpose m in
  target_indices ←
    (if bool_decide (2 < rank indices)
     then row ← tf_index indices_t 0;
          tf_reshape row (Z.of_nat <$> take (rank indices - 1) (shape indices))
     else tf_index indices_t 0);
  relation_indices ← tf_gather indices_t (vector (fanouts_indices self)) 0;
  parts ← tf_split relation_indices (length (fanouts_indices self) `div` 2);
  relation_indices ← tf_concat parts 1;
  relation_indices ←
    (if sort_indices self
     then sorted_by_first_row leb relation_indices
     else Ok relation_indices);
  Ok (relation_indices, target_indices).

Definition weight_of {A} (edge_weight : tensor A) : result (tensor A) :=
  cols ← tf_tail_columns edge_weight;
  tf_reshape cols [(-1)%Z; 1%Z].

(** The tensor operators apply to int and to float tensors alike. *)
Definition relation_value (self : t) (indices : value F)
  : result (value F * value F) :=
  match indices with
  | VNone => Raise ValueError
  | VInt x => prod_map VInt VInt <$> relation_of Z.leb self x
  | VFloat x => prod_map VFloat VFloat <$> relation_of F_leb self x
  end.

(** [relation_weight = None; if edge_weight is not None: ...]. *)
Definition weight_value (edge_weight : value F) : result (value F) :=
  match edge_weight with
  | VNone => Ok VNone
  | VInt w => VInt <$> weight_of w
  | VFloat w => VFloat <$> weight_of w
  end.

Definition transform (self : t) (inputs : inputs F)
  : result (gmap string (value F)) :=
  '(indices, edge_weight) ← unpack inputs;
  '(relation_indices, target_indices) ← relation_value self indices;
  relation_weight ← weight_value edge_weight;
  Ok (<["relation_indices"%string := relation_indices]>
      (<["relation_weight"%string := relation_weight]>
      (<["target_indices"%string := target_indices]> ∅))).

(** The edge weight an input supplies, if any. *)
Definition supplied_edge_weight (inputs : inputs F) : option (value F) :=
  match inputs with
  | InSeq xs => xs !! 1
  | InDict d => d !! "edge_weight"%string
  | InOther _ => None
  end.

(** The target indices, in closed form: row 0 of the transposed table,
    in the shape of the leading dimensions of [indices] when its rank
    is above 2. *)
Definition target_of {A} (indices : tensor A) (N fd : nat) : result (tensor A) :=
  let row := Tensor [N] (block N 0 (transpose_data [N; fd] (data indices))) in
  if bool_decide (2 < rank indices)
  then tf_reshape row (Z.of_nat <$> take (rank indices - 1) (shape indices))
  else Ok row.

(** The relation indices before sorting, in closed form: [T] is the
    data of the transposed table, with [N] columns; the table [fi] of
    rows to gather is cut into [num] pieces of [r] rows. *)
Definition relation_data {A} (r num N : nat) (fi : list nat) (T : list A)
  : list A :=
  flat_map (λ o,
    flat_map (λ k, block N o (block (r * N) k (gather_blocks N fi T)))
             (seq 0 num))
    (seq 0 r).

(** The transform with [sort_indices] switched off. *)
Definition without_sort (self : t) : t :=
  {| fanouts := fanouts self;
     fanouts_list := fanouts_list self;
     fanouts_dim := fanouts_dim self;
     fanouts_indices := fanouts_indices self;
     sort_indices := false |}.

(** [R1] is [R0] with its columns reordered so that the first row is
    non-decreasing for [le]. *)
Definition sorted_columns_of {A} (le : A → A → Prop) (R0 R1 : tensor A) : Prop :=
  shape R1 = shape R0 ∧ columns R1 ≡ₚ columns R0 ∧ Sorted le (first_row R1).

Definition sorted_variant (v0 v1 : option (value F)) : Prop :=
  match v0, v1 with
  | Some (VInt R0), Some (VInt R1) => sorted_columns_of Z.le R0 R1
  | Some (VFloat R0), Some (VFloat R1) =>
      sorted_columns_of (λ x y, F_leb x y = true) R0 R1
  | _, _ => False
  end.

(** *** A run of [transform]

    A method of the instance runs in a state: the attributes of [self] and
    the state of the sampling service.  It may read an attribute, write one
    and call the service. *)
Definition state (W : Type) : Type := t * W.

(** [self.attr]. *)
Definition read {W A} (attr : t → A) : M (state W) A :=
  λ s, (Ok (attr s.1), s).

(** [self.attr = v], as an update of the record of attributes. *)
Definition write {W} (update : t → t) : M (state W) () :=
  λ s, (Ok (), (update s.1, s.2)).

(** A call of the sampling service. *)
Definition sample {W A} (m : M W A) : M (state W) A :=
  λ s, let '(r, w) := m s.2 in (r, (s.1, w)).

(** [__init__] as a method, on an instance whose attributes are yet to
    be set: the assertion, then the five assignments. *)
Definition init_run {W} (fanouts : list nat) (sort_indices : bool)
  : M (state W) () :=
  _ ← lift (if bool_decide (fanouts = []) then Raise AssertionError else Ok ());
  _ ← write (λ self,
         {| RelationTransform.fanouts := fanouts;
            fanouts_list := fanouts_list self;
            fanouts_dim := fanouts_dim self;
            fanouts_indices := fanouts_indices self;
            RelationTransform.sort_indices := RelationTransform.sort_indices self |});
  _ ← write (λ self,
         {| RelationTransform.fanouts := RelationTransform.fanouts self;
            fanouts_list := get_fanouts_list fanouts;
            fanouts_dim := fanouts_dim self;
            fanouts_indices := fanouts_indices self;
            RelationTransform.sort_indices := RelationTransform.sort_indices self |});
  fanouts_list ← read fanouts_list;
  _ ← write (λ self,
         {| RelationTransform.fanouts := RelationTransform.fanouts self;
            RelationTransform.fanouts_list := RelationTransform.fanouts_list self;
            fanouts_dim := sum_list fanouts_list;
            fanouts_indices := fanouts_indices self;
            RelationTransform.sort_indices := RelationTransform.sort_indices self |});
  _ ← write (λ self,
         {| RelationTransform.fanouts := RelationTransform.fanouts self;
            RelationTransform.fanouts_list := RelationTransform.fanouts_list self;
            fanouts_dim := fanouts_dim self;
            fanouts_indices := get_fanouts_indices fanouts;
            RelationTransform.sort_indices := RelationTransform.sort_indices self |});
  write (λ self,
    {| RelationTransform.fanouts := RelationTransform.fanouts self;
       RelationTransform.fanouts_list := RelationTransform.fanouts_list self;
       fanouts_dim := fanouts_dim self;
       fanouts_indices := fanouts_indices self;
       RelationTransform.sort_indices := sort_indices |}).

(** The part of [transform] under [tf.name_scope] that computes the
    relation indices and the target indices, statement by statement: the
    attributes are read where the source reads them. *)
Definition relation_of_run {W A} (leb : A → A → bool) (indices : tensor A)
  : M (state W) (tensor A * tensor A) :=
  fanouts_dim ← read fanouts_dim;
  m ← lift (tf_reshape indices [(-1)%Z; Z.of_nat fanouts_dim]);
  let indices_t := tf_transpose m in
  target_indices ← lift
    (if bool_decide (2 < rank indices)
     then row ← tf_index indices_t 0;
          tf_reshape row (Z.of_nat <$> take (rank indices - 1) (shape indices))
     else tf_index indices_t 0);
  fanouts_indices ← read fanouts_indices;
  relation_indices ← lift (tf_gather indices_t (vector fanouts_indices) 0);
  fanouts_indices ← read RelationTransform.fanouts_indices;
  parts ← lift (tf_split relation_indices (length fanouts_indices `div` 2));
  relation_indices ← lift (tf_concat parts 1);
  sort_indices ← read sort_indices;
  relation_indices ← lift
    (if sort_indices : bool
     then sorted_by_first_row leb relation_indices
     else Ok relation_indices);
  mret (relation_indices, target_indices).

Definition relation_value_run {W} (indices : value F)
  : M (state W) (value F * value F) :=
  match indices with
  | VNone => lift (Raise ValueError)
  | VInt x => p ← relation_of_run Z.leb x; mret (prod_map VInt VInt p)
  | VFloat x => p ← relation_of_run F_leb x; mret (prod_map VFloat VFloat p)
  end.

(** [transform] as a method: what it answers and the state it leaves. *)
Definition transform_run {W} (inputs : inputs F)
  : M (state W) (gmap string (value F)) :=
  '(indices, edge_weight) ← lift (unpack inputs);
  '(relation_indices, target_indices) ← relation_value_run indices;
  relation_weight ← lift (weight_value edge_weight);
  mret (<["relation_indices"%string := relation_indices]>
        (<["relation_weight"%string := relation_weight]>
        (<["target_indices"%string := target_indices]> ∅))).
End relation.
End RelationTransform.

(** The table of column pairs for the fanouts [[2, 3]] used in the
    examples: every column of the neighbor table but the first, paired with
    the column of the vertex it was sampled from. *)
Definition example_table (fanouts : list nat) : list nat :=
  [0; 1; 0; 2; 1; 3; 1; 4; 1; 5; 2; 6; 2; 7; 2; 8].

(** The transform for the fanouts [[2, 3]], whose neighbor tables have 9
    columns, and inputs for a batch of two vertices.  In the examples the
    floats are stood for by integers. *)
Definition example_transform (sort_indices : bool) : RelationTransform.t :=
  {| RelationTransform.fanouts := [2; 3];
     RelationTransform.fanouts_list := [1; 2; 6];
     RelationTransform.fanouts_dim := 9;
     RelationTransform.fanouts_indices := example_table [2; 3];
     RelationTransform.sort_indices := sort_indices |}.

Definition example_ids : list Z :=
  [5; 3; 9; 5; 1; 2; 3; 4; 0;  2; 7; 7; 1; 1; 1; 1; 1; 1]%Z.

Definition example_weights : tensor Z :=
  Tensor [2; 9] (Z.of_nat <$> seq 0 18).

Definition example_inputs : RelationTransform.inputs Z :=
  RelationTransform.InDict
    (<["indices"%string := VInt (Tensor [1; 2; 9] example_ids)]>
     (<["edge_weight"%string := VFloat example_weights]> ∅)).

(** A table of 18 = 2 * 9 indices whose last dimension is not the width of
    a neighbor table. *)
Definition example_inputs_rank3 : RelationTransform.inputs Z :=
  RelationTransform.InOther (VInt (Tensor [2; 3; 3] example_ids)).

(** ** [galileo.pytorch.RandomWalkNegTransform] *)

Module RandomWalkNegTransform.
Section rw_neg.
Context {F W : Type}.

Record config := {
  vertex_type : list Z;
  edge_types : list Z;
  negative_num : Z;
  context_size : Z;
  repetition : Z;
  walk_p : F;
  walk_q : F;
  walk_length : option Z;
  metapath : list (list Z);
}.

(** The two calls into [PTOps].  [sample_pairs_by_random_walk] answers
    [None] when sampling failed. *)
Record PTOps := {
  sample_pairs_by_random_walk :
    tensor Z → list (list Z) → Z → Z → F → F → M W (option (tensor Z));
  sample_vertices : list Z → Z → M W (list (tensor Z));
}.

(** [__init__]; the base class, which is not part of the sources, keeps
    the dict it is given as [self.config]. *)
Definition init (vertex_type edge_types : list Z) (negative_num context_size : Z)
    (repetition : Z) (walk_p walk_q : F)
    (walk_length : option Z) (metapath : option (list (list Z)))
  : result config :=
  match walk_length, metapath with
  | None, None => Raise ValueError
  | _, _ =>
      metapath ←
        match metapath with
        | Some mp => Ok mp
        | None =>
            match walk_length with
            | Some n => Ok (py_repeat edge_types n)
            | None => Raise TypeError
            end
        end;
      Ok {| vertex_type := vertex_type;
            edge_types := edge_types;
            negative_num := negative_num;
            context_size := context_size;
            repetition := repetition;
            walk_p := walk_p;
            walk_q := walk_q;
            walk_length := walk_length;
            metapath := metapath |}
  end.

(** [transform]; [inputs] is the vertices tensor ([torch.tensor] turns
    an array-like input into it). *)
Definition transform (ops : PTOps) (self : config) (inputs : tensor Z)
  : M W (gmap string (tensor Z)) :=
  let vertices := Tensor [size inputs] (data inputs) in
  sampled_pair ← sample_pairs_by_random_walk ops vertices (metapath self)
            (repetition self) (context_size self) (walk_p self) (walk_q self);
  match sampled_pair with
  | None => lift (Raise ValueError)
  | Some pairs =>
      '(target, context) ← lift (
        pieces ← torch_split_last pairs [1; 1];
        match pieces with
        | [target; context] => Ok (target, context)
        | _ => Raise ValueError
        end);
      size0 ← lift (torch_size0 pairs);
      sampled ← sample_vertices ops (vertex_type self)
                  (negative_num self * Z.of_nat size0)%Z;
      negative ← lift (
        negative ← py_index sampled 0;
        torch_view negative [Z.of_nat size0; negative_num self]);
      mret (<["target"%string := target]>
            (<["context"%string := context]>
            (<["negative"%string := negative]> ∅)))
  end.
End rw_neg.
Arguments config F : clear implicits.
Arguments PTOps F W : clear implicits.
End RandomWalkNegTransform.

(** ** [galileo.tf.NeighborNegTransform] *)

Module NeighborNegTransform.
Section neighbor_neg.
Context {W : Type}.

Record config := {
  vertex_type : list Z;
  edge_types : list Z;
  negative_num : Z;
}.

(** The two calls into [TFOps]: [sample_neighbors(vertices, edge_types,
    count, has_weight)] and [sample_vertices(types, count)]. *)
Record TFOps := {
  sample_neighbors : tensor Z → list Z → Z → bool → M W (list (tensor Z));
  sample_vertices : list Z → Z → M W (list (tensor Z));
}.

Definition init (vertex_type edge_types : list Z) (negative_num : Z) : config :=
  {| vertex_type := vertex_type;
     edge_types := edge_types;
     negative_num := negative_num |}.

Definition transform (ops : TFOps) (self : config) (inputs : tensor Z)
  : M W (gmap string (tensor Z)) :=
  flat ← lift (tf_reshape inputs [(-1)%Z]);
  context ← sample_neighbors ops flat (edge_types self) 1 false;
  if bool_decide (length context = 0)
  then lift (Raise ValueError)
  else
    target ← lift (tf_reshape inputs [(-1)%Z; 1%Z]);
    context ← lift (c ← py_index context 0; tf_reshape c [(-1)%Z; 1%Z]);
    let size := size target in
    sampled ← sample_vertices ops (vertex_type self)
                (Z.of_nat size * negative_num self)%Z;
    negative ← lift (
      negative ← py_index sampled 0;
      tf_reshape negative [Z.of_nat size; negative_num self]);
    mret (<["target"%string := target]>
          (<["context"%string := context]>
          (<["negative"%string := negative]> ∅))).
End neighbor_neg.
Arguments TFOps W : clear implicits.
End NeighborNegTransform.

(** ** [galileo.tf.MultiHopFeatureTransform] *)

Module MultiHopFeatureTransform.

(** A [*_feature_dims] argument: [None], an int or a list of ints. *)
Inductive dims_arg :=
  | DNone
  | DInt (d : Z)
  | DList (ds : list Z).

(** Python's truth value of such an argument. *)
Definition truthy (d : dims_arg) : bool :=
  match d with
  | DNone => false
  | DInt d => bool_decide (d ≠ 0%Z)
  | DList ds => bool_decide (ds ≠ [])
  end.

(** [len(d)]. *)
Definition py_len (d : dims_arg) : result nat :=
  match d with
  | DList ds => Ok (length ds)
  | _ => Raise TypeError
  end.

(** [for dim in d], [sum(d)]: the entries of a list. *)
Definition py_iter (d : dims_arg) : result (list Z) :=
  match d with
  | DList ds => Ok ds
  | _ => Raise TypeError
  end.

(** [if isinstance(d, int): d = [d] * len(names)]. *)
Definition expand (d : dims_arg) (names : list string) : dims_arg :=
  match d with
  | DInt n => DList (replicate (length names) n)
  | _ => d
  end.

Record config := {
  metapath : list (list Z);
  fanouts : list nat;
  edge_weight : bool;
  dense_feature_names : option (list string);
  dense_feature_dims : dims_arg;
  sparse_feature_names : option (list string);
  sparse_feature_dims : dims_arg;
}.

Definition assert (b : bool) : result unit :=
  if b then Ok () else Raise AssertionError.

(** [if dense_feature_names is not None: ...]. *)
Definition check_dense (dense_feature_names : option (list string))
    (dense_feature_dims : dims_arg) : result dims_arg :=
  match dense_feature_names with
  | Some names =>
      _ ← assert (truthy dense_feature_dims);
      let dims := expand dense_feature_dims names in
      n ← py_len dims;
      _ ← assert (bool_decide (length names = n));
      Ok dims
  | None => Ok dense_feature_dims
  end.

(** [if sparse_feature_names is not None: ...]. *)
Definition check_sparse (sparse_feature_names : option (list string))
    (sparse_feature_dims : dims_arg) : result dims_arg :=
  match sparse_feature_names with
  | Some names =>
      let dims := match sparse_feature_dims with
                  | DNone => DInt 1
                  | _ => sparse_feature_dims
                  end in
      let dims := expand dims names in
      entries ← py_iter dims;
      if bool_decide (Forall (λ dim, dim = 1%Z) entries)
      then _ ← assert (bool_decide (length names = length entries));
           Ok dims
      else Raise ValueError
  | None => Ok sparse_feature_dims
  end.

(** [__init__] up to the call of the constructor of the base class
    [MultiHopNeighborTransform], which is not part of the sources;
    [transform] reads the arguments passed on back from [self.config]. *)
Definition init (metapath : list (list Z)) (fanouts : list nat) (edge_weight : bool)
    (dense_feature_names : option (list string)) (dense_feature_dims : dims_arg)
    (sparse_feature_names : option (list string)) (sparse_feature_dims : dims_arg)
  : result config :=
  match dense_feature_names, sparse_feature_names with
  | None, None => Raise ValueError
  | _, _ =>
      dense_feature_dims ← check_dense dense_feature_names dense_feature_dims;
      sparse_feature_dims ← check_sparse sparse_feature_names sparse_feature_dims;
      Ok {| metapath := metapath;
            fanouts := fanouts;
            edge_weight := edge_weight;
            dense_feature_names := dense_feature_names;
            dense_feature_dims := dense_feature_dims;
            sparse_feature_names := sparse_feature_names;
            sparse_feature_dims := sparse_feature_dims |}
  end.

Section multi_hop_feature.
Context {F W : Type}.

(** The calls into the sampling service: [sample_multi_hop] of the base
    class answers the list [multi_hops], whose first entry is the table
    of vertex ids and whose second entry, if any, is the table of edge
    weights; [get_pod_feature([vertices], names, dims, types)] answers
    one tensor per feature name, of floats for [tf.float32] and of ints
    for [tf.int64]. *)
Record TFOps := {
  sample_multi_hop : tensor Z → M W (tensor Z * option (tensor F));
  get_pod_feature_float32 :
    list (tensor Z) → list string → list Z → M W (list (tensor F));
  get_pod_feature_int64 :
    list (tensor Z) → list string → list Z → M W (list (tensor Z));
}.

(** [get_feature] with [indices] and [origin_shape] given, as [transform]
    calls it.  [fetch] is [ops.get_pod_feature] at the feature type. *)
Definition get_feature {A}
    (fetch : list (tensor Z) → list string → list Z → M W (list (tensor A)))
    (vertices : tensor Z) (feature_names : option (list string))
    (feature_dims : dims_arg) (indices : tensor nat) (origin_shape : list nat)
  : M W (option (tensor A)) :=
  match feature_names with
  | None => mret None
  | Some names =>
      dims ← lift (py_iter feature_dims);
      features ← fetch [vertices] names dims;
      lift (
        features ← tf_concat features (-1);
        features ← tf_gather features indices 0;
        let output_shape := (Z.of_nat <$> origin_shape) ++ [foldr Z.add 0%Z dims] in
        features ← tf_reshape features output_shape;
        Ok (Some features))
  end.

Definition transform (ops : TFOps) (self : config) (inputs : tensor Z)
  : M W (gmap string (value F)) :=
  multi_hops ← sample_multi_hop ops inputs;
  let outputs : gmap string (value F) := {["ids"%string := VInt multi_hops.1]} in
  vertices_flat ← lift (tf_reshape multi_hops.1 [(-1)%Z]);
  '(vertices, indices) ← lift (tf_unique vertices_flat);
  dense_features ← get_feature (get_pod_feature_float32 ops) vertices
                     (dense_feature_names self) (dense_feature_dims self)
                     indices (shape multi_hops.1);
  let outputs := match dense_features with
                 | Some d => <["dense"%string := VFloat d]> outputs
                 | None => outputs
                 end in
  sparse_features ← get_feature (get_pod_feature_int64 ops) vertices
                      (sparse_feature_names self) (sparse_feature_dims self)
                      indices (shape multi_hops.1);
  let outputs := match sparse_features with
                 | Some s => <["sparse"%string := VInt s]> outputs
                 | None => outputs
                 end in
  if edge_weight self
  then match multi_hops.2 with
       | Some w => mret (<["edge_weight"%string := VFloat w]> outputs)
       | None => lift (Raise IndexError)
       end
  else mret outputs.

(** [get_pod_feature] acting element-wise: the feature [name] of vertex
    [v] is the row [row v name], whatever the other vertices asked for;
    the tensor for a feature of dimension [dim] has one row per vertex. *)
Definition pod_features {A} (row : Z → string → list A) (vertices : tensor Z)
    (names : list string) (dims : list Z) : list (tensor A) :=
  (λ nd, Tensor [size vertices; Z.to_nat nd.2]
           (flat_map (λ v, row v nd.1) (data vertices)))
  <$> zip names dims.

Definition elementwise {A}
    (fetch : list (tensor Z) → list string → list Z → M W (list (tensor A)))
    (row : Z → string → list A) (names : list string) (dims : list Z) : Prop :=
  ∀ vertices w, ∃ w',
    fetch [vertices] names dims w = (Ok (pod_features row vertices names dims), w').

(** The concatenation of the features of a vertex. *)
Definition features_of {A} (row : Z → string → list A) (names : list string)
    (v : Z) : list A :=
  flat_map (row v) names.

(** Fetching the features directly for every entry of the flattened
    table of vertex ids, without [tf.unique] and [tf.gather]. *)
Definition get_feature_direct {A}
    (fetch : list (tensor Z) → list string → list Z → M W (list (tensor A)))
    (ids : tensor Z) (feature_names : list string) (feature_dims : list Z)
  : M W (option (tensor A)) :=
  vertices_flat ← lift (tf_reshape ids [(-1)%Z]);
  features ← fetch [vertices_flat] feature_names feature_dims;
  lift (
    features ← tf_concat features (-1);
    let output_shape :=
      (Z.of_nat <$> shape ids) ++ [foldr Z.add 0%Z feature_dims] in
    features ← tf_reshape features output_shape;
    Ok (Some features)).
End multi_hop_feature.
Arguments TFOps F W : clear implicits.
End MultiHopFeatureTransform.

(** ** A sampling service for the examples

    Its state counts the calls.  A random walk pairs every vertex with its
    successor, the sampled vertices are all vertex 0, a multi-hop table has
    three columns, and the features of a vertex repeat its id. *)

Definition example_pt_ops (fail : bool) : RandomWalkNegTransform.PTOps Z nat :=
  {| RandomWalkNegTransform.sample_pairs_by_random_walk :=
       λ vertices _ _ _ _ _ w,
         (Ok (if fail then None
              else Some (Tensor [size vertices; 2]
                           (flat_map (λ v, [v; (v + 1)%Z]) (data vertices)))),
          S w);
     RandomWalkNegTransform.sample_vertices :=
       λ _ count w,
         (Ok [Tensor [Z.to_nat count] (replicate (Z.to_nat count) 0%Z)], S w) |}.

Definition example_rw_config : RandomWalkNegTransform.config Z :=
  {| RandomWalkNegTransform.vertex_type := [0%Z];
     RandomWalkNegTransform.edge_types := [0%Z];
     RandomWalkNegTransform.negative_num := 3;
     RandomWalkNegTransform.context_size := 2;
     RandomWalkNegTransform.repetition := 1;
     RandomWalkNegTransform.walk_p := 1%Z;
     RandomWalkNegTransform.walk_q := 1%Z;
     RandomWalkNegTransform.walk_length := Some 3%Z;
     RandomWalkNegTransform.metapath := [[0%Z]; [0%Z]; [0%Z]] |}.

Definition example_tf_ops : NeighborNegTransform.TFOps nat :=
  {| NeighborNegTransform.sample_neighbors := λ _ _ _ _ w, (Ok [], S w);
     NeighborNegTransform.sample_vertices :=
       λ _ count w,
         (Ok [Tensor [Z.to_nat count] (replicate (Z.to_nat count) 0%Z)], S w) |}.

Definition example_row (v : Z) (name : string) : list Z := replicate 5 v.

Definition example_feature_ops : MultiHopFeatureTransform.TFOps Z nat :=
  {| MultiHopFeatureTransform.sample_multi_hop :=
       λ inputs w,
         (Ok (Tensor [size inputs; 3]
                (flat_map (λ v, [v; (v + 1)%Z; (v + 1)%Z]) (data inputs)), None),
          S w);
     MultiHopFeatureTransform.get_pod_feature_float32 :=
       λ vertices names dims w,
         (Ok (flat_map (λ vs, MultiHopFeatureTransform.pod_features
                                example_row vs names dims) vertices), S w);
     MultiHopFeatureTransform.get_pod_feature_int64 :=
       λ vertices names dims w,
         (Ok (flat_map (λ vs, MultiHopFeatureTransform.pod_features
                                example_row vs names dims) vertices), S w) |}.

Definition example_feature_config : MultiHopFeatureTransform.config :=
  {| MultiHopFeatureTransform.metapath := [[0%Z]];
     MultiHopFeatureTransform.fanouts := [2];
     MultiHopFeatureTransform.edge_weight := false;
     MultiHopFeatureTransform.dense_feature_names := Some ["feature"%string];
     MultiHopFeatureTransform.dense_feature_dims :=
       MultiHopFeatureTransform.DList [5%Z];
     MultiHopFeatureTransform.sparse_feature_names := None;
     MultiHopFeatureTransform.sparse_feature_dims := MultiHopFeatureTransform.DNone |}.

(** A sampling service for [NeighborNegTransform] that answers: the
    neighbor of a vertex is its successor, the sampled vertices are all
    vertex 0; [short] makes it answer one sampled vertex too few. *)
Definition example_neighbor_ops (short : bool) : NeighborNegTransform.TFOps nat :=
  {| NeighborNegTransform.sample_neighbors :=
       λ vertices _ _ _ w,
         (Ok [Tensor [size vertices; 1] ((λ v, (v + 1)%Z) <$> data vertices)],
          S w);
     NeighborNegTransform.sample_vertices :=
       λ _ count w,
         let n := Z.to_nat count - (if short then 1 else 0) in
         (Ok [Tensor [n] (replicate n 0%Z)], S w) |}.

(** A sampling service for [RandomWalkNegTransform] that answers badly:
    with [wide], walks of three vertices instead of pairs; always, one
    sampled vertex too few. *)
Definition example_pt_ops_bad (wide : bool) : RandomWalkNegTransform.PTOps Z nat :=
  {| RandomWalkNegTransform.sample_pairs_by_random_walk :=
       λ vertices _ _ _ _ _ w,
         (Ok (Some (if wide
                    then Tensor [size vertices; 3]
                           (flat_map (λ v, [v; (v + 1)%Z; (v + 2)%Z])
                                     (data vertices))
                    else Tensor [size vertices; 2]
                           (flat_map (λ v, [v; (v + 1)%Z]) (data vertices)))),
          S w);
     RandomWalkNegTransform.sample_vertices :=
       λ _ count w,
         (Ok [Tensor [Z.to_nat count - 1] (replicate (Z.to_nat count - 1) 0%Z)],
          S w) |}.

(** A feature service that refuses a list of vertices in which a vertex
    occurs twice, and answers as [example_feature_ops] otherwise. *)
Definition example_feature_ops_strict : MultiHopFeatureTransform.TFOps Z nat :=
  {| MultiHopFeatureTransform.sample_multi_hop :=
       MultiHopFeatureTransform.sample_multi_hop example_feature_ops;
     MultiHopFeatureTransform.get_pod_feature_float32 :=
       λ vertices names dims w,
         if bool_decide (Forall (λ vs, NoDup (data vs)) vertices)
         then MultiHopFeatureTransform.get_pod_feature_float32
                example_feature_ops vertices names dims w
         else (Raise InvalidArgumentError, w);
     MultiHopFeatureTransform.get_pod_feature_int64 :=
       λ vertices names dims w,
         if bool_decide (Forall (λ vs, NoDup (data vs)) vertices)
         then MultiHopFeatureTransform.get_pod_feature_int64
                example_feature_ops vertices names dims w
         else (Raise InvalidArgumentError, w) |}.

(** A config with two sparse features and no dense feature, a service
    whose int64 features are one number per vertex and name. *)
Definition example_sparse_config : MultiHopFeatureTransform.config :=
  {| MultiHopFeatureTransform.metapath := [[0%Z]];
     MultiHopFeatureTransform.fanouts := [2];
     MultiHopFeatureTransform.edge_weight := false;
     MultiHopFeatureTransform.dense_feature_names := None;
     MultiHopFeatureTransform.dense_feature_dims := MultiHopFeatureTransform.DNone;
     MultiHopFeatureTransform.sparse_feature_names :=
       Some ["id"%string; "kind"%string];
     MultiHopFeatureTransform.sparse_feature_dims :=
       MultiHopFeatureTransform.DList [1%Z; 1%Z] |}.

Definition example_sparse_row (v : Z) (name : string) : list Z := [v].

Definition example_sparse_ops : MultiHopFeatureTransform.TFOps Z nat :=
  {| MultiHopFeatureTransform.sample_multi_hop :=
       MultiHopFeatureTransform.sample_multi_hop example_feature_ops;
     MultiHopFeatureTransform.get_pod_feature_float32 :=
       MultiHopFeatureTransform.get_pod_feature_float32 example_feature_ops;
     MultiHopFeatureTransform.get_pod_feature_int64 :=
       λ vertices names dims w,
         (Ok (flat_map (λ vs, MultiHopFeatureTransform.pod_features
                                example_sparse_row vs names dims) vertices),
          S w) |}.

(** ** The example [custom_save_predict_fn] *)

(** [os.path.join(a, b)] on POSIX paths. *)
Definition starts_with_slash (s : string) : bool :=
  match s with
  | String c _ => bool_decide (c = "/"%char)
  | EmptyString => false
  end.

Fixpoint ends_with_slash (s : string) : bool :=
  match s with
  | EmptyString => false
  | String c EmptyString => bool_decide (c = "/"%char)
  | String _ s' => ends_with_slash s'
  end.

Definition os_path_join (a b : string) : string :=
  if starts_with_slash b then b
  else if bool_decide (a = EmptyString) || ends_with_slash a then a +:+ b
  else a +:+ "/" +:+ b.

Definition newline : string := String (Ascii.ascii_of_nat 10) EmptyString.

(** [numpy.ndarray.squeeze()]: the dimensions of size 1 are dropped. *)
Definition np_squeeze {A} (t : tensor A) : tensor A :=
  Tensor (filter (λ d, d ≠ 1) (shape t)) (data t).

(** Iterating a numpy array goes over its first axis; a 0-d array and a
    numpy scalar cannot be iterated. *)
Definition np_iter {A} (t : tensor A) : result (list (tensor A)) :=
  match shape t with
  | [] => Raise TypeError
  | n :: rest =>
      Ok ((λ k, Tensor rest (block (numel rest) k (data t))) <$> seq 0 n)
  end.

Section save_predict.
Context {F : Type}.
(** [f'{e:.6f}'] on a float. *)
Variable format_6f : F → string.

(** [f',{e:.6f}'] for an entry [e] of a row: only a scalar can be
    formatted with [.6f]. *)
Definition format_entry (e : tensor F) : result string :=
  match shape e, data e with
  | [], x :: _ => Ok ("," +:+ format_6f x)
  | _, _ => Raise TypeError
  end.

(** The body of the outer loop up to [f.write]. *)
Definition format_line (i : Z) (emb : tensor F) : result string :=
  entries ← np_iter emb;
  fields ← mapM format_entry entries;
  Ok (foldl (λ line field, line +:+ field) (pretty i) fields).

(** The outer loop over [zip(ids, embeddings)]; [content] is what has
    been written to the file. *)
Fixpoint write_rows (rows : list (Z * tensor F)) (content : string)
  : result () * string :=
  match rows with
  | [] => (Ok (), content)
  | (i, emb) :: rows' =>
      match format_line i emb with
      | Ok line => write_rows rows' (content +:+ line +:+ newline)
      | Raise e => (Raise e, content)
      end
  end.

(** [custom_save_predict_fn]; [files] maps the paths of the files to
    their contents.  Opening the file for writing empties it; what was
    written stays in it when the loop raises. *)
Definition custom_save_predict_fn (ids : tensor Z) (embeddings : tensor F)
    (save_dir : string) (task_id : Z) (files : gmap string string)
  : result () * gmap string string :=
  let embedding_file :=
    os_path_join save_dir ("embedding_" +:+ pretty task_id +:+ ".csv") in
  let ids := data ids in
  let embeddings := np_squeeze embeddings in
  let '(r, content) :=
    match np_iter embeddings with
    | Ok rows => write_rows (zip ids rows) EmptyString
    | Raise e => (Raise e, EmptyString)
    end in
  (r, <[embedding_file := content]> files).

End save_predict.

(** The six digits of [.6f] are not modelled: in the examples a float is
    stood for by an integer and printed with six zeros. *)
Definition example_format_6f (x : Z) : string := pretty x +:+ ".000000".

(** ** The example [SAGEEncode] *)

Module SAGEEncode.
Section sage_encode.
Context {F : Type}.
Variable F_leb : F → F → bool.
Variable get_fanouts_indices : list nat → list nat.

(** A [SAGESparseLayer], which is not part of the sources, is stood for
    by the arguments it is built with; [activation] is None when it is not
    given. *)
Record layer := {
  layer_hidden_dim : Z;
  layer_aggregator_name : string;
  layer_activation : option string;
  layer_dropout_rate : F;
}.

Record t := {
  hidden_dim : Z;
  dense_feature_dims : list Z;
  fanouts : list nat;
  aggregator_name : string;
  dropout_rate : F;
  (** the [FeatureCombiner], stood for by its argument *)
  feature_combiner : list Z;
  num_layers : nat;
  layers : list layer;
  (** the transform whose [transform] method is [self.relation] *)
  relation : RelationTransform.t;
}.

(** [__init__], the constructors of the base class, of [FeatureCombiner]
    and of [SAGESparseLayer] taken to return. *)
Definition init (hidden_dim : Z) (dense_feature_dims : list Z)
    (fanouts : list nat) (aggregator_name : string) (dropout_rate : F)
  : result t :=
  let num_layers := length fanouts in
  let layers :=
    replicate (num_layers - 1)
      {| layer_hidden_dim := hidden_dim;
         layer_aggregator_name := aggregator_name;
         layer_activation := Some "relu"%string;
         layer_dropout_rate := dropout_rate |} in
  let layers :=
    layers ++ [{| layer_hidden_dim := hidden_dim;
                  layer_aggregator_name := aggregator_name;
                  layer_activation := None;
                  layer_dropout_rate := dropout_rate |}] in
  relation ← RelationTransform.init get_fanouts_indices fanouts false;
  Ok {| hidden_dim := hidden_dim;
        dense_feature_dims := dense_feature_dims;
        fanouts := fanouts;
        aggregator_name := aggregator_name;
        dropout_rate := dropout_rate;
        feature_combiner := dense_feature_dims;
        num_layers := num_layers;
        layers := layers;
        relation := relation |}.

(** Calling the feature combiner and calling a layer are not part of the
    sources: they answer a feature tensor and leave the dict they are given
    in some state. *)
Variable feature_combiner_call :
  list Z → gmap string (value F) → result (tensor F * gmap string (value F)).
Variable layer_call :
  layer → gmap string (value F) → result (tensor F * gmap string (value F)).

(** [for layer in self.layers: relation_graph['feature'] = feature;
    feature = layer(relation_graph)]. *)
Fixpoint run_layers (layers : list layer)
    (relation_graph : gmap string (value F)) (feature : tensor F)
  : result (gmap string (value F) * tensor F) :=
  match layers with
  | [] => Ok (relation_graph, feature)
  | layer :: layers' =>
      '(feature, relation_graph) ←
        layer_call layer (<["feature"%string := VFloat feature]> relation_graph);
      run_layers layers' relation_graph feature
  end.

(** [tf.gather(feature, target_indices)]: the indices are integers in
    the range of the first axis. *)
Definition gather_targets (feature : tensor F) (target_indices : value F)
  : result (tensor F) :=
  match target_indices with
  | VInt ti =>
      if bool_decide (Forall (λ z, (0 ≤ z)%Z) (data ti))
      then tf_gather feature (Tensor (shape ti) (Z.to_nat <$> data ti)) 0
      else Raise InvalidArgumentError
  | VFloat _ => Raise InvalidArgumentError
  | VNone => Raise ValueError
  end.

Definition call (self : t) (inputs : gmap string (value F))
  : result (tensor F) :=
  '(feature, inputs) ← feature_combiner_call (feature_combiner self) inputs;
  relation_graph ←
    RelationTransform.transform F_leb (relation self)
      (RelationTransform.InDict inputs);
  '(relation_graph, feature) ← run_layers (layers self) relation_graph feature;
  target_indices ←
    match relation_graph !! "target_indices"%string with
    | Some v => Ok v
    | None => Raise KeyError
    end;
  gather_targets feature target_indices.
End sage_encode.
Arguments layer F : clear implicits.
Arguments t F : clear implicits.
End SAGEEncode.

(** Layers for the examples: the combiner answers the dense features, a
    layer doubles every number. *)
Definition example_combiner (dims : list Z) (inputs : gmap string (value Z))
  : result (tensor Z * gmap string (value Z)) :=
  match inputs !! "dense"%string with
  | Some (VFloat x) => Ok (x, inputs)
  | _ => Raise KeyError
  end.

Definition example_layer (l : SAGEEncode.layer Z) (graph : gmap string (value Z))
  : result (tensor Z * gmap string (value Z)) :=
  match graph !! "feature"%string with
  | Some (VFloat x) => Ok (Tensor (shape x) ((λ z, (2 * z)%Z) <$> data x), graph)
  | _ => Raise KeyError
  end.

(** An encoder for the fanouts [[2, 3]] and its inputs: the table of
    indices of two vertices and one feature per vertex id. *)
Definition example_encoder : SAGEEncode.t Z :=
  {| SAGEEncode.hidden_dim := 1;
     SAGEEncode.dense_feature_dims := [1%Z];
     SAGEEncode.fanouts := [2; 3];
     SAGEEncode.aggregator_name := "mean";
     SAGEEncode.dropout_rate := 0%Z;
     SAGEEncode.feature_combiner := [1%Z];
     SAGEEncode.num_layers := 2;
     SAGEEncode.layers :=
       [ {| SAGEEncode.layer_hidden_dim := 1;
            SAGEEncode.layer_aggregator_name := "mean";
            SAGEEncode.layer_activation := Some "relu"%string;
            SAGEEncode.layer_dropout_rate := 0%Z |};
         {| SAGEEncode.layer_hidden_dim := 1;
            SAGEEncode.layer_aggregator_name := "mean";
            SAGEEncode.layer_activation := None;
            SAGEEncode.layer_dropout_rate := 0%Z |} ];
     SAGEEncode.relation := example_transform false |}.

Definition example_encoder_inputs : gmap string (value Z) :=
  <["indices"%string := VInt (Tensor [2; 9] example_ids)]>
    {["dense"%string
      := VFloat (Tensor [10; 1] [0; 10; 20; 30; 40; 50; 60; 70; 80; 90]%Z)]}.

Definition example_relation_graph : gmap string (value Z) :=
  match RelationTransform.transform Z.leb (example_transform false)
          (RelationTransform.InDict example_encoder_inputs) with
  | Ok graph => graph
  | Raise _ => ∅
  end.

(** ** The example [Inputs] of node2vec *)

Module Node2vecInputs.
Section node2vec_inputs.
Context {F W : Type}.

(** The entries of [self.config] that [transform] reads. *)
Record config := {
  vertex_type : list Z;
  edge_types : list Z;
  context_size : Z;
  negative_num : Z;
  walk_length : Z;
  repetition : Z;
  walk_p : F;
  walk_q : F;
}.

(** The two calls into the sampling service.  [transform] splits what
    [sample_pairs_by_random_walk] answers without looking at it: the model
    covers a sampler that answers a tensor of pairs. *)
Record PTOps := {
  sample_pairs_by_random_walk :
    tensor Z → list (list Z) → Z → Z → F → F → M W (tensor Z);
  sample_vertices : list Z → Z → M W (list (tensor Z));
}.

(** [transform].  [inputs.view(-1)] shares the storage of [inputs]: it
    needs strides that allow a flat view, as those of a contiguous tensor
    do, and raises RuntimeError otherwise.  The strides of a tensor are not
    modelled: [flat_viewable] says whether those of [inputs] allow it. *)
Definition transform (ops : PTOps) (self : config) (inputs : tensor Z)
    (flat_viewable : bool) : M W (gmap string (tensor Z)) :=
  let metapath := py_repeat (edge_types self) (walk_length self) in
  vertices ← lift (if flat_viewable
                   then torch_view inputs [(-1)%Z]
                   else Raise RuntimeError);
  pairs ← sample_pairs_by_random_walk ops vertices metapath
            (repetition self) (context_size self) (walk_p self) (walk_q self);
  '(target, context) ← lift (
    pieces ← torch_split_last pairs [1; 1];
    match pieces with
    | [target; context] => Ok (target, context)
    | _ => Raise ValueError
    end);
  size0 ← lift (torch_size0 pairs);
  sampled ← sample_vertices ops (vertex_type self)
              (negative_num self * Z.of_nat size0)%Z;
  negative ← lift (
    negative ← py_index sampled 0;
    torch_view negative [Z.of_nat size0; negative_num self]);
  mret (<["target"%string := target]>
        (<["context"%string := context]>
        (<["negative"%string := negative]> ∅))).

(** The same service seen through [galileo.pytorch.ops], whose sampler
    of pairs may answer None. *)
Definition as_library_ops (ops : PTOps) : RandomWalkNegTransform.PTOps F W :=
  {| RandomWalkNegTransform.sample_pairs_by_random_walk :=
       λ vertices metapath repetition context_size p q w,
         let '(r, w') := sample_pairs_by_random_walk ops vertices metapath
                           repetition context_size p q w in
         (Some <$> r, w');
     RandomWalkNegTransform.sample_vertices := sample_vertices ops |}.
End node2vec_inputs.
Arguments config F : clear implicits.
Arguments PTOps F W : clear implicits.
End Node2vecInputs.

(** The config of the example's [main] and a service that answers as
    [example_pt_ops]. *)
Definition example_node2vec_config : Node2vecInputs.config Z :=
  {| Node2vecInputs.vertex_type := [0%Z];
     Node2vecInputs.edge_types := [0%Z];
     Node2vecInputs.context_size := 2;
     Node2vecInputs.negative_num := 5;
     Node2vecInputs.walk_length := 3;
     Node2vecInputs.repetition := 5;
     Node2vecInputs.walk_p := 1%Z;
     Node2vecInputs.walk_q := 1%Z |}.

Definition example_node2vec_ops : Node2vecInputs.PTOps Z nat :=
  {| Node2vecInputs.sample_pairs_by_random_walk :=
       λ vertices _ _ _ _ _ w,
         (Ok (Tensor [size vertices; 2]
                (flat_map (λ v, [v; (v + 1)%Z]) (data vertices))), S w);
     Node2vecInputs.sample_vertices :=
       RandomWalkNegTransform.sample_vertices (example_pt_ops false) |}.

(** * Properties *)

(** ** The operators on small tensors *)

Example reshape_infer :
  tf_reshape (vector [1;2;3;4;5;6]%Z) [-1; 3]%Z = Ok (Tensor [2;3] [1;2;3;4;5;6]%Z).
Proof. reflexivity. Qed.

Example reshape_mismatch :
  tf_reshape (vector [1;2;3;4;5]%Z) [-1; 3]%Z = Raise InvalidArgumentError.
Proof. reflexivity. Qed.

Example transpose_2x3 :
  tf_transpose (Tensor [2;3] [1;2;3;4;5;6]%Z) = Tensor [3;2] [1;4;2;5;3;6]%Z.
Proof. reflexivity. Qed.

Example transpose_2x2x2 :
  tf_transpose (Tensor [2;2;2] [0;1;2;3;4;5;6;7]%Z) = Tensor [2;2;2] [0;4;2;6;1;5;3;7]%Z.
Proof. reflexivity. Qed.

Example argsort_stable :
  tf_argsort Z.leb (vector [3;1;3;0;1]%Z) = Ok (Tensor [5] [3;1;4;0;2]).
Proof. reflexivity. Qed.

Example unique_example :
  tf_unique (vector [7;3;7;9;3]%Z) = Ok (vector [7;3;9]%Z, Tensor [5] [0;1;0;2;1]).
Proof. reflexivity. Qed.

Example concat_last :
  tf_concat [Tensor [2;1] [1;2]%Z; Tensor [2;2] [3;4;5;6]%Z] (-1)
  = Ok (Tensor [2;3] [1;3;4;2;5;6]%Z).
Proof. reflexivity. Qed.

Example tail_columns_2x3 :
  tf_tail_columns (Tensor [2;3] [1;2;3;4;5;6]%Z) = Ok (Tensor [2;2] [2;3;5;6]%Z).
Proof. reflexivity. Qed.

(** ** Blocks of a flat list *)

Section block_lemmas.
Context {A : Type}.
Implicit Types l : list A.

Lemma lookup_block p i l k : k < p → block p i l !! k = l !! (i * p + k).
Proof. intros Hk. unfold block. by rewrite lookup_take_lt, lookup_drop. Qed.

Lemma lookup_block_ge p i l k : p ≤ k → block p i l !! k = None.
Proof. intros Hk. unfold block. by rewrite lookup_take_ge. Qed.

Lemma length_block p i l : i * p + p ≤ length l → length (block p i l) = p.
Proof. intros Hl. unfold block. rewrite length_take, length_drop. lia. Qed.

Lemma block_in_block c i j l :
  j < c → block 1 j (block c i l) = block 1 (i * c + j) l.
Proof.
  intros Hj. apply list_eq. intros k.
  destruct (decide (k < 1)) as [Hk|Hk].
  - rewrite !lookup_block by lia. f_equal. lia.
  - rewrite !lookup_block_ge by lia. done.
Qed.

Lemma length_flat_map_const {B} (f : B → list A) (xs : list B) p :
  (∀ y, y ∈ xs → length (f y) = p) → length (flat_map f xs) = length xs * p.
Proof.
  intros Hf. apply flat_map_constant_length.
  intros y Hy. apply Hf. by apply list_elem_of_In.
Qed.

Lemma lookup_flat_map_const {B} (f : B → list A) (xs : list B) p i k x :
  (∀ y, y ∈ xs → length (f y) = p) → xs !! i = Some x → k < p →
  flat_map f xs !! (i * p + k) = f x !! k.
Proof.
  revert i. induction xs as [|y xs IH]; intros i Hf Hi Hk; [done|].
  simpl. destruct i as [|i]; simpl in *.
  - simplify_eq. rewrite lookup_app_l; [done|].
    rewrite (Hf x); [done|left].
  - rewrite lookup_app_r by (rewrite (Hf y); [lia|left]).
    rewrite (Hf y) by left.
    replace (p + i * p + k - p) with (i * p + k) by lia.
    apply IH; [|done..]. intros z Hz. apply Hf. by right.
Qed.

Lemma flat_map_blocks n l :
  n ≤ length l → flat_map (λ i, block 1 i l) (seq 0 n) = take n l.
Proof.
  intros Hn. apply list_eq. intros k.
  destruct (decide (k < n)) as [Hk|Hk].
  - replace k with (k * 1 + 0) at 1 by lia.
    rewrite (lookup_flat_map_const _ _ 1 k 0 k).
    + rewrite lookup_block, lookup_take_lt by lia. f_equal. lia.
    + intros y Hy. apply elem_of_seq in Hy. apply length_block. lia.
    + apply lookup_seq_lt. lia.
    + lia.
  - rewrite lookup_take_ge by lia. apply lookup_ge_None_2.
    rewrite (length_flat_map_const _ _ 1), length_seq; [lia|].
    intros y Hy. apply elem_of_seq in Hy. apply length_block. lia.
Qed.
End block_lemmas.

(** ** Matrices: rows, columns, transposition *)

Section matrix_lemmas.
Context {A : Type}.
Implicit Types l : list A.

Lemma flat_map_ext_elem {B} (f g : B → list A) (xs : list B) :
  (∀ x, x ∈ xs → f x = g x) → flat_map f xs = flat_map g xs.
Proof.
  induction xs as [|x xs IH]; intros Hfg; [done|]. simpl.
  rewrite (Hfg x) by left. f_equal. apply IH. intros y Hy. apply Hfg. by right.
Qed.

Lemma length_column r c j l :
  r * c ≤ length l → j < c → length (column r c j l) = r.
Proof.
  intros Hl Hj. unfold column.
  rewrite (length_flat_map_const _ _ 1), length_seq; [lia|].
  intros i Hi. apply elem_of_seq in Hi. apply length_block. nia.
Qed.

Lemma lookup_column r c j l i :
  r * c ≤ length l → j < c → i < r → column r c j l !! i = l !! (i * c + j).
Proof.
  intros Hl Hj Hi. unfold column.
  replace i with (i * 1 + 0) at 1 by lia.
  rewrite (lookup_flat_map_const _ _ 1 i 0 i).
  - rewrite lookup_block by lia. f_equal. lia.
  - intros y Hy. apply elem_of_seq in Hy. apply length_block. nia.
  - apply lookup_seq_lt. lia.
  - lia.
Qed.

Lemma transpose_data_vector c l : c ≤ length l → transpose_data [c] l = take c l.
Proof.
  intros Hl. simpl. rewrite app_nil_r.
  rewrite <- (flat_map_blocks c l) by done.
  apply flat_map_ext. intros i.
  rewrite block_in_block by lia. f_equal. lia.
Qed.

Lemma transpose_data_matrix r c l :
  length l = r * c →
  transpose_data [r; c] l = flat_map (λ j, column r c j l) (seq 0 c).
Proof.
  intros Hl. change (transpose_data [r; c] l) with
    (flat_map (λ q, flat_map (λ i,
        block 1 q (transpose_data [c] (block (numel [c]) i l))) (seq 0 r))
      (seq 0 (numel [c]))).
  replace (numel [c]) with c by (simpl; lia).
  apply flat_map_ext_elem. intros j Hj. apply elem_of_seq in Hj.
  apply flat_map_ext_elem. intros i Hi. apply elem_of_seq in Hi.
  assert (length (block c i l) = c) as Hb by (apply length_block; nia).
  rewrite transpose_data_vector by lia.
  rewrite take_ge by lia. apply block_in_block. lia.
Qed.

Lemma length_transpose_matrix r c l :
  length l = r * c → length (transpose_data [r; c] l) = c * r.
Proof.
  intros Hl. rewrite transpose_data_matrix by done.
  rewrite (length_flat_map_const _ _ r), length_seq; [done|].
  intros j Hj. apply elem_of_seq in Hj. apply length_column; lia.
Qed.

Lemma lookup_transpose_matrix r c l i j :
  length l = r * c → i < r → j < c →
  transpose_data [r; c] l !! (j * r + i) = l !! (i * c + j).
Proof.
  intros Hl Hi Hj. rewrite transpose_data_matrix by done.
  rewrite (lookup_flat_map_const _ _ r j i j).
  - apply lookup_column; lia.
  - intros y Hy. apply elem_of_seq in Hy. apply length_column; lia.
  - apply lookup_seq_lt. lia.
  - done.
Qed.
End matrix_lemmas.

(** ** Reshaping *)

Section reshape_lemmas.
Context {A : Type}.
Implicit Types t : tensor A.

Lemma foldr_mul_of_nat (sh : list nat) :
  foldr Z.mul 1%Z (Z.of_nat <$> sh) = Z.of_nat (numel sh).
Proof.
  induction sh as [|d sh IH]; [done|].
  change (Z.of_nat d * foldr Z.mul 1%Z (Z.of_nat <$> sh)
          = Z.of_nat (d * numel sh))%Z.
  rewrite IH. lia.
Qed.

Lemma filter_of_nat_ne (sh : list nat) :
  filter (λ d, d ≠ (-1)%Z) (Z.of_nat <$> sh) = Z.of_nat <$> sh.
Proof.
  induction sh as [|d sh IH]; [done|]. rewrite fmap_cons.
  rewrite filter_cons_True by lia. by rewrite IH.
Qed.

Lemma filter_of_nat_eq (sh : list nat) :
  filter (λ d, d = (-1)%Z) (Z.of_nat <$> sh) = [].
Proof.
  induction sh as [|d sh IH]; [done|]. rewrite fmap_cons.
  rewrite filter_cons_False by lia. done.
Qed.

(** Reshaping to an explicit shape. *)
Lemma reshape_exact t (sh : list nat) :
  tf_reshape t (Z.of_nat <$> sh)
  = if bool_decide (numel sh = size t)
    then Ok (Tensor sh (data t)) else Raise InvalidArgumentError.
Proof.
  unfold tf_reshape. cbv zeta.
  rewrite bool_decide_eq_true_2
    by (apply Forall_fmap, Forall_true; intros d; simpl; lia).
  rewrite filter_of_nat_eq, filter_of_nat_ne. rewrite foldr_mul_of_nat, Nat2Z.id. simpl.
  case_bool_decide; [|done]. do 2 f_equal.
  rewrite <- list_fmap_compose. rewrite <- (list_fmap_id sh) at 2.
  apply list_fmap_ext. intros i d _. simpl. lia.
Qed.

(** Reshaping with the first dimension inferred. *)
Lemma reshape_infer_first t (sh : list nat) :
  tf_reshape t ((-1)%Z :: (Z.of_nat <$> sh))
  = if bool_decide (numel sh ≠ 0 ∧ size t `mod` numel sh = 0)
    then Ok (Tensor (size t `div` numel sh :: sh) (data t))
    else Raise InvalidArgumentError.
Proof.
  unfold tf_reshape. cbv zeta.
  rewrite bool_decide_eq_true_2
    by (constructor; [lia|apply Forall_fmap, Forall_true; intros d; simpl; lia]).
  rewrite (filter_cons_True (λ d, d = (-1)%Z)) by done.
  rewrite (filter_cons_False (λ d, d ≠ (-1)%Z)) by (intros H; by apply H).
  rewrite filter_of_nat_eq, filter_of_nat_ne, foldr_mul_of_nat, Nat2Z.id.
  cbn [length]. case_bool_decide; [|done]. do 2 f_equal.
  rewrite fmap_cons, bool_decide_eq_true_2 by done. f_equal.
  rewrite <- list_fmap_compose. rewrite <- (list_fmap_id sh) at 2.
  apply list_fmap_ext. intros i d _. simpl.
  rewrite bool_decide_eq_false_2 by lia. lia.
Qed.

(** Reshaping to [[-1, c]]. *)
Lemma reshape_rows t (c : nat) :
  tf_reshape t [(-1)%Z; Z.of_nat c]
  = if bool_decide (c ≠ 0 ∧ size t `mod` c = 0)
    then Ok (Tensor [size t `div` c; c] (data t))
    else Raise InvalidArgumentError.
Proof.
  change [(-1)%Z; Z.of_nat c] with ((-1)%Z :: (Z.of_nat <$> [c])).
  rewrite reshape_infer_first.
  replace (numel [c]) with c by (simpl; lia). done.
Qed.

Lemma reshape_rows_exact t (n c : nat) :
  c ≠ 0 → size t = n * c →
  tf_reshape t [(-1)%Z; Z.of_nat c] = Ok (Tensor [n; c] (data t)).
Proof.
  intros Hc Hs. rewrite reshape_rows, Hs.
  rewrite bool_decide_eq_true_2 by (split; [done|by apply Nat.Div0.mod_mul]).
  by rewrite Nat.div_mul.
Qed.

(** Reshaping to [[-1]]. *)
Lemma reshape_flat t : tf_reshape t [(-1)%Z] = Ok (Tensor [size t] (data t)).
Proof.
  change [(-1)%Z] with ((-1)%Z :: (Z.of_nat <$> [])).
  rewrite reshape_infer_first. change (numel []) with 1.
  rewrite bool_decide_eq_true_2 by (split; [lia|apply Nat.mod_1_r]).
  by rewrite Nat.div_1_r.
Qed.
End reshape_lemmas.

(** ** The operators on tensors of a given shape *)

Section op_lemmas.
Context {A : Type}.
Implicit Types l : list A.

Lemma bind_Ok {B C} (a : B) (f : B → result C) : Ok a ≫= f = f a.
Proof. done. Qed.

Lemma Ok_inj {B} (b b' : B) : Ok b = Ok b' → b = b'.
Proof. intros H. by inversion H. Qed.

Lemma Ok_pair_inj {B C} (b b' : B) (c c' : C) :
  Ok (b, c) = Ok (b', c') → b = b' ∧ c = c'.
Proof. intros H. by inversion H. Qed.

Lemma bind_is_Ok {B C} (m : result B) (f : B → result C) c :
  m ≫= f = Ok c → ∃ b, m = Ok b ∧ f b = Ok c.
Proof. destruct m as [b|e]; [eauto|done]. Qed.

Lemma tf_transpose_matrix r c l :
  tf_transpose (Tensor [r; c] l) = Tensor [c; r] (transpose_data [r; c] l).
Proof. done. Qed.

Lemma tf_index_cons d rest l i :
  i < d →
  tf_index (Tensor (d :: rest) l) i = Ok (Tensor rest (block (numel rest) i l)).
Proof. intros Hi. unfold tf_index. simpl. by rewrite bool_decide_eq_true_2. Qed.

Lemma tf_gather_rows d rest l (idx : tensor nat) :
  Forall (λ i, i < d) (data idx) →
  tf_gather (Tensor (d :: rest) l) idx 0
  = Ok (Tensor (shape idx ++ rest) (gather_blocks (numel rest) (data idx) l)).
Proof. intros Hi. unfold tf_gather. simpl. by rewrite bool_decide_eq_true_2. Qed.

Lemma tf_gather_rows_inv d rest l (idx : tensor nat) g :
  tf_gather (Tensor (d :: rest) l) idx 0 = Ok g →
  Forall (λ i, i < d) (data idx).
Proof. unfold tf_gather. cbn [shape]. by case_bool_decide. Qed.

Lemma tf_split_inv d rest l num parts :
  tf_split (Tensor (d :: rest) l) num = Ok parts → num ≠ 0 ∧ d `mod` num = 0.
Proof. unfold tf_split. cbn [shape]. by case_bool_decide. Qed.

Lemma tf_gather_columns a b rest l (idx : tensor nat) :
  Forall (λ i, i < b) (data idx) →
  tf_gather (Tensor (a :: b :: rest) l) idx 1
  = Ok (Tensor (a :: shape idx ++ rest)
          (flat_map (λ o, gather_blocks (numel rest) (data idx)
                            (block (b * numel rest) o l)) (seq 0 a))).
Proof. intros Hi. unfold tf_gather. simpl. by rewrite bool_decide_eq_true_2. Qed.

Lemma tf_split_cons d rest l num :
  num ≠ 0 → d `mod` num = 0 →
  tf_split (Tensor (d :: rest) l) num
  = Ok ((λ k, Tensor (d `div` num :: rest)
                (block (d `div` num * numel rest) k l)) <$> seq 0 num).
Proof. intros Hn Hd. unfold tf_split. simpl. by rewrite bool_decide_eq_true_2. Qed.

Lemma length_gather_blocks p idx l :
  Forall (λ i, i * p + p ≤ length l) idx →
  length (gather_blocks p idx l) = length idx * p.
Proof.
  intros Hi. unfold gather_blocks. apply length_flat_map_const.
  intros i Hin. apply length_block. by eapply Forall_forall in Hi.
Qed.

(** Concatenating [num] matrices with [r] rows and [c] columns each along
    the columns. *)
Lemma tf_concat_columns (parts : list (tensor A)) r c :
  parts ≠ [] → Forall (λ t, shape t = [r; c]) parts →
  tf_concat parts 1
  = Ok (Tensor [r; length parts * c]
          (flat_map (λ o, flat_map (λ t, block c o (data t)) parts) (seq 0 r))).
Proof.
  intros Hne Hsh. destruct parts as [|t0 parts]; [done|].
  pose proof (Forall_inv Hsh) as Ht0.
  unfold tf_concat. cbv zeta.
  rewrite (bool_decide_eq_false_2 (1 < 0)%Z) by lia.
  rewrite (bool_decide_eq_true_2 (0 ≤ 1)%Z) by lia. change (Z.to_nat 1) with 1.
  unfold tf_concat_at. rewrite Ht0.
  rewrite bool_decide_eq_true_2.
  2:{ eapply Forall_impl; [exact Hsh|]. intros t Ht.
      unfold concat_compatible, rank. rewrite Ht. simpl. auto. }
  do 2 f_equal.
  - simpl. do 2 f_equal.
    assert (∀ ts : list (tensor A), Forall (λ t, shape t = [r; c]) ts →
              sum_list (axis_dim 1 <$> ts) = length ts * c) as Hsum.
    { induction 1 as [|t ts Ht _ IH]; [done|].
      rewrite fmap_cons. simpl. rewrite IH. unfold axis_dim. by rewrite Ht. }
    pose proof (Hsum _ Hsh) as Hs. rewrite fmap_cons in Hs. simpl in Hs. done.
  - replace (numel (take 1 [r; c])) with r by (simpl; lia).
    apply flat_map_ext. intros o.
    apply flat_map_ext_elem. intros t Ht.
    eapply Forall_forall in Hsh; [|exact Ht].
    unfold axis_dim. rewrite Hsh. simpl. f_equal. lia.
Qed.

Lemma tf_tail_columns_cons a b rest l :
  tf_tail_columns (Tensor (a :: b :: rest) l)
  = Ok (Tensor (a :: (b - 1) :: rest)
          (flat_map (λ o, drop (numel rest) (block (b * numel rest) o l)) (seq 0 a))).
Proof. done. Qed.
End op_lemmas.

(** ** [RelationTransform]: the relation indices *)

Section relation_of_lemmas.
Import RelationTransform.
Context {A : Type} (leb : A → A → bool).
Implicit Types (self : t) (indices : tensor A).

Lemma numel_singleton n : numel [n] = n.
Proof. simpl. lia. Qed.

Lemma numel_matrix r c : numel [r; c] = r * c.
Proof. simpl. lia. Qed.

Lemma flat_map_fmap {B C} (f : C → list A) (g : B → C) (xs : list B) :
  flat_map f (g <$> xs) = flat_map (λ x, f (g x)) xs.
Proof.
  induction xs as [|x xs IH]; [done|].
  rewrite fmap_cons. cbn [flat_map]. by rewrite IH.
Qed.

(** What [relation_of] computes without sorting. *)
Lemma relation_of_unsorted self indices N :
  sort_indices self = false →
  fanouts_dim self ≠ 0 →
  size indices = N * fanouts_dim self →
  Forall (λ i, i < fanouts_dim self) (fanouts_indices self) →
  let num := length (fanouts_indices self) `div` 2 in
  let r := length (fanouts_indices self) `div` num in
  num ≠ 0 → length (fanouts_indices self) `mod` num = 0 →
  relation_of leb self indices
  = target_indices ← target_of indices N (fanouts_dim self);
    Ok (Tensor [r; num * N]
          (relation_data r num N (fanouts_indices self)
             (transpose_data [N; fanouts_dim self] (data indices))),
        target_indices).
Proof.
  intros Hsort Hfd Hsize Hrange num r Hnum Hmod.
  unfold relation_of, target_of. cbv zeta.
  rewrite (reshape_rows_exact _ N) by done. rewrite bind_Ok.
  rewrite tf_transpose_matrix.
  rewrite !tf_index_cons by lia. rewrite numel_singleton.
  assert ((if bool_decide (2 < rank indices)
           then Ok (Tensor [N] (block N 0
                      (transpose_data [N; fanouts_dim self] (data indices))))
                ≫= λ row, tf_reshape row
                     (Z.of_nat <$> take (rank indices - 1) (shape indices))
           else Ok (Tensor [N] (block N 0
                      (transpose_data [N; fanouts_dim self] (data indices)))))
          = (if bool_decide (2 < rank indices)
             then tf_reshape (Tensor [N] (block N 0
                      (transpose_data [N; fanouts_dim self] (data indices))))
                    (Z.of_nat <$> take (rank indices - 1) (shape indices))
             else Ok (Tensor [N] (block N 0
                      (transpose_data [N; fanouts_dim self] (data indices))))))
    as -> by (by case_bool_decide).
  match goal with |- ?m ≫= _ = _ => destruct m as [tg|e] end; [|done].
  rewrite !bind_Ok.
  rewrite tf_gather_rows by done. rewrite bind_Ok.
  change (shape (vector (fanouts_indices self)) ++ [N])
    with [length (fanouts_indices self); N].
  rewrite tf_split_cons by done. rewrite bind_Ok.
  rewrite (tf_concat_columns _ r N).
  - rewrite bind_Ok, Hsort, bind_Ok. do 3 f_equal.
    + by rewrite length_fmap, length_seq.
    + unfold relation_data. apply flat_map_ext. intros o.
      rewrite flat_map_fmap. rewrite numel_singleton. done.
  - intros Hnil. apply (f_equal length) in Hnil.
    rewrite length_fmap, length_seq in Hnil. done.
  - apply Forall_fmap, Forall_true. done.
Qed.
End relation_of_lemmas.

(** ** Sorting *)

Section sort_lemmas.
Context {A : Type} (leb : A → A → bool).
Implicit Types (l : list A) (ps : list (A * nat)).

Lemma insert_by_Permutation x ps : insert_by leb x ps ≡ₚ x :: ps.
Proof.
  induction ps as [|y ps IH]; simpl; [done|].
  destruct (leb x.1 y.1); [done|]. rewrite IH. apply Permutation_swap.
Qed.

Lemma stable_sort_Permutation ps : stable_sort leb ps ≡ₚ ps.
Proof.
  induction ps as [|x ps IH]; simpl; [done|].
  rewrite insert_by_Permutation. by rewrite IH.
Qed.

Lemma length_argsort_list l : length (argsort_list leb l) = length l.
Proof.
  unfold argsort_list. rewrite length_fmap.
  rewrite (Permutation_length (stable_sort_Permutation _)).
  rewrite length_zip, length_seq. lia.
Qed.

Lemma argsort_list_Permutation l : argsort_list leb l ≡ₚ seq 0 (length l).
Proof.
  unfold argsort_list. rewrite stable_sort_Permutation.
  rewrite snd_zip; [done|]. by rewrite length_seq.
Qed.

Lemma argsort_list_bound l : Forall (λ i, i < length l) (argsort_list leb l).
Proof.
  rewrite argsort_list_Permutation. apply Forall_seq. lia.
Qed.

Hypothesis leb_total : ∀ x y, leb x y = true ∨ leb y x = true.

Let le_key (p q : A * nat) : Prop := leb p.1 q.1 = true.

Lemma insert_by_Sorted x ps : Sorted le_key ps → Sorted le_key (insert_by leb x ps).
Proof.
  induction 1 as [|y ps Hs IH Hhd]; simpl.
  - repeat constructor.
  - destruct (leb x.1 y.1) eqn:Hxy.
    + constructor; [by constructor|]. by constructor.
    + constructor; [done|].
      destruct ps as [|z ps]; simpl.
      * constructor. unfold le_key. destruct (leb_total x.1 y.1); congruence.
      * destruct (leb x.1 z.1).
        -- constructor. unfold le_key. destruct (leb_total x.1 y.1); congruence.
        -- constructor. by inversion Hhd.
Qed.

Lemma stable_sort_Sorted ps : Sorted le_key (stable_sort leb ps).
Proof.
  induction ps as [|x ps IH]; simpl; [constructor|]. by apply insert_by_Sorted.
Qed.

Lemma Sorted_fst ps :
  Sorted le_key ps → Sorted (λ x y, leb x y = true) ps.*1.
Proof.
  induction 1 as [|y ps Hs IH Hhd]; simpl; [constructor|].
  constructor; [done|]. destruct Hhd; simpl; by constructor.
Qed.

Lemma block_singleton l k v : l !! k = Some v → block 1 k l = [v].
Proof.
  intros Hk. apply list_eq. intros i. destruct i as [|i].
  - rewrite lookup_block by lia. simpl. rewrite <- Hk. f_equal. lia.
  - by rewrite lookup_block_ge by lia.
Qed.

(** The elements of [l] taken in the order of [argsort_list] are the
    sorted keys. *)
Lemma gather_argsort_list l :
  gather_blocks 1 (argsort_list leb l) l
  = (stable_sort leb (zip l (seq 0 (length l)))).*1.
Proof.
  unfold argsort_list, gather_blocks.
  assert (Forall (λ p, l !! p.2 = Some p.1)
            (stable_sort leb (zip l (seq 0 (length l))))) as Hps.
  { rewrite stable_sort_Permutation. apply Forall_forall. intros [v k] Hin.
    apply list_elem_of_lookup in Hin as [i Hi].
    apply lookup_zip_Some in Hi as [Hv Hk]. simpl.
    apply lookup_seq in Hk as [-> _]. done. }
  induction Hps as [|[v k] ps Hp _ IH]; [done|].
  rewrite !fmap_cons. cbn [flat_map fst snd]. rewrite IH.
  simpl in Hp. by rewrite (block_singleton _ _ _ Hp).
Qed.

Lemma gather_argsort_list_Sorted l :
  Sorted (λ x y, leb x y = true) (gather_blocks 1 (argsort_list leb l) l).
Proof. rewrite gather_argsort_list. apply Sorted_fst, stable_sort_Sorted. Qed.
End sort_lemmas.

(** ** [RelationTransform]: sorting the relation indices *)

Section sorted_by_first_row_lemmas.
Import RelationTransform.
Context {A : Type} (leb : A → A → bool).
Implicit Types (l : list A).

Lemma block_flat_map_const {B} (f : B → list A) (xs : list B) p i x :
  (∀ y, y ∈ xs → length (f y) = p) → xs !! i = Some x →
  block p i (flat_map f xs) = f x.
Proof.
  intros Hf Hi. apply list_eq. intros k.
  destruct (decide (k < p)) as [Hk|Hk].
  - rewrite lookup_block by done. by apply lookup_flat_map_const.
  - rewrite lookup_block_ge by lia. symmetry. apply lookup_ge_None_2.
    rewrite (Hf x); [lia|]. apply list_elem_of_lookup. eauto.
Qed.

Lemma block_0_idem p l : block p 0 (block p 0 l) = block p 0 l.
Proof. unfold block. rewrite Nat.mul_0_l, !drop_0, take_take. f_equal. lia. Qed.

Lemma tf_argsort_vector n l :
  tf_argsort leb (Tensor [n] l)
  = Ok (Tensor [n] (argsort_list leb (block n 0 l) ++ [])).
Proof. done. Qed.

Lemma fmap_lookup_seq {B} (f : nat → B) (idx : list nat) :
  (λ j, f (default 0 (idx !! j))) <$> seq 0 (length idx) = f <$> idx.
Proof.
  apply list_eq. intros j. rewrite !list_lookup_fmap.
  destruct (decide (j < length idx)) as [Hj|Hj].
  - rewrite lookup_seq_lt by done. simpl.
    destruct (lookup_lt_is_Some_2 idx j Hj) as [k Hk]. by rewrite Hk.
  - rewrite lookup_seq_ge, lookup_ge_None_2 by lia. done.
Qed.

(** Sorting an [r] x [E] matrix of relation indices. *)
Lemma sorted_by_first_row_matrix r E l :
  0 < r → length l = r * E →
  let idx := argsort_list leb (block E 0 l) in
  sorted_by_first_row leb (Tensor [r; E] l)
  = Ok (Tensor [r; E]
          (flat_map (λ o, gather_blocks 1 idx (block E o l)) (seq 0 r))).
Proof.
  intros Hr Hl idx. unfold sorted_by_first_row.
  rewrite tf_gather_rows by (repeat constructor; done). rewrite bind_Ok.
  change (Tensor (shape (scalar 0) ++ [E])
            (gather_blocks (numel [E]) (data (scalar 0)) l))
    with (Tensor [E] (block (numel [E]) 0 l ++ [])).
  rewrite tf_argsort_vector, bind_Ok.
  rewrite app_nil_r, numel_singleton, app_nil_r, block_0_idem. fold idx.
  assert (length (block E 0 l) = E) as Hrow by (apply length_block; nia).
  rewrite tf_gather_columns.
  2:{ simpl. pose proof (argsort_list_bound leb (block E 0 l)) as Hb.
      by rewrite Hrow in Hb. }
  simpl. do 2 f_equal. apply flat_map_ext. intros o. f_equal.
  f_equal. lia.
Qed.

Lemma length_sorted_data r E l (idx : list nat) :
  length l = r * E → Forall (λ i, i < E) idx →
  ∀ o, o ∈ seq 0 r → length (gather_blocks 1 idx (block E o l)) = length idx.
Proof.
  intros Hl Hidx o Ho. apply elem_of_seq in Ho.
  rewrite length_gather_blocks; [lia|].
  rewrite length_block by nia.
  eapply Forall_impl; [exact Hidx|]. simpl. lia.
Qed.

(** Column [j] of the sorted matrix is column [idx[j]] of the matrix. *)
Lemma column_sorted r E l (idx : list nat) j k :
  length l = r * E → Forall (λ i, i < E) idx → length idx = E →
  idx !! j = Some k →
  column r E j (flat_map (λ o, gather_blocks 1 idx (block E o l)) (seq 0 r))
  = column r E k l.
Proof.
  intros Hl Hidx Hlen Hj. unfold column.
  assert (j < E) as HjE by (rewrite <- Hlen; by eapply lookup_lt_Some).
  assert (k < E) as HkE by (eapply Forall_lookup_1 in Hidx; eauto).
  apply flat_map_ext_elem. intros i Hi.
  pose proof Hi as Hi'. apply elem_of_seq in Hi'.
  rewrite <- !block_in_block by done.
  rewrite (block_flat_map_const _ _ E i i).
  - unfold gather_blocks at 1.
    rewrite (block_flat_map_const _ _ 1 j k); [done| |done].
    intros y Hy. apply length_block.
    assert (i * E + E ≤ r * E) by nia.
    rewrite length_block by lia.
    rewrite Forall_forall in Hidx. specialize (Hidx y Hy). simpl in Hidx. lia.
  - intros o Ho. by rewrite (length_sorted_data r E l idx).
  - apply lookup_seq_lt. lia.
Qed.

Lemma sorted_by_first_row_spec (R : tensor A) r E :
  shape R = [r; E] → 0 < r → wf R →
  ∃ R', sorted_by_first_row leb R = Ok R'
        ∧ shape R' = [r; E] ∧ wf R'
        ∧ columns R' ≡ₚ columns R
        ∧ first_row R' = gather_blocks 1 (argsort_list leb (first_row R)) (first_row R).
Proof.
  destruct R as [sh l]. unfold wf, first_row, columns. simpl.
  intros -> Hr Hl. simpl in Hl. rewrite Nat.mul_1_r in Hl.
  rewrite sorted_by_first_row_matrix by done.
  set (idx := argsort_list leb (block E 0 l)).
  assert (length (block E 0 l) = E) as Hrow by (apply length_block; nia).
  assert (length idx = E) as Hlen by (unfold idx; by rewrite length_argsort_list).
  assert (Forall (λ i, i < E) idx) as Hidx.
  { pose proof (argsort_list_bound leb (block E 0 l)) as Hb.
    by rewrite Hrow in Hb. }
  eexists. split; [done|]. simpl. split; [done|].
  split; [|split].
  - rewrite (length_flat_map_const _ _ E), length_seq; [lia|].
    intros o Ho. by rewrite (length_sorted_data r E l idx).
  - set (l' := flat_map _ _).
    replace ((λ j, column r E j l') <$> seq 0 E)
      with ((λ k, column r E k l) <$> idx).
    + apply fmap_Permutation. unfold idx.
      rewrite argsort_list_Permutation. by rewrite Hrow.
    + rewrite <- (fmap_lookup_seq (λ k, column r E k l) idx), Hlen.
      apply list_fmap_ext. intros i j Hj.
      apply lookup_seq in Hj as [-> Hj]. simpl. rewrite <- Hlen in Hj.
      destruct (lookup_lt_is_Some_2 idx i Hj) as [k Hk]. rewrite Hk. simpl.
      symmetry. by apply column_sorted.
  - apply (block_flat_map_const (λ o, gather_blocks 1 idx (block E o l)) _ E 0 0).
    + intros o Ho. by rewrite (length_sorted_data r E l idx).
    + apply lookup_seq_lt. lia.
Qed.
End sorted_by_first_row_lemmas.

(** ** [RelationTransform]: sorted and unsorted relation indices *)

Section relation_of_sorted.
Import RelationTransform.
Context {A : Type} (leb : A → A → bool).
Implicit Types (self : t) (indices : tensor A).

(** With [sort_indices], [relation_of] sorts what it computes without. *)
Lemma relation_of_sorted self self' indices :
  fanouts_dim self' = fanouts_dim self →
  fanouts_indices self' = fanouts_indices self →
  sort_indices self = false → sort_indices self' = true →
  relation_of leb self' indices
  = '(relation_indices, target_indices) ← relation_of leb self indices;
    relation_indices ← sorted_by_first_row leb relation_indices;
    Ok (relation_indices, target_indices).
Proof.
  intros Hfd Hfi Hs Hs'. unfold relation_of. rewrite Hfd, Hfi, Hs, Hs'.
  destruct (tf_reshape _ _) as [m|e]; [|done]. rewrite !bind_Ok. cbv zeta.
  match goal with |- ?m ≫= _ = _ => destruct m as [tg|e] end; [|done].
  rewrite !bind_Ok.
  destruct (tf_gather _ _ _) as [g|e]; [|done]. rewrite !bind_Ok.
  destruct (tf_split _ _) as [parts|e]; [|done]. rewrite !bind_Ok.
  destruct (tf_concat _ _) as [R|e]; [|done]. rewrite !bind_Ok.
  destruct (sorted_by_first_row leb R) as [R'|e]; done.
Qed.

Lemma length_relation_data r num N (fi : list nat) (T : list A) fd :
  length T = fd * N → Forall (λ i, i < fd) fi → length fi = r * num →
  length (relation_data r num N fi T) = r * (num * N).
Proof.
  intros HT Hfi Hlen. unfold relation_data.
  assert (length (gather_blocks N fi T) = (r * num) * N) as HG.
  { rewrite length_gather_blocks; [by rewrite Hlen|].
    eapply Forall_impl; [exact Hfi|]. simpl. intros i Hi. rewrite HT. nia. }
  rewrite (length_flat_map_const _ _ (num * N)), length_seq; [done|].
  intros o Ho. apply elem_of_seq in Ho.
  rewrite (length_flat_map_const _ _ N), length_seq; [done|].
  intros k Hk. apply elem_of_seq in Hk.
  apply length_block. rewrite length_block; [nia|]. rewrite HG. nia.
Qed.

(** Without sorting, [relation_of] answers a well-formed matrix with at
    least one row. *)
Lemma relation_of_unsorted_inv self indices R Tg :
  sort_indices self = false →
  relation_of leb self indices = Ok (R, Tg) →
  (∃ r E, shape R = [r; E] ∧ 0 < r ∧ wf R)
  ∧ fanouts_dim self ≠ 0
  ∧ size indices `mod` fanouts_dim self = 0
  ∧ target_of indices (size indices `div` fanouts_dim self) (fanouts_dim self)
    = Ok Tg.
Proof.
  intros Hs Hrel. pose proof Hrel as Hrel'. unfold relation_of in Hrel'.
  rewrite reshape_rows in Hrel'.
  destruct (decide (fanouts_dim self ≠ 0
                    ∧ size indices `mod` fanouts_dim self = 0)) as [Hc|Hn];
    [rewrite (bool_decide_eq_true_2 _ Hc) in Hrel'
    |rewrite (bool_decide_eq_false_2 _ Hn) in Hrel'; discriminate Hrel'].
  destruct Hc as [Hfd Hmod].
  rewrite bind_Ok in Hrel'. cbv zeta in Hrel'.
  apply bind_is_Ok in Hrel' as (tg & _ & Hrel').
  apply bind_is_Ok in Hrel' as (g & Hg & Hrel').
  rewrite tf_transpose_matrix in Hg.
  pose proof (tf_gather_rows_inv _ _ _ _ _ Hg) as Hrange.
  rewrite tf_gather_rows in Hg by done. injection Hg as <-.
  apply bind_is_Ok in Hrel' as (parts & Hparts & _).
  apply tf_split_inv in Hparts as [Hnum Hmodn].
  assert (size indices = size indices `div` fanouts_dim self * fanouts_dim self)
    as Hsize.
  { pose proof (Nat.div_mod_eq (size indices) (fanouts_dim self)). nia. }
  rewrite (relation_of_unsorted leb self indices _ Hs Hfd Hsize Hrange Hnum Hmodn)
    in Hrel.
  apply bind_is_Ok in Hrel as (tg' & Htg & Hrel).
  apply Ok_pair_inj in Hrel as [<- <-].
  split; [|by repeat split].
  set (L := length (fanouts_indices self)) in *.
  set (num := L `div` 2) in *. set (N := size indices `div` fanouts_dim self) in *.
  assert (L = L `div` num * num) as HL.
  { pose proof (Nat.div_mod_eq L num). nia. }
  exists (L `div` num), (num * N). split; [reflexivity|]. split.
  - destruct (L `div` num) eqn:Hr; [|lia].
    assert (L `div` 2 = 0) as Hz by (rewrite HL; done). done.
  - unfold wf. cbn [shape data]. rewrite numel_matrix.
    apply (length_relation_data _ _ _ _ _ (fanouts_dim self)).
    + apply length_transpose_matrix. exact Hsize.
    + exact Hrange.
    + exact HL.
Qed.

(** Whenever [relation_of] answers, the target indices are those of
    [target_of]. *)
Lemma relation_of_target self indices R Tg N :
  relation_of leb self indices = Ok (R, Tg) →
  size indices = N * fanouts_dim self →
  fanouts_dim self ≠ 0 ∧ target_of indices N (fanouts_dim self) = Ok Tg.
Proof.
  intros Hrel Hsize.
  assert (∃ R0, relation_of leb (without_sort self) indices = Ok (R0, Tg))
    as [R0 Hrel0].
  { destruct (sort_indices self) eqn:Hsort.
    - rewrite (relation_of_sorted (without_sort self) self) in Hrel by done.
      apply bind_is_Ok in Hrel as ([R0 T0] & Hrel0 & Hrel).
      apply bind_is_Ok in Hrel as (R' & _ & Hrel).
      apply Ok_pair_inj in Hrel as [_ <-]. eauto.
    - assert (self = without_sort self) as <-; [|eauto].
      destruct self. simpl in Hsort. by subst. }
  destruct (relation_of_unsorted_inv (without_sort self) indices R0 Tg eq_refl Hrel0)
    as (_ & Hfd & _ & Htg).
  cbn [without_sort fanouts_dim] in Hfd, Htg. split; [done|].
  by rewrite Hsize, Nat.div_mul in Htg.
Qed.
End relation_of_sorted.

(** ** [RelationTransform]: shapes *)

Section relation_shapes.
Import RelationTransform.
Context {A : Type} (leb : A → A → bool).
Implicit Types (self : t) (indices : tensor A).

Lemma fanouts_from_sum_pos acc fanouts :
  acc ≤ sum_list (fanouts_from acc fanouts).
Proof. destruct fanouts; simpl; lia. Qed.

Lemma init_fanouts_dim_pos (tbl : list nat → list nat) fanouts sort self :
  init tbl fanouts sort = Ok self → fanouts_dim self ≠ 0.
Proof.
  unfold init. case_bool_decide; [done|]. intros [= <-]. cbn [fanouts_dim].
  pose proof (fanouts_from_sum_pos 1 fanouts). unfold get_fanouts_list. lia.
Qed.

Lemma size_Tensor sh (l : list A) : size (Tensor sh l) = length l.
Proof. done. Qed.

Lemma length_target_row N fd (l : list A) :
  fd ≠ 0 → length l = N * fd → length (block N 0 (transpose_data [N; fd] l)) = N.
Proof.
  intros Hfd Hl. apply length_block.
  rewrite length_transpose_matrix by done. nia.
Qed.

Lemma target_of_ok indices N fd :
  fd ≠ 0 → size indices = N * fd →
  rank indices ≤ 2 ∨ numel (take (rank indices - 1) (shape indices)) = N →
  ∃ Tg, target_of indices N fd = Ok Tg
        ∧ shape Tg = (if bool_decide (2 < rank indices)
                      then take (rank indices - 1) (shape indices) else [N])
        ∧ data Tg = block N 0 (transpose_data [N; fd] (data indices)).
Proof.
  intros Hfd Hsize Hrank. unfold target_of. cbv zeta.
  case_bool_decide as Hr.
  - destruct Hrank as [Hrank|Hrank]; [lia|].
    rewrite reshape_exact, size_Tensor.
    rewrite (length_target_row N fd) by done.
    rewrite bool_decide_eq_true_2 by done. eauto.
  - eauto.
Qed.

(** With a table of [fanouts_dim - 1] pairs of columns, the relation
    indices have two rows and one column per pair and batch element. *)
Lemma relation_of_table self indices N :
  1 < fanouts_dim self →
  length (fanouts_indices self) = 2 * (fanouts_dim self - 1) →
  Forall (λ i, i < fanouts_dim self) (fanouts_indices self) →
  size indices = N * fanouts_dim self →
  rank indices ≤ 2 ∨ numel (take (rank indices - 1) (shape indices)) = N →
  ∃ R Tg, relation_of leb self indices = Ok (R, Tg)
          ∧ shape R = [2; N * (fanouts_dim self - 1)] ∧ wf R
          ∧ shape Tg = (if bool_decide (2 < rank indices)
                        then take (rank indices - 1) (shape indices) else [N])
          ∧ data Tg = block N 0 (transpose_data [N; fanouts_dim self] (data indices)).
Proof.
  intros Hfd Hlen Hrange Hsize Hrank.
  set (fd := fanouts_dim self) in *.
  assert (length (fanouts_indices self) `div` 2 = fd - 1) as Hnum.
  { rewrite Hlen, Nat.mul_comm. apply Nat.div_mul. lia. }
  assert (length (fanouts_indices self) `div` (fd - 1) = 2) as Hr.
  { rewrite Hlen. apply Nat.div_mul. lia. }
  assert (length (fanouts_indices self) `mod` (fd - 1) = 0) as Hmod.
  { rewrite Hlen. apply Nat.Div0.mod_mul. }
  destruct (target_of_ok indices N fd) as (Tg & HTg & HshT & HdT);
    [lia|done|done|].
  assert (relation_of leb (without_sort self) indices
          = Ok (Tensor [2; (fd - 1) * N]
                  (relation_data 2 (fd - 1) N (fanouts_indices self)
                     (transpose_data [N; fd] (data indices))), Tg)) as Hun.
  { rewrite (relation_of_unsorted leb (without_sort self) indices N);
      cbn [without_sort fanouts_dim fanouts_indices sort_indices];
      fold fd; rewrite ?Hnum, ?Hr; try done; try lia.
    by rewrite HTg. }
  assert (wf (Tensor [2; (fd - 1) * N]
                (relation_data 2 (fd - 1) N (fanouts_indices self)
                   (transpose_data [N; fd] (data indices))))) as Hwf.
  { unfold wf. cbn [shape data]. rewrite numel_matrix.
    apply (length_relation_data _ _ _ _ _ fd).
    - apply length_transpose_matrix. exact Hsize.
    - exact Hrange.
    - rewrite Hlen. lia. }
  destruct (sort_indices self) eqn:Hsort.
  - rewrite (relation_of_sorted leb (without_sort self) self) by done.
    rewrite Hun, bind_Ok.
    destruct (sorted_by_first_row_spec leb (Tensor _ _) 2 ((fd - 1) * N)
                eq_refl ltac:(lia) Hwf) as (R' & HR' & Hsh' & Hwf' & _).
    rewrite HR', bind_Ok. exists R', Tg.
    repeat split; try done. rewrite Hsh'. f_equal. f_equal. lia.
  - assert (self = without_sort self) as Hself.
    { destruct self. simpl in Hsort. by subst. }
    rewrite Hself, Hun. eexists _, Tg.
    repeat split; try done. cbn [shape]. f_equal. f_equal. lia.
Qed.

(** The relation weight. *)
Lemma weight_of_matrix (w : tensor A) N fd :
  shape w = [N; fd] → wf w →
  ∃ rw, weight_of w = Ok rw ∧ shape rw = [N * (fd - 1); 1] ∧ wf rw.
Proof.
  destruct w as [sh l]. unfold wf. cbn [shape data]. intros -> Hl.
  rewrite numel_matrix in Hl. unfold weight_of.
  rewrite tf_tail_columns_cons, bind_Ok.
  change [(-1)%Z; 1%Z] with [(-1)%Z; Z.of_nat 1].
  change (numel []) with 1. rewrite Nat.mul_1_r.
  set (l' := flat_map _ _).
  assert (length l' = N * (fd - 1)) as Hl'.
  { unfold l'. rewrite (length_flat_map_const _ _ (fd - 1)), length_seq; [done|].
    intros o Ho. apply elem_of_seq in Ho.
    rewrite length_drop, length_block by nia. lia. }
  rewrite (reshape_rows_exact _ (N * (fd - 1)) 1) by (rewrite ?size_Tensor; lia).
  eexists. split; [done|]. split; [done|].
  unfold wf. cbn [shape data]. rewrite numel_matrix. lia.
Qed.

(** [weight_of] only fails on a tensor of rank below 2. *)
Lemma weight_of_ok (w : tensor A) :
  2 ≤ rank w → ∃ rw, weight_of w = Ok rw.
Proof.
  destruct w as [[|a [|b rest]] l]; unfold rank; cbn [shape length]; try lia.
  intros _. unfold weight_of. rewrite tf_tail_columns_cons, bind_Ok.
  change [(-1)%Z; 1%Z] with [(-1)%Z; Z.of_nat 1]. rewrite reshape_rows.
  rewrite bool_decide_eq_true_2 by (split; [lia|apply Nat.mod_1_r]). eauto.
Qed.
End relation_shapes.

(** ** [RelationTransform.transform] *)

Section relation_transform.
Import RelationTransform.
Context {F : Type} (F_leb : F → F → bool).
Variable get_fanouts_indices : list nat → list nat.
Implicit Types (self : t) (inputs : inputs F) (out : gmap string (value F)).

Lemma numel_app sh1 sh2 : numel (sh1 ++ sh2) = numel sh1 * numel sh2.
Proof. induction sh1 as [|d sh1 IH]; simpl; [lia|]. rewrite IH. lia. Qed.

(** The leading dimensions of a table whose last dimension is the width
    of a row multiply to the number of rows. *)
Lemma leading_dims (sh : list nat) N fd :
  fd ≠ 0 → numel sh = N * fd → last sh = Some fd →
  numel (take (length sh - 1) sh) = N.
Proof.
  intros Hfd Hn Hlast. apply last_Some in Hlast as [pre ->].
  rewrite length_app. simpl. replace (length pre + 1 - 1) with (length pre) by lia.
  rewrite take_app_length. rewrite numel_app in Hn. simpl in Hn. nia.
Qed.

(** What [transform] answers, from its three parts. *)
Lemma transform_parts self inputs iv ew ri ti rw :
  unpack inputs = Ok (iv, ew) →
  relation_value F_leb self iv = Ok (ri, ti) →
  weight_value ew = Ok rw →
  transform F_leb self inputs
  = Ok (<["relation_indices"%string := ri]>
        (<["relation_weight"%string := rw]>
        (<["target_indices"%string := ti]> ∅))).
Proof. intros Hu Hr Hw. unfold transform. by rewrite Hu, bind_Ok, Hr, bind_Ok, Hw. Qed.

Lemma transform_inv self inputs out :
  transform F_leb self inputs = Ok out →
  ∃ iv ew ri ti rw,
    unpack inputs = Ok (iv, ew)
    ∧ relation_value F_leb self iv = Ok (ri, ti)
    ∧ weight_value ew = Ok rw
    ∧ out = <["relation_indices"%string := ri]>
            (<["relation_weight"%string := rw]>
            (<["target_indices"%string := ti]> ∅)).
Proof.
  unfold transform. intros H.
  apply bind_is_Ok in H as ([iv ew] & Hu & H).
  apply bind_is_Ok in H as ([ri ti] & Hr & H).
  apply bind_is_Ok in H as (rw & Hw & H).
  exists iv, ew, ri, ti, rw. repeat split; try done. by inversion H.
Qed.

Lemma fmap_is_Ok {B C} (f : B → C) (m : result B) c :
  f <$> m = Ok c → ∃ b, m = Ok b ∧ c = f b.
Proof. destruct m as [b|e]; [|done]. intros [= <-]. eauto. Qed.

Lemma relation_value_table self (iv : value F) N sh :
  1 < fanouts_dim self →
  length (fanouts_indices self) = 2 * (fanouts_dim self - 1) →
  Forall (λ i, i < fanouts_dim self) (fanouts_indices self) →
  value_size iv = Some (N * fanouts_dim self) →
  value_shape iv = Some sh →
  length sh ≤ 2 ∨ numel (take (length sh - 1) sh) = N →
  ∃ ri ti, relation_value F_leb self iv = Ok (ri, ti)
           ∧ value_shape ri = Some [2; N * (fanouts_dim self - 1)]
           ∧ value_wf ri
           ∧ value_shape ti = Some (if bool_decide (2 < length sh)
                                    then take (length sh - 1) sh else [N])
           ∧ value_size ti = Some N.
Proof.
  intros Hfd Hlen Hrange Hsize Hsh Hrank.
  destruct iv as [|x|x]; [done|..]; simpl in Hsize, Hsh;
    injection Hsize as Hsize; injection Hsh as <-;
    [destruct (relation_of_table Z.leb self x N Hfd Hlen Hrange Hsize Hrank)
       as (R & Tg & Hrel & HshR & HwfR & HshT & HdT)
    |destruct (relation_of_table F_leb self x N Hfd Hlen Hrange Hsize Hrank)
       as (R & Tg & Hrel & HshR & HwfR & HshT & HdT)];
    unfold relation_value; rewrite Hrel;
    eexists _, _; (split; [done|]); cbn [prod_map fst snd value_shape value_wf value_size];
    (repeat split; [by rewrite HshR|done|by rewrite HshT|]);
    unfold size; rewrite HdT; f_equal; apply length_target_row; (lia || done).
Qed.

Lemma weight_value_matrix (ew : value F) N fd :
  ew = VNone ∨ (value_shape ew = Some [N; fd] ∧ value_wf ew) →
  ∃ rw, weight_value ew = Ok rw
        ∧ (ew = VNone → rw = VNone)
        ∧ (ew ≠ VNone → value_shape rw = Some [N * (fd - 1); 1]).
Proof.
  intros [->|[Hsh Hwf]]; [by exists VNone|].
  destruct ew as [|w|w]; [done|..]; simpl in Hsh, Hwf; injection Hsh as Hsh;
    destruct (weight_of_matrix w N fd Hsh Hwf) as (rw & Hrw & Hshrw & _);
    unfold weight_value; rewrite Hrw; eexists; (split; [done|]);
    (split; [done|]); intros _; simpl; by rewrite Hshrw.
Qed.
End relation_transform.

(** ** [RelationTransform]: the properties of the specification *)

Section relation_claims.
Import RelationTransform.
Context {F : Type} (F_leb : F → F → bool).
Variable get_fanouts_indices : list nat → list nat.
Implicit Types (self : t) (inputs : inputs F) (out : gmap string (value F)).

Lemma init_fields fanouts sort self :
  init get_fanouts_indices fanouts sort = Ok self →
  fanouts_dim self = sum_list (get_fanouts_list fanouts)
  ∧ fanouts_indices self = get_fanouts_indices fanouts
  ∧ sort_indices self = sort.
Proof. unfold init. case_bool_decide; [done|]. by intros [= <-]. Qed.

(** C1, as amended: for an input whose indices tensor has size
    N * fanouts_dim and rank at most 2, or a higher rank with last dimension
    fanouts_dim, whose edge weight, when supplied, has shape
    [N, fanouts_dim], and for fanouts with fanouts_dim > 1 (with the table of
    fanouts_dim - 1 column pairs), [transform] returns relation_indices of
    shape [2, N*(fanouts_dim-1)], relation_weight of shape
    [N*(fanouts_dim-1), 1] and target_indices with N elements. *)
Theorem transform_shapes fanouts sort self inputs (iv ew : value F) N sh :
  init get_fanouts_indices fanouts sort = Ok self →
  1 < fanouts_dim self →
  length (get_fanouts_indices fanouts) = 2 * (fanouts_dim self - 1) →
  Forall (λ i, i < fanouts_dim self) (get_fanouts_indices fanouts) →
  unpack inputs = Ok (iv, ew) →
  value_wf iv → value_shape iv = Some sh →
  value_size iv = Some (N * fanouts_dim self) →
  length sh ≤ 2 ∨ last sh = Some (fanouts_dim self) →
  ew = VNone ∨ (value_shape ew = Some [N; fanouts_dim self] ∧ value_wf ew) →
  fanouts_dim self = sum_list (get_fanouts_list fanouts)
  ∧ ∃ out ri ti rw,
      transform F_leb self inputs = Ok out
      ∧ out !! "relation_indices"%string = Some ri
      ∧ value_shape ri = Some [2; N * (fanouts_dim self - 1)]
      ∧ out !! "relation_weight"%string = Some rw
      ∧ (ew = VNone → rw = VNone)
      ∧ (ew ≠ VNone → value_shape rw = Some [N * (fanouts_dim self - 1); 1])
      ∧ out !! "target_indices"%string = Some ti
      ∧ value_size ti = Some N.
Proof.
  intros Hinit Hfd Hlen Hrange Hun Hwf Hsh Hsize Hrank Hew.
  destruct (init_fields _ _ _ Hinit) as (Hdim & Htbl & _).
  split; [done|]. rewrite <- Htbl in Hlen, Hrange.
  assert (length sh ≤ 2 ∨ numel (take (length sh - 1) sh) = N) as Hrank'.
  { destruct Hrank as [?|Hlast]; [by left|right].
    apply (leading_dims sh N (fanouts_dim self)); [lia| |done].
    destruct iv as [|x|x]; [done|..]; simpl in Hwf, Hsh, Hsize;
      unfold wf in Hwf; unfold size in Hsize;
      injection Hsh as <-; injection Hsize as Hsize; lia. }
  destruct (relation_value_table F_leb self iv N sh Hfd Hlen Hrange Hsize Hsh Hrank')
    as (ri & ti & Hrel & Hshri & _ & _ & Hsizeti).
  destruct (weight_value_matrix ew N (fanouts_dim self) Hew)
    as (rw & Hrw & Hnone & Hsome).
  eexists _, ri, ti, rw.
  split; [by apply (transform_parts F_leb self inputs iv ew ri ti rw)|].
  by simplify_map_eq.
Qed.

(** C2: for an indices input of rank at most 2 and size N * fanouts_dim the
    target_indices [transform] returns has shape [N] and holds the elements
    at the flat positions 0, fanouts_dim, ..., (N-1)*fanouts_dim of the
    indices.  [transform] does return when the table holds fanouts_dim - 1 >= 1
    pairs of columns and the edge weight, if supplied, has rank 2 or more. *)
Theorem transform_target_indices fanouts sort self inputs indices (ew : value F) N :
  init get_fanouts_indices fanouts sort = Ok self →
  unpack inputs = Ok (VInt indices, ew) →
  rank indices ≤ 2 →
  size indices = N * fanouts_dim self →
  (∀ out, transform F_leb self inputs = Ok out →
     ∃ ti, out !! "target_indices"%string = Some (VInt ti)
           ∧ shape ti = [N]
           ∧ length (data ti) = N
           ∧ ∀ i, i < N → data ti !! i = data indices !! (i * fanouts_dim self))
  ∧ (1 < fanouts_dim self →
     length (get_fanouts_indices fanouts) = 2 * (fanouts_dim self - 1) →
     Forall (λ i, i < fanouts_dim self) (get_fanouts_indices fanouts) →
     ew = VNone ∨ (∃ sh', value_shape ew = Some sh' ∧ 2 ≤ length sh') →
     ∃ out, transform F_leb self inputs = Ok out).
Proof.
  intros Hinit Hun Hrank Hsize.
  destruct (init_fields _ _ _ Hinit) as (Hdim & Htbl & _).
  split.
  - intros out Hout. apply transform_inv in Hout
      as (iv' & ew' & ri & ti & rw & Hun' & Hrel' & _ & ->).
    rewrite Hun in Hun'. apply Ok_pair_inj in Hun' as [<- <-].
    unfold relation_value in Hrel'.
    apply fmap_is_Ok in Hrel' as ([R Tg] & Hrel & Hpair).
    apply pair_equal_spec in Hpair as [-> ->]. cbn [prod_map fst snd].
    destruct (relation_of_target Z.leb self indices R Tg N Hrel Hsize)
      as [Hfd Htg].
    unfold target_of in Htg. cbv zeta in Htg.
    rewrite bool_decide_eq_false_2 in Htg by lia.
    apply Ok_inj in Htg as <-.
    exists (Tensor [N] (block N 0
              (transpose_data [N; fanouts_dim self] (data indices)))).
    split; [by simplify_map_eq|]. split; [done|]. cbn [data].
    split; [by apply length_target_row|].
    intros i Hi. rewrite lookup_block by done.
    rewrite (lookup_transpose_matrix N (fanouts_dim self) _ i 0) by (done || lia).
    f_equal. lia.
  - intros Hfd Hlen Hrange Hew. rewrite <- Htbl in Hlen, Hrange.
    destruct (relation_of_table Z.leb self indices N Hfd Hlen Hrange Hsize
                (or_introl Hrank)) as (R & Tg & Hrel & _).
    assert (relation_value F_leb self (VInt indices) = Ok (VInt R, VInt Tg)) as Hval.
    { unfold relation_value. by rewrite Hrel. }
    assert (∃ rw, weight_value ew = Ok rw) as [rw Hrw].
    { destruct Hew as [->|(sh' & Hsh' & Hlen')]; [by exists VNone|].
      destruct ew as [|w|w]; [done|..]; simpl in Hsh'; injection Hsh' as <-;
        destruct (weight_of_ok w Hlen') as [rw Hrw];
        unfold weight_value; rewrite Hrw; eauto. }
    eexists.
    by apply (transform_parts F_leb self inputs (VInt indices) ew
                (VInt R) (VInt Tg) rw).
Qed.

(** A run that neither writes an attribute nor calls the service
    answers what its parts answer and leaves the state as it is. *)
Lemma run_bind_read {W A B} (attr : t → A) (k : A → M (state W) B)
    (r : result B) (s : state W) :
  k (attr s.1) s = (r, s) → (read attr ≫= k) s = (r, s).
Proof. done. Qed.

Lemma run_bind_lift {W A B} (r : result A) (k : A → M (state W) B)
    (k' : A → result B) (s : state W) :
  (∀ a, k a s = (k' a, s)) → (lift r ≫= k) s = (r ≫= k', s).
Proof. intros Hk. destruct r as [a|e]; [apply Hk|reflexivity]. Qed.

Lemma relation_of_run_pure {W A} (leb : A → A → bool) (indices : tensor A)
    self (w : W) :
  relation_of_run leb indices (self, w) = (relation_of leb self indices, (self, w)).
Proof.
  unfold relation_of_run, relation_of.
  apply run_bind_read. apply run_bind_lift. intros m. cbv zeta.
  apply run_bind_lift. intros target_indices.
  apply run_bind_read. apply run_bind_lift. intros gathered.
  apply run_bind_read. apply run_bind_lift. intros parts.
  apply run_bind_lift. intros relation_indices.
  apply run_bind_read. apply run_bind_lift. intros sorted.
  reflexivity.
Qed.

Lemma transform_run_pure {W} inputs self (w : W) :
  transform_run F_leb inputs (self, w) = (transform F_leb self inputs, (self, w)).
Proof.
  unfold transform_run, transform.
  apply run_bind_lift. intros [indices edge_weight].
  assert (relation_value_run F_leb indices (self, w)
          = (relation_value F_leb self indices, (self, w))) as Hrel.
  { unfold relation_value_run, relation_value.
    destruct indices as [|x|x]; [reflexivity|..];
      unfold mbind at 1, M_bind at 1; rewrite relation_of_run_pure;
      by destruct (relation_of _ self x). }
  unfold mbind at 1, M_bind at 1. rewrite Hrel.
  destruct (relation_value F_leb self indices) as [[ri ti]|e]; [|reflexivity].
  rewrite bind_Ok. apply run_bind_lift. intros rw. reflexivity.
Qed.

(** [__init__] writes the attributes: whatever they were, they become
    those of the instance that [init] answers. *)
Lemma init_run_init {W} fanouts sort self0 self (w : W) :
  init get_fanouts_indices fanouts sort = Ok self →
  init_run get_fanouts_indices fanouts sort (self0, w) = (Ok (), (self, w)).
Proof.
  unfold init, init_run. case_bool_decide; [done|]. by intros [= <-].
Qed.

(** C5: [transform] is deterministic.  A run reads attributes of the
    instance, writes none and does not call the sampling service: it leaves
    the state as it is, and a second run, on inputs that hold the same
    indices and the same edge weight, answers what the first answered, the
    same dict or the same error. *)
Theorem transform_deterministic {W} inputs1 inputs2 self (w : W) :
  unpack inputs1 = unpack inputs2 →
  let first := transform_run F_leb inputs1 (self, w) in
  let second := transform_run F_leb inputs2 first.2 in
  first.2 = (self, w)
  ∧ second = first
  ∧ first.1 = transform F_leb self inputs1.
Proof.
  intros Hun first second. unfold second, first.
  rewrite !transform_run_pure. cbn [fst snd]. rewrite transform_run_pure.
  split; [reflexivity|]. split; [|reflexivity].
  f_equal. unfold transform. by rewrite Hun.
Qed.

Lemma unpack_edge_weight inputs (iv ew : value F) :
  unpack inputs = Ok (iv, ew) →
  ew = default VNone (supplied_edge_weight inputs).
Proof.
  destruct inputs as [xs|d|v]; simpl.
  - destruct xs as [|a [|b xs]]; simpl; try done. by intros [= _ <-].
  - destruct (d !! "indices"%string); [|done]. by intros [= _ <-].
  - by intros [= _ <-].
Qed.

Lemma weight_value_None (ew rw : value F) :
  weight_value ew = Ok rw → (rw = VNone ↔ ew = VNone).
Proof.
  destruct ew as [|w|w]; simpl.
  - by intros [= <-].
  - intros H. apply fmap_is_Ok in H as (b & _ & ->). done.
  - intros H. apply fmap_is_Ok in H as (b & _ & ->). done.
Qed.

(** C9: the dict [transform] returns holds relation_weight, which is None
    exactly when the input supplies no edge weight: a bare tensor, a dict
    without edge_weight (or with None there), a list or tuple whose second
    element is None. *)
Theorem transform_relation_weight self inputs out :
  transform F_leb self inputs = Ok out →
  dom out = {[ "relation_indices"%string; "relation_weight"%string;
               "target_indices"%string ]}
  ∧ ∃ rw, out !! "relation_weight"%string = Some rw
          ∧ (rw = VNone ↔ default VNone (supplied_edge_weight inputs) = VNone)
          ∧ (rw = VNone ∨ ∃ sh', value_shape rw = Some sh').
Proof.
  intros Hout. apply transform_inv in Hout
    as (iv & ew & ri & ti & rw & Hun & _ & Hrw & ->).
  split; [set_solver|]. exists rw. split; [by simplify_map_eq|].
  rewrite <- (unpack_edge_weight _ _ _ Hun). split; [by apply weight_value_None|].
  destruct rw; simpl; eauto.
Qed.
End relation_claims.

(** ** [RelationTransform]: [sort_indices] *)

Section relation_sort_claim.
Import RelationTransform.
Context {F : Type} (F_leb : F → F → bool).
Variable get_fanouts_indices : list nat → list nat.
Implicit Types (self : t) (inputs : inputs F) (out : gmap string (value F)).

Lemma Sorted_mono {A} (R1 R2 : A → A → Prop) (l : list A) :
  (∀ x y, R1 x y → R2 x y) → Sorted R1 l → Sorted R2 l.
Proof.
  intros HR. induction 1 as [|x l Hs IH Hhd]; constructor; [done|].
  destruct Hhd; constructor. by apply HR.
Qed.

(** Sorting after [relation_of] without [sort_indices]. *)
Lemma relation_of_sort_variant {A} (leb : A → A → bool) self0 self1 indices :
  (∀ x y, leb x y = true ∨ leb y x = true) →
  fanouts_dim self1 = fanouts_dim self0 →
  fanouts_indices self1 = fanouts_indices self0 →
  sort_indices self0 = false → sort_indices self1 = true →
  match relation_of leb self0 indices, relation_of leb self1 indices with
  | Ok (R0, T0), Ok (R1, T1) =>
      T1 = T0 ∧ sorted_columns_of (λ x y, leb x y = true) R0 R1
  | Raise e0, Raise e1 => e0 = e1
  | _, _ => False
  end.
Proof.
  intros Htotal Hfd Hfi Hs0 Hs1.
  rewrite (relation_of_sorted leb self0 self1) by done.
  destruct (relation_of leb self0 indices) as [[R0 T0]|e] eqn:Hrel; [|done].
  destruct (relation_of_unsorted_inv leb self0 indices R0 T0 Hs0 Hrel)
    as ((r & E & Hsh & Hr & Hwf) & _).
  destruct (sorted_by_first_row_spec leb R0 r E Hsh Hr Hwf)
    as (R1 & HR1 & Hsh1 & _ & Hperm & Hrow).
  rewrite bind_Ok. cbn beta iota. rewrite HR1, bind_Ok.
  split; [done|]. split; [congruence|]. split; [done|].
  rewrite Hrow. by apply gather_argsort_list_Sorted.
Qed.

(** C8: with [sort_indices] the columns of relation_indices are those
    returned without, reordered so that the first row is non-decreasing;
    relation_weight and target_indices are the same, and an error is raised
    with the one exactly when it is raised with the other. *)
Theorem transform_sort_indices fanouts inputs :
  (∀ x y, F_leb x y = true ∨ F_leb y x = true) →
  match self ← init get_fanouts_indices fanouts false; transform F_leb self inputs,
        self ← init get_fanouts_indices fanouts true; transform F_leb self inputs
  with
  | Ok out0, Ok out1 =>
      out1 !! "relation_weight"%string = out0 !! "relation_weight"%string
      ∧ out1 !! "target_indices"%string = out0 !! "target_indices"%string
      ∧ sorted_variant F_leb (out0 !! "relation_indices"%string)
                             (out1 !! "relation_indices"%string)
  | Raise e0, Raise e1 => e0 = e1
  | _, _ => False
  end.
Proof.
  intros Htotal. unfold init. case_bool_decide; [done|]. rewrite !bind_Ok.
  set (self0 := Build_t _ _ _ _ false). set (self1 := Build_t _ _ _ _ true).
  unfold transform.
  destruct (unpack inputs) as [[iv ew]|e]; [|done]. rewrite !bind_Ok.
  cbn beta iota.
  assert (match relation_value F_leb self0 iv, relation_value F_leb self1 iv with
          | Ok (r0, t0), Ok (r1, t1) =>
              t1 = t0 ∧ sorted_variant F_leb (Some r0) (Some r1)
          | Raise e0, Raise e1 => e0 = e1
          | _, _ => False
          end) as Hrel.
  { destruct iv as [|x|x]; [done|..]; unfold relation_value.
    - assert (∀ x y, (x <=? y)%Z = true ∨ (y <=? x)%Z = true) as HZ
        by (intros; rewrite !Z.leb_le; lia).
      pose proof (relation_of_sort_variant Z.leb self0 self1 x HZ
                    eq_refl eq_refl eq_refl eq_refl) as Hv.
      destruct (relation_of Z.leb self0 x) as [[R0 T0]|e0],
               (relation_of Z.leb self1 x) as [[R1 T1]|e1]; try done.
      destruct Hv as (-> & Hsh & Hperm & Hsorted).
      split; [done|]. split; [done|]. split; [done|].
      eapply Sorted_mono; [|exact Hsorted]. intros a b. by rewrite Z.leb_le.
    - pose proof (relation_of_sort_variant F_leb self0 self1 x Htotal
                    eq_refl eq_refl eq_refl eq_refl) as Hv.
      destruct (relation_of F_leb self0 x) as [[R0 T0]|e0],
               (relation_of F_leb self1 x) as [[R1 T1]|e1]; try done.
      destruct Hv as (-> & Hv). done. }
  destruct (relation_value F_leb self0 iv) as [[r0 t0]|e0],
           (relation_value F_leb self1 iv) as [[r1 t1]|e1]; try done.
  destruct Hrel as [-> Hsv]. rewrite !bind_Ok. cbn beta iota.
  destruct (weight_value ew) as [rw|e]; [|done]. rewrite !bind_Ok.
  by simplify_map_eq.
Qed.
End relation_sort_claim.

(** ** [RelationTransform]: the properties at the example inputs *)

Example get_fanouts_list_example :
  RelationTransform.get_fanouts_list [2; 3] = [1; 2; 6].
Proof. reflexivity. Qed.

Lemma example_table_range : Forall (λ i, i < 9) (example_table [2; 3]).
Proof. apply (bool_decide_unpack _). vm_compute. exact I. Qed.

Lemma transform_shapes_witness :
  RelationTransform.fanouts_dim (example_transform false)
  = sum_list (RelationTransform.get_fanouts_list [2; 3])
  ∧ ∃ out ri ti rw,
      RelationTransform.transform Z.leb (example_transform false) example_inputs = Ok out
      ∧ out !! "relation_indices"%string = Some ri
      ∧ value_shape ri = Some [2; 2 * (9 - 1)]
      ∧ out !! "relation_weight"%string = Some rw
      ∧ (VFloat example_weights = VNone → rw = VNone)
      ∧ (VFloat example_weights ≠ @VNone Z → value_shape rw = Some [2 * (9 - 1); 1])
      ∧ out !! "target_indices"%string = Some ti
      ∧ value_size ti = Some 2.
Proof.
  apply (transform_shapes Z.leb example_table [2; 3] false (example_transform false)
           example_inputs (VInt (Tensor [1; 2; 9] example_ids))
           (VFloat example_weights) 2 [1; 2; 9]).
  - reflexivity.
  - simpl. lia.
  - reflexivity.
  - exact example_table_range.
  - reflexivity.
  - reflexivity.
  - reflexivity.
  - reflexivity.
  - right. reflexivity.
  - right. split; reflexivity.
Defined.

(** C1, as stated, fails: the 18 = 2 * 9 indices of a tensor of shape
    [2, 3, 3] satisfy its premise, and [transform] raises. *)
Lemma transform_shapes_counterexample :
  RelationTransform.init example_table [2; 3] false = Ok (example_transform false)
  ∧ value_size (VInt (F:=Z) (Tensor [2; 3; 3] example_ids))
    = Some (2 * RelationTransform.fanouts_dim (example_transform false))
  ∧ wf (Tensor [2; 3; 3] example_ids)
  ∧ RelationTransform.transform Z.leb (example_transform false) example_inputs_rank3
    = Raise InvalidArgumentError.
Proof. repeat split; reflexivity. Qed.

Lemma transform_target_indices_witness :
  (∀ out,
     RelationTransform.transform Z.leb (example_transform false)
       (RelationTransform.InOther (VInt (vector example_ids))) = Ok out →
     ∃ ti, out !! "target_indices"%string = Some (VInt ti)
           ∧ shape ti = [2]
           ∧ length (data ti) = 2
           ∧ ∀ i, i < 2 → data ti !! i = example_ids !! (i * 9))
  ∧ (1 < 9 →
     length (example_table [2; 3]) = 2 * (9 - 1) →
     Forall (λ i, i < 9) (example_table [2; 3]) →
     @VNone Z = VNone ∨ (∃ sh', value_shape (@VNone Z) = Some sh' ∧ 2 ≤ length sh') →
     ∃ out, RelationTransform.transform Z.leb (example_transform false)
              (RelationTransform.InOther (VInt (vector example_ids))) = Ok out).
Proof.
  apply (transform_target_indices Z.leb example_table [2; 3] false
           (example_transform false)
           (RelationTransform.InOther (VInt (vector example_ids)))
           (vector example_ids) VNone 2).
  - reflexivity.
  - reflexivity.
  - vm_compute. lia.
  - reflexivity.
Defined.

Example transform_target_indices_example :
  (λ out, out !! "target_indices"%string) <$>
    RelationTransform.transform Z.leb (example_transform false)
      (RelationTransform.InOther (VInt (vector example_ids)))
  = Ok (Some (VInt (Tensor [2] [5; 2]%Z))).
Proof. reflexivity. Qed.

Lemma transform_relation_weight_witness :
  ∃ out,
    RelationTransform.transform Z.leb (example_transform false) example_inputs = Ok out
    ∧ dom out = {[ "relation_indices"%string; "relation_weight"%string;
                   "target_indices"%string ]}
    ∧ ∃ rw, out !! "relation_weight"%string = Some rw
            ∧ (rw = VNone
               ↔ default VNone (RelationTransform.supplied_edge_weight example_inputs)
                 = VNone)
            ∧ (rw = VNone ∨ ∃ sh', value_shape rw = Some sh').
Proof.
  eexists. split; [reflexivity|].
  apply (transform_relation_weight Z.leb (example_transform false) example_inputs).
  reflexivity.
Defined.

Lemma transform_sort_indices_witness :
  match self ← RelationTransform.init example_table [2; 3] false;
          RelationTransform.transform Z.leb self example_inputs,
        self ← RelationTransform.init example_table [2; 3] true;
          RelationTransform.transform Z.leb self example_inputs
  with
  | Ok out0, Ok out1 =>
      out1 !! "relation_weight"%string = out0 !! "relation_weight"%string
      ∧ out1 !! "target_indices"%string = out0 !! "target_indices"%string
      ∧ RelationTransform.sorted_variant Z.leb
          (out0 !! "relation_indices"%string) (out1 !! "relation_indices"%string)
  | Raise e0, Raise e1 => e0 = e1
  | _, _ => False
  end.
Proof.
  apply (transform_sort_indices Z.leb example_table [2; 3] example_inputs).
  intros x y. rewrite !Z.leb_le. lia.
Defined.

Example transform_sort_indices_example :
  (λ out, out !! "relation_indices"%string) <$>
    RelationTransform.transform Z.leb (example_transform true) example_inputs
  = Ok (Some (VInt (Tensor [2; 16]
      [2; 2; 3; 3; 3; 5; 5; 7; 7; 7; 7; 7; 7; 9; 9; 9;
       7; 7; 5; 1; 2; 3; 9; 1; 1; 1; 1; 1; 1; 3; 4; 0]%Z))).
Proof. reflexivity. Qed.

(** ** Calls of the sampling service *)

Section monad_lemmas.
Context {W : Type}.

Lemma M_bind_Ok {B C} (m : M W B) (f : B → M W C) w b w' :
  m w = (Ok b, w') → (m ≫= f) w = f b w'.
Proof. intros H. unfold mbind, M_bind. by rewrite H. Qed.

Lemma M_bind_Raise {B C} (m : M W B) (f : B → M W C) w e w' :
  m w = (Raise e, w') → (m ≫= f) w = (Raise e, w').
Proof. intros H. unfold mbind, M_bind. by rewrite H. Qed.

Lemma M_bind_lift {B C} (r : result B) (f : B → M W C) w :
  (lift r ≫= f) w = match r with Ok b => f b w | Raise e => (Raise e, w) end.
Proof. by destruct r. Qed.
End monad_lemmas.

(** ** [RandomWalkNegTransform] *)

Section rw_neg_claims.
Import RandomWalkNegTransform.
Context {F W : Type}.
Implicit Types (ops : PTOps F W) (self : config F) (inputs : tensor Z).

(** C6: the constructor raises ValueError exactly when walk_length and
    metapath are both None; with a walk_length and no metapath the metapath
    of the configuration is edge_types repeated walk_length times. *)
Theorem init_metapath (vertex_type edge_types : list Z) (negative_num context_size : Z)
    (repetition : Z) (walk_p walk_q : F)
    (walk_length : option Z) (metapath : option (list (list Z))) (n : Z) :
  (init vertex_type edge_types negative_num context_size repetition walk_p walk_q
     walk_length metapath = Raise ValueError
   ↔ walk_length = None ∧ metapath = None)
  ∧ (is_ok (init vertex_type edge_types negative_num context_size repetition
              walk_p walk_q walk_length metapath) = false
     ↔ walk_length = None ∧ metapath = None)
  ∧ ∃ self,
      init vertex_type edge_types negative_num context_size repetition walk_p walk_q
        (Some n) None = Ok self
      ∧ RandomWalkNegTransform.metapath self = py_repeat edge_types n
      ∧ RandomWalkNegTransform.metapath self = replicate (Z.to_nat n) edge_types
      ∧ length (RandomWalkNegTransform.metapath self) = Z.to_nat n
      ∧ RandomWalkNegTransform.walk_length self = Some n.
Proof.
  split; [|split].
  - destruct walk_length, metapath; simpl; intuition congruence.
  - destruct walk_length, metapath; simpl; intuition congruence.
  - eexists. split; [reflexivity|]. simpl.
    repeat split. unfold py_repeat. by rewrite length_replicate.
Qed.

(** [torch.split(pair, [1, 1], dim=-1)] of a [P] x 2 tensor: its two
    columns. *)
Lemma torch_split_pairs P (d : list Z) :
  torch_split_last (Tensor [P; 2] d) [1; 1]
  = Ok [Tensor [P; 1] (column P 2 0 d); Tensor [P; 1] (column P 2 1 d)].
Proof.
  assert (∀ off, off < 2 →
            flat_map (λ o, take 1 (drop off (block 2 o d))) (seq 0 P)
            = column P 2 off d) as Hcol.
  { intros off Hoff. unfold column. apply flat_map_ext. intros o.
    rewrite <- block_in_block by done. unfold block.
    by rewrite Nat.mul_1_r. }
  unfold torch_split_last. cbn [shape data]. change (reverse [P; 2]) with [2; P].
  cbn [sum_list sum_list_with]. rewrite bool_decide_eq_true_2 by done.
  cbn [offsets zip zip_with fmap list_fmap]. change (reverse [P]) with [P].
  rewrite numel_singleton. cbn [app Nat.add].
  by rewrite !Hcol by lia.
Qed.

(** C4: when the sampler answers a pair tensor of shape [P, 2] and then
    P * negative_num vertices, [transform] returns exactly target, context
    and negative: the two columns of the pair tensor with shape [P, 1], and
    the sampled vertices with shape [P, negative_num]. *)
Theorem transform_pairs ops self inputs (pairs negative : tensor Z)
    (others : list (tensor Z)) (P : nat) (w w1 w2 : W) :
  sample_pairs_by_random_walk ops (Tensor [size inputs] (data inputs))
    (metapath self) (repetition self) (context_size self)
    (walk_p self) (walk_q self) w = (Ok (Some pairs), w1) →
  shape pairs = [P; 2] →
  sample_vertices ops (vertex_type self) (negative_num self * Z.of_nat P)%Z w1
    = (Ok (negative :: others), w2) →
  (0 ≤ negative_num self)%Z →
  size negative = P * Z.to_nat (negative_num self) →
  ∃ out,
    transform ops self inputs w = (Ok out, w2)
    ∧ dom out = {[ "target"%string; "context"%string; "negative"%string ]}
    ∧ out !! "target"%string = Some (Tensor [P; 1] (column P 2 0 (data pairs)))
    ∧ out !! "context"%string = Some (Tensor [P; 1] (column P 2 1 (data pairs)))
    ∧ out !! "negative"%string
      = Some (Tensor [P; Z.to_nat (negative_num self)] (data negative)).
Proof.
  intros Hpairs Hsh Hneg Hnn Hsize. destruct pairs as [sh d]. simpl in Hsh. subst sh.
  unfold transform. cbv zeta. rewrite (M_bind_Ok _ _ _ _ _ Hpairs).
  rewrite M_bind_lift, torch_split_pairs, bind_Ok.
  rewrite M_bind_lift. cbn [torch_size0 shape].
  rewrite (M_bind_Ok _ _ _ _ _ Hneg).
  rewrite M_bind_lift. cbn [py_index lookup list_lookup]. rewrite bind_Ok.
  unfold torch_view.
  replace [Z.of_nat P; negative_num self]
    with (Z.of_nat <$> [P; Z.to_nat (negative_num self)])
    by (simpl; rewrite Z2Nat.id by done; done).
  rewrite reshape_exact, numel_matrix, Hsize.
  rewrite bool_decide_eq_true_2 by done.
  eexists. split; [reflexivity|]. split; [set_solver|]. by simplify_map_eq.
Qed.

(** For the random walk, [transform] raises ValueError when the
    sampler answers None. *)
Lemma transform_pairs_None ops self inputs (w w1 : W) :
  sample_pairs_by_random_walk ops (Tensor [size inputs] (data inputs))
    (metapath self) (repetition self) (context_size self)
    (walk_p self) (walk_q self) w = (Ok None, w1) →
  transform ops self inputs w = (Raise ValueError, w1).
Proof.
  intros Hpairs. unfold transform. cbv zeta.
  by rewrite (M_bind_Ok _ _ _ _ _ Hpairs).
Qed.
End rw_neg_claims.

(** ** [NeighborNegTransform] *)

Section neighbor_neg_claims.
Import NeighborNegTransform.
Context {W : Type}.

Lemma transform_neighbors_empty (ops : TFOps W) (self : config)
    (inputs : tensor Z) (w w1 : W) :
  sample_neighbors ops (Tensor [size inputs] (data inputs))
    (edge_types self) 1 false w = (Ok [], w1) →
  transform ops self inputs w = (Raise ValueError, w1).
Proof.
  intros Hn. unfold transform.
  rewrite M_bind_lift, reshape_flat.
  by rewrite (M_bind_Ok _ _ _ _ _ Hn).
Qed.
End neighbor_neg_claims.

(** C7: when the sampler signals failure the transforms raise ValueError
    and produce no dict: [RandomWalkNegTransform.transform] when
    [sample_pairs_by_random_walk] answers None,
    [NeighborNegTransform.transform] when [sample_neighbors] answers an empty
    list. *)
Theorem transform_sampler_failure {F W : Type}
    (pt_ops : RandomWalkNegTransform.PTOps F W) (rw : RandomWalkNegTransform.config F)
    (tf_ops : NeighborNegTransform.TFOps W) (nn : NeighborNegTransform.config)
    (inputs : tensor Z) (w w1 : W) :
  RandomWalkNegTransform.sample_pairs_by_random_walk pt_ops
    (Tensor [size inputs] (data inputs))
    (RandomWalkNegTransform.metapath rw) (RandomWalkNegTransform.repetition rw)
    (RandomWalkNegTransform.context_size rw)
    (RandomWalkNegTransform.walk_p rw) (RandomWalkNegTransform.walk_q rw) w
  = (Ok None, w1) →
  NeighborNegTransform.sample_neighbors tf_ops (Tensor [size inputs] (data inputs))
    (NeighborNegTransform.edge_types nn) 1 false w = (Ok [], w1) →
  RandomWalkNegTransform.transform pt_ops rw inputs w = (Raise ValueError, w1)
  ∧ NeighborNegTransform.transform tf_ops nn inputs w = (Raise ValueError, w1).
Proof.
  intros Hpairs Hneighbors. split.
  - by apply transform_pairs_None.
  - by apply transform_neighbors_empty.
Qed.

(** ** [MultiHopFeatureTransform]: the constructor *)

Section multi_hop_feature_init.
Import MultiHopFeatureTransform.

Lemma check_dense_int names d :
  d ≠ 0%Z →
  check_dense (Some names) (DInt d) = Ok (DList (replicate (length names) d)).
Proof.
  intros Hd. unfold check_dense, truthy, expand, py_len.
  rewrite bool_decide_eq_true_2 by done. cbn [assert]. rewrite !bind_Ok.
  rewrite length_replicate, bool_decide_eq_true_2 by done. done.
Qed.

Lemma check_dense_int_inv names d dims :
  check_dense (Some names) (DInt d) = Ok dims →
  dims = DList (replicate (length names) d).
Proof.
  destruct (decide (d = 0%Z)) as [->|Hd]; [done|].
  rewrite check_dense_int by done. by intros [= <-].
Qed.

Lemma check_sparse_int names d :
  check_sparse (Some names) (DInt d)
  = if bool_decide (Forall (λ dim, dim = 1%Z) (replicate (length names) d))
    then Ok (DList (replicate (length names) d)) else Raise ValueError.
Proof.
  unfold check_sparse, expand, py_iter. cbv zeta. rewrite bind_Ok.
  case_bool_decide; [|done]. cbn [assert].
  by rewrite length_replicate, bool_decide_eq_true_2.
Qed.

(** C10, as amended: the constructor raises ValueError when
    dense_feature_names and sparse_feature_names are both None, and when
    sparse_feature_names is given, the checks on the dense features pass and
    an entry of sparse_feature_dims (1 when omitted, an int repeated once per
    name) differs from 1; a dense_feature_dims (or sparse_feature_dims) that
    is a single int is passed on as the list repeating it once per
    corresponding feature name. *)
Theorem init_feature_dims (metapath : list (list Z)) (fanouts : list nat)
    (edge_weight : bool) (dense_feature_names : option (list string))
    (dense_feature_dims : dims_arg) (sparse_feature_names : option (list string))
    (sparse_feature_dims : dims_arg) :
  init metapath fanouts edge_weight None dense_feature_dims None sparse_feature_dims
  = Raise ValueError
  ∧ (∀ names entries,
       sparse_feature_names = Some names →
       is_ok (check_dense dense_feature_names dense_feature_dims) = true →
       py_iter (expand (match sparse_feature_dims with
                        | DNone => DInt 1
                        | _ => sparse_feature_dims
                        end) names) = Ok entries →
       ¬ Forall (λ dim, dim = 1%Z) entries →
       init metapath fanouts edge_weight dense_feature_names dense_feature_dims
         sparse_feature_names sparse_feature_dims = Raise ValueError)
  ∧ (∀ names d self,
       dense_feature_names = Some names → dense_feature_dims = DInt d →
       init metapath fanouts edge_weight dense_feature_names dense_feature_dims
         sparse_feature_names sparse_feature_dims = Ok self →
       MultiHopFeatureTransform.dense_feature_dims self
       = DList (replicate (length names) d))
  ∧ (∀ names self,
       sparse_feature_names = Some names →
       sparse_feature_dims = DNone ∨ (∃ d, sparse_feature_dims = DInt d) →
       init metapath fanouts edge_weight dense_feature_names dense_feature_dims
         sparse_feature_names sparse_feature_dims = Ok self →
       MultiHopFeatureTransform.sparse_feature_dims self
       = DList (replicate (length names)
                  (match sparse_feature_dims with DInt d => d | _ => 1%Z end)))
  ∧ (∀ names d,
       d ≠ 0%Z →
       ∃ self,
         init metapath fanouts edge_weight (Some names) (DInt d)
           None sparse_feature_dims = Ok self
         ∧ MultiHopFeatureTransform.dense_feature_dims self
           = DList (replicate (length names) d))
  ∧ (∀ names,
       ∃ self,
         init metapath fanouts edge_weight None dense_feature_dims
           (Some names) DNone = Ok self
         ∧ MultiHopFeatureTransform.sparse_feature_dims self
           = DList (replicate (length names) 1%Z)).
Proof.
  split; [done|]. split; [|split; [|split; [|split]]].
  - intros names entries -> Hdense Hentries Hnot. unfold init.
    destruct (check_dense dense_feature_names dense_feature_dims) as [dd|e];
      [|done].
    assert (check_sparse (Some names) sparse_feature_dims = Raise ValueError) as Hs.
    { unfold check_sparse. cbv zeta. rewrite Hentries, bind_Ok.
      by rewrite bool_decide_eq_false_2. }
    destruct dense_feature_names; by rewrite bind_Ok, Hs.
  - intros names d self -> -> Hinit. unfold init in Hinit.
    destruct (check_dense (Some names) (DInt d)) as [dd|e] eqn:Hd;
      [|by destruct sparse_feature_names].
    apply check_dense_int_inv in Hd as ->.
    destruct (check_sparse sparse_feature_names sparse_feature_dims) as [sd|e];
      [|by destruct sparse_feature_names].
    destruct sparse_feature_names; by injection Hinit as <-.
  - intros names self -> Hsd Hinit. unfold init in Hinit.
    destruct (check_dense dense_feature_names dense_feature_dims) as [dd|e];
      [|by destruct dense_feature_names].
    assert (∃ d, check_sparse (Some names) sparse_feature_dims
                 = check_sparse (Some names) (DInt d)
                 ∧ match sparse_feature_dims with DInt d => d | _ => 1%Z end = d)
      as (d & Hsame & ->).
    { destruct Hsd as [->|[d ->]]; eauto. }
    rewrite Hsame, check_sparse_int in Hinit.
    case_bool_decide; [|by destruct dense_feature_names].
    destruct dense_feature_names; by injection Hinit as <-.
  - intros names d Hd. unfold init. rewrite check_dense_int by done.
    eexists. split; [reflexivity|done].
  - intros names. unfold init.
    assert (check_sparse (Some names) DNone
            = Ok (DList (replicate (length names) 1%Z))) as Hs.
    { change (check_sparse (Some names) DNone)
        with (check_sparse (Some names) (DInt 1)).
      rewrite check_sparse_int. rewrite bool_decide_eq_true_2; [done|].
      apply Forall_replicate. done. }
    cbn [check_dense]. rewrite bind_Ok, Hs. eexists. split; [reflexivity|done].
Qed.
End multi_hop_feature_init.

(** C10, as stated, fails: without sparse_feature_names the entries of
    sparse_feature_dims are not looked at. *)
Lemma init_feature_dims_counterexample :
  MultiHopFeatureTransform.init [[0%Z]; [0%Z]] [2; 3] false
    (Some ["feature"%string]) (MultiHopFeatureTransform.DInt 5)
    None (MultiHopFeatureTransform.DList [2%Z])
  = Ok {| MultiHopFeatureTransform.metapath := [[0%Z]; [0%Z]];
          MultiHopFeatureTransform.fanouts := [2; 3];
          MultiHopFeatureTransform.edge_weight := false;
          MultiHopFeatureTransform.dense_feature_names := Some ["feature"%string];
          MultiHopFeatureTransform.dense_feature_dims :=
            MultiHopFeatureTransform.DList [5%Z];
          MultiHopFeatureTransform.sparse_feature_names := None;
          MultiHopFeatureTransform.sparse_feature_dims :=
            MultiHopFeatureTransform.DList [2%Z] |}.
Proof. reflexivity. Qed.

Lemma init_feature_dims_witness :
  MultiHopFeatureTransform.init [[0%Z]; [0%Z]] [2; 3] false
    (Some ["feature"%string]) (MultiHopFeatureTransform.DInt 5)
    (Some ["id"%string; "kind"%string]) (MultiHopFeatureTransform.DInt 2)
  = Raise ValueError.
Proof.
  apply (proj1 (proj2 (init_feature_dims [[0%Z]; [0%Z]] [2; 3] false
           (Some ["feature"%string]) (MultiHopFeatureTransform.DInt 5)
           (Some ["id"%string; "kind"%string]) (MultiHopFeatureTransform.DInt 2)))
           ["id"%string; "kind"%string] [2%Z; 2%Z]).
  - reflexivity.
  - reflexivity.
  - reflexivity.
  - intros H. inversion H. lia.
Defined.

(** ** [tf.unique] *)

Section unique_lemmas.
Implicit Types (v : Z) (xs ys seen : list Z).

Lemma index_of_Some v ys k : index_of v ys = Some k → ys !! k = Some v.
Proof.
  revert k. induction ys as [|y ys IH]; intros k; simpl; [done|].
  case_bool_decide as Hy.
  - intros [= <-]. by subst.
  - destruct (index_of v ys) as [k'|]; [|done]. intros [= <-]. by apply IH.
Qed.

Lemma index_of_elem v ys : v ∈ ys → is_Some (index_of v ys).
Proof.
  induction ys as [|y ys IH]; simpl; [by intros ?%elem_of_nil|].
  intros Hin. case_bool_decide as Hy; [by eexists|].
  apply elem_of_cons in Hin as [->|Hin]; [done|].
  destruct (IH Hin) as [k ->]. by eexists.
Qed.

Lemma unique_values_elem seen xs v :
  v ∈ seen ∨ v ∈ xs → v ∈ unique_values seen xs.
Proof.
  revert seen. induction xs as [|x xs IH]; intros seen; simpl.
  - intros [?|?%elem_of_nil]; done.
  - intros Hin. destruct (index_of x seen) as [k|] eqn:Hx.
    + apply IH. destruct Hin as [?|Hin]; [by left|].
      apply elem_of_cons in Hin as [->|?]; [|by right].
      left. apply list_elem_of_lookup. exists k. by apply index_of_Some.
    + apply IH. destruct Hin as [?|Hin]; [left; set_solver|].
      apply elem_of_cons in Hin as [->|?]; [left; set_solver|by right].
Qed.

(** Every entry of [xs] is found among the unique values, at the index
    [tf.unique] answers for it. *)
Lemma unique_index xs v :
  v ∈ xs →
  ∃ k, index_of v (unique_values [] xs) = Some k
       ∧ unique_values [] xs !! k = Some v.
Proof.
  intros Hin.
  destruct (index_of_elem v (unique_values [] xs)) as [k Hk].
  { apply unique_values_elem. by right. }
  exists k. split; [done|]. by apply index_of_Some.
Qed.

Lemma tf_unique_vector xs n :
  tf_unique (Tensor [n] xs)
  = Ok (vector (unique_values [] xs),
        Tensor [n] ((λ v, default 0 (index_of v (unique_values [] xs))) <$> xs)).
Proof. done. Qed.

Lemma unique_indices_bound xs :
  Forall (λ i, i < length (unique_values [] xs))
    ((λ v, default 0 (index_of v (unique_values [] xs))) <$> xs).
Proof.
  apply Forall_fmap, Forall_forall. intros v Hv. simpl.
  destruct (unique_index xs v Hv) as (k & -> & Hk). simpl.
  by eapply lookup_lt_Some.
Qed.

(** Gathering the rows computed for the unique values gives the rows of
    all the entries. *)
Lemma gather_unique {A} (g : Z → list A) (D : nat) xs :
  (∀ v, length (g v) = D) →
  gather_blocks D ((λ v, default 0 (index_of v (unique_values [] xs))) <$> xs)
    (flat_map g (unique_values [] xs))
  = flat_map g xs.
Proof.
  intros Hg. unfold gather_blocks. rewrite flat_map_fmap.
  apply flat_map_ext_elem. intros v Hv.
  destruct (unique_index xs v Hv) as (k & -> & Hk). simpl.
  by apply block_flat_map_const.
Qed.
End unique_lemmas.

(** ** [MultiHopFeatureTransform]: fetching the features *)

Section pod_feature_lemmas.
Import MultiHopFeatureTransform.
Context {A : Type} (row : Z → string → list A).
Implicit Types (names : list string) (dims : list Z) (vs : list Z).

Lemma sum_dims dims :
  Forall (λ d, (0 ≤ d)%Z) dims →
  sum_list (Z.to_nat <$> dims) = Z.to_nat (foldr Z.add 0%Z dims).
Proof.
  induction 1 as [|d dims Hd Hds IH]; [done|].
  rewrite fmap_cons. cbn [sum_list sum_list_with foldr].
  change (sum_list_with id (Z.to_nat <$> dims)) with (sum_list (Z.to_nat <$> dims)).
  rewrite IH.
  assert (0 ≤ foldr Z.add 0 dims)%Z.
  { clear IH. induction Hds; simpl; lia. }
  unfold id. lia.
Qed.

Lemma length_features_of names dims v :
  Forall2 (λ name d, length (row v name) = Z.to_nat d) names dims →
  length (features_of row names v) = sum_list (Z.to_nat <$> dims).
Proof.
  unfold features_of. induction 1 as [|name d names dims Hd _ IH]; [done|].
  cbn [flat_map]. rewrite length_app, Hd, IH. by rewrite fmap_cons.
Qed.

Lemma flat_map_seq_lookup {B} (f : nat → list A) (g : B → list A) (xs : list B) :
  (∀ o x, xs !! o = Some x → f o = g x) →
  flat_map f (seq 0 (length xs)) = flat_map g xs.
Proof.
  revert f. induction xs as [|x xs IH]; intros f Hfg; [done|].
  cbn [length seq flat_map]. rewrite (Hfg 0 x) by done. f_equal.
  rewrite <- (fmap_S_seq 0), flat_map_fmap. apply IH.
  intros o y Hy. by apply (Hfg (S o)).
Qed.

(** Concatenating the tensors of the features along the last axis: row
    [v] holds the features of vertex [v] one after the other. *)
Lemma tf_concat_pod_features (vertices : tensor Z) names dims :
  names ≠ [] → length names = length dims →
  (∀ v, Forall2 (λ name d, length (row v name) = Z.to_nat d) names dims) →
  tf_concat (pod_features row vertices names dims) (-1)
  = Ok (Tensor [size vertices; sum_list (Z.to_nat <$> dims)]
          (flat_map (features_of row names) (data vertices))).
Proof.
  intros Hne Hlen Hrow. unfold pod_features.
  set (mk := λ nd : string * Z,
         Tensor [size vertices; Z.to_nat nd.2]
           (flat_map (λ v, row v nd.1) (data vertices))).
  assert (∀ nd, nd ∈ zip names dims →
            ∀ v, length (row v nd.1) = Z.to_nat nd.2) as Hnd.
  { intros [name d] Hin v. apply list_elem_of_lookup in Hin as [i Hi].
    apply lookup_zip_Some in Hi as [Hn Hd].
    by destruct (Forall2_lookup_l _ _ _ _ _ (Hrow v) Hn) as (d' & ? & ?);
      simplify_eq. }
  destruct (zip names dims) as [|nd0 nds] eqn:Hzip.
  { destruct names, dims; done. }
  rewrite fmap_cons. unfold tf_concat.
  change (rank (mk nd0)) with 2. cbv zeta.
  rewrite (bool_decide_eq_true_2 (-1 < 0)%Z) by lia.
  rewrite (bool_decide_eq_true_2 (0 ≤ Z.of_nat 2 + -1)%Z) by lia.
  change (Z.to_nat (Z.of_nat 2 + -1)) with 1.
  rewrite <- (fmap_cons mk). unfold tf_concat_at. rewrite fmap_cons.
  rewrite <- (fmap_cons mk).
  rewrite bool_decide_eq_true_2.
  2:{ apply Forall_fmap, Forall_true. intros nd.
      unfold concat_compatible, rank, mk. cbn. split; [lia|done]. }
  change (shape (mk nd0)) with [size vertices; Z.to_nat nd0.2].
  cbn [take drop firstn skipn app]. do 2 f_equal.
  - do 2 f_equal. rewrite <- list_fmap_compose.
    rewrite <- (snd_zip names dims), Hzip by lia.
    rewrite <- list_fmap_compose. done.
  - rewrite numel_singleton. unfold size.
    apply flat_map_seq_lookup. intros o v Hv.
    rewrite flat_map_fmap. unfold features_of.
    rewrite <- (fst_zip names dims), Hzip by lia. rewrite flat_map_fmap.
    apply flat_map_ext_elem. intros nd Hin.
    change (axis_dim 1 (mk nd)) with (Z.to_nat nd.2).
    change (numel []) with 1. rewrite Nat.mul_1_r.
    change (data (mk nd)) with (flat_map (λ v, row v nd.1) (data vertices)).
    apply (block_flat_map_const (λ v, row v nd.1)); [|done].
    intros y _. by apply Hnd.
Qed.
End pod_feature_lemmas.

(** ** [MultiHopFeatureTransform.transform] *)

Section multi_hop_feature_claims.
Import MultiHopFeatureTransform.
Context {F W : Type}.

Lemma foldr_add_nonneg (ds : list Z) :
  Forall (λ d, (0 ≤ d)%Z) ds → (0 ≤ foldr Z.add 0 ds)%Z.
Proof. induction 1 as [|d ds Hd _ IH]; [done|]. cbn [foldr]. lia. Qed.

(** The features of a table of vertex ids: one row per entry. *)
Section get_feature.
Context {A : Type}.
Variable fetch : list (tensor Z) → list string → list Z → M W (list (tensor A)).
Variable row : Z → string → list A.
Variables (names : list string) (dims : list Z) (ids : tensor Z).
Hypothesis fetch_elementwise : elementwise fetch row names dims.
Hypothesis names_nonempty : names ≠ [].
Hypothesis dims_length : length names = length dims.
Hypothesis dims_nonneg : Forall (λ d, (0 ≤ d)%Z) dims.
Hypothesis row_length :
  ∀ v, Forall2 (λ name d, length (row v name) = Z.to_nat d) names dims.
Hypothesis ids_wf : wf ids.

Let D := Z.to_nat (foldr Z.add 0%Z dims).

Lemma length_features_of_D v : length (features_of row names v) = D.
Proof.
  rewrite (length_features_of row names dims) by done. by apply sum_dims.
Qed.

Lemma output_shape_of_nat :
  (Z.of_nat <$> shape ids) ++ [foldr Z.add 0%Z dims]
  = Z.of_nat <$> (shape ids ++ [D]).
Proof.
  rewrite fmap_app. f_equal. simpl. f_equal. unfold D.
  rewrite Z2Nat.id; [done|]. by apply foldr_add_nonneg.
Qed.

Lemma reshape_features xs :
  length xs = size ids →
  tf_reshape (Tensor [length xs; sum_list (Z.to_nat <$> dims)]
                (flat_map (features_of row names) xs))
    ((Z.of_nat <$> shape ids) ++ [foldr Z.add 0%Z dims])
  = Ok (Tensor (shape ids ++ [D]) (flat_map (features_of row names) xs)).
Proof.
  intros Hxs. rewrite output_shape_of_nat, reshape_exact.
  rewrite bool_decide_eq_true_2; [done|].
  rewrite numel_app, numel_singleton, size_Tensor.
  rewrite (length_flat_map_const _ _ D) by (intros; apply length_features_of_D).
  rewrite Hxs. unfold size. by rewrite ids_wf.
Qed.

(** [get_feature] on the unique vertices, gathered back. *)
Lemma get_feature_unique w :
  ∃ w',
    get_feature fetch (vector (unique_values [] (data ids)))
      (Some names) (DList dims)
      (Tensor [size ids]
         ((λ v, default 0 (index_of v (unique_values [] (data ids))))
          <$> data ids))
      (shape ids) w
    = (Ok (Some (Tensor (shape ids ++ [D])
                   (flat_map (features_of row names) (data ids)))), w').
Proof.
  destruct (fetch_elementwise (vector (unique_values [] (data ids))) w)
    as [w' Hfetch].
  exists w'. unfold get_feature. rewrite M_bind_lift. cbn [py_iter].
  rewrite (M_bind_Ok _ _ _ _ _ Hfetch). unfold lift. f_equal.
  rewrite (tf_concat_pod_features row) by done. rewrite bind_Ok.
  rewrite tf_gather_rows by apply unique_indices_bound.
  rewrite bind_Ok. cbn [shape data vector app]. rewrite numel_singleton.
  rewrite (gather_unique (features_of row names)
             (sum_list (Z.to_nat <$> dims)))
    by (intros; by apply (length_features_of row names dims)).
  cbv zeta.
  replace (size ids) with (length (data ids)) by done.
  by rewrite reshape_features.
Qed.

(** Fetching directly for every entry. *)
Lemma get_feature_direct_all w :
  ∃ w',
    get_feature_direct fetch ids names dims w
    = (Ok (Some (Tensor (shape ids ++ [D])
                   (flat_map (features_of row names) (data ids)))), w').
Proof.
  destruct (fetch_elementwise (Tensor [size ids] (data ids)) w) as [w' Hfetch].
  exists w'. unfold get_feature_direct. rewrite M_bind_lift, reshape_flat.
  rewrite (M_bind_Ok _ _ _ _ _ Hfetch). unfold lift. f_equal.
  rewrite (tf_concat_pod_features row) by done. rewrite bind_Ok.
  cbv zeta. rewrite size_Tensor. cbn [data].
  by rewrite reshape_features.
Qed.

(** The slice of the features at a position of the table. *)
Lemma features_slice p v :
  data ids !! p = Some v →
  block D p (flat_map (features_of row names) (data ids))
  = features_of row names v.
Proof.
  intros Hp. apply block_flat_map_const; [|done].
  intros; apply length_features_of_D.
Qed.
End get_feature.

(** C3: with a [get_pod_feature] that acts element-wise, the dense tensor
    [transform] returns has the shape of the table of ids followed by the sum
    of the dense feature dimensions, its slice at a position of the table is
    the concatenation of the dense features of the vertex there, and it is
    what fetching the features directly for every entry of the flattened
    table gives. *)
Theorem transform_dense_features (ops : TFOps F W) (self : config)
    (row : Z → string → list F) (names : list string) (dims : list Z)
    (inputs ids : tensor Z) (weights : option (tensor F)) (w w1 : W) :
  dense_feature_names self = Some names →
  dense_feature_dims self = DList dims →
  names ≠ [] → length names = length dims →
  Forall (λ d, (0 ≤ d)%Z) dims →
  (∀ v, Forall2 (λ name d, length (row v name) = Z.to_nat d) names dims) →
  elementwise (get_pod_feature_float32 ops) row names dims →
  sample_multi_hop ops inputs w = (Ok (ids, weights), w1) →
  wf ids →
  let D := Z.to_nat (foldr Z.add 0%Z dims) in
  let dense := Tensor (shape ids ++ [D])
                 (flat_map (features_of row names) (data ids)) in
  (∀ out w2, transform ops self inputs w = (Ok out, w2) →
             out !! "ids"%string = Some (VInt ids)
             ∧ out !! "dense"%string = Some (VFloat dense))
  ∧ shape dense = shape ids ++ [Z.to_nat (foldr Z.add 0%Z dims)]
  ∧ wf dense
  ∧ (∀ p v, data ids !! p = Some v →
            block D p (data dense) = features_of row names v)
  ∧ (∃ w', get_feature_direct (get_pod_feature_float32 ops) ids names dims w1
           = (Ok (Some dense), w'))
  ∧ (sparse_feature_names self = None → edge_weight self = false →
     ∃ out w2, transform ops self inputs w = (Ok out, w2)).
Proof.
  intros Hnames Hdims Hne Hlen Hnonneg Hrow Helem Hhops Hwf D dense.
  destruct (get_feature_unique (get_pod_feature_float32 ops) row names dims ids
              Helem Hne Hlen Hnonneg Hrow Hwf w1) as [w' Hdense].
  fold D in Hdense. fold dense in Hdense.
  assert (transform ops self inputs w
            = (sparse_features ←
                 get_feature (get_pod_feature_int64 ops)
                   (vector (unique_values [] (data ids)))
                   (sparse_feature_names self) (sparse_feature_dims self)
                   (Tensor [size ids]
                      ((λ v, default 0 (index_of v (unique_values [] (data ids))))
                       <$> data ids))
                   (shape ids);
               let outputs : gmap string (value F) :=
                 <["dense"%string := VFloat dense]>
                   {["ids"%string := VInt ids]} in
               let outputs := match sparse_features with
                              | Some s => <["sparse"%string := VInt s]> outputs
                              | None => outputs
                              end in
               if edge_weight self
               then match weights with
                    | Some ew => mret (<["edge_weight"%string := VFloat ew]> outputs)
                    | None => lift (Raise IndexError)
                    end
               else mret outputs) w') as Htransform.
  { unfold transform. rewrite (M_bind_Ok _ _ _ _ _ Hhops).
    cbn [fst snd]. rewrite M_bind_lift, reshape_flat.
    rewrite M_bind_lift, tf_unique_vector. cbn [data].
    rewrite Hnames, Hdims. by rewrite (M_bind_Ok _ _ _ _ _ Hdense). }
  split; [|split; [|split; [|split; [|split]]]].
  - intros out w2. rewrite Htransform. unfold mbind, M_bind.
    destruct (get_feature _ _ _ _ _ _ w') as [[[s|]|e] w3]; [| |done];
      cbv zeta; destruct (edge_weight self), weights as [ew|];
      unfold mret, M_ret, lift; intros [= <- <-]; by simplify_map_eq.
  - done.
  - unfold wf, dense. cbn [shape data].
    rewrite numel_app, numel_singleton.
    rewrite (length_flat_map_const _ _ D).
    + by rewrite Hwf.
    + intros v _. by apply (length_features_of_D row names dims).
  - intros p v Hp. by apply (features_slice row names dims ids).
  - by apply (get_feature_direct_all (get_pod_feature_float32 ops) row).
  - intros Hsparse Hew. rewrite Htransform, Hsparse, Hew.
    unfold get_feature, mbind, M_bind, mret, M_ret. cbv zeta. eauto.
Qed.
End multi_hop_feature_claims.

(** ** The sampling transforms at the example service *)

Example init_metapath_example :
  RandomWalkNegTransform.init [0%Z] [0%Z] 3 2 1 1%Z 1%Z (Some 3%Z) None
  = Ok example_rw_config.
Proof. reflexivity. Qed.

Lemma transform_pairs_witness :
  ∃ out,
    RandomWalkNegTransform.transform (example_pt_ops false) example_rw_config
      (vector [2; 4; 6]%Z) 0 = (Ok out, 2)
    ∧ dom out = {[ "target"%string; "context"%string; "negative"%string ]}
    ∧ out !! "target"%string
      = Some (Tensor [3; 1] (column 3 2 0 [2; 3; 4; 5; 6; 7]%Z))
    ∧ out !! "context"%string
      = Some (Tensor [3; 1] (column 3 2 1 [2; 3; 4; 5; 6; 7]%Z))
    ∧ out !! "negative"%string
      = Some (Tensor [3; 3] (replicate 9 0%Z)).
Proof.
  apply (transform_pairs (example_pt_ops false) example_rw_config
           (vector [2; 4; 6]%Z) (Tensor [3; 2] [2; 3; 4; 5; 6; 7]%Z)
           (Tensor [9] (replicate 9 0%Z)) [] 3 0 1 2).
  - reflexivity.
  - reflexivity.
  - reflexivity.
  - simpl. lia.
  - reflexivity.
Defined.

Example transform_pairs_example :
  (RandomWalkNegTransform.transform (example_pt_ops false) example_rw_config
     (vector [2; 4; 6]%Z) 0).1
  = Ok (<["target"%string := Tensor [3; 1] [2; 4; 6]%Z]>
        (<["context"%string := Tensor [3; 1] [3; 5; 7]%Z]>
        (<["negative"%string := Tensor [3; 3] (replicate 9 0%Z)]> ∅))).
Proof. reflexivity. Qed.

Lemma transform_sampler_failure_witness :
  RandomWalkNegTransform.transform (example_pt_ops true) example_rw_config
    (vector [2; 4; 6]%Z) 0 = (Raise ValueError, 1)
  ∧ NeighborNegTransform.transform example_tf_ops
      (NeighborNegTransform.init [0%Z] [0%Z] 3) (vector [2; 4; 6]%Z) 0
    = (Raise ValueError, 1).
Proof.
  apply (transform_sampler_failure (example_pt_ops true) example_rw_config
           example_tf_ops (NeighborNegTransform.init [0%Z] [0%Z] 3)
           (vector [2; 4; 6]%Z) 0 1).
  - reflexivity.
  - reflexivity.
Defined.

Lemma transform_dense_features_witness :
  ∃ out w2,
    MultiHopFeatureTransform.transform example_feature_ops example_feature_config
      (vector [2; 4]%Z) 0 = (Ok out, w2)
    ∧ out !! "dense"%string
      = Some (VFloat (Tensor [2; 3; 5]
                (flat_map (MultiHopFeatureTransform.features_of example_row
                             ["feature"%string])
                          [2; 3; 3; 4; 5; 5]%Z))).
Proof.
  pose proof (transform_dense_features example_feature_ops example_feature_config
                example_row ["feature"%string] [5%Z] (vector [2; 4]%Z)
                (Tensor [2; 3] [2; 3; 3; 4; 5; 5]%Z) None 0 1
                eq_refl eq_refl) as H.
  destruct H as (Hout & _ & _ & _ & _ & Hreturns).
  - discriminate.
  - reflexivity.
  - repeat constructor. lia.
  - intros v. repeat constructor.
  - intros vertices w. exists (S w). reflexivity.
  - reflexivity.
  - reflexivity.
  - destruct (Hreturns eq_refl eq_refl) as (out & w2 & Htransform).
    exists out, w2. split; [exact Htransform|].
    exact (proj2 (Hout out w2 Htransform)).
Defined.

Example transform_dense_features_example :
  (λ out, out !! "dense"%string) <$>
    (MultiHopFeatureTransform.transform example_feature_ops example_feature_config
       (vector [2; 4]%Z) 0).1
  = Ok (Some (VFloat (Tensor [2; 3; 5]
      [2; 2; 2; 2; 2;  3; 3; 3; 3; 3;  3; 3; 3; 3; 3;
       4; 4; 4; 4; 4;  5; 5; 5; 5; 5;  5; 5; 5; 5; 5]%Z))).
Proof. reflexivity. Qed.

(** Unlike [RelationTransform.transform], [__init__] writes the
    attributes of the instance and the sampling transforms move the state of
    the service on. *)
Example sampling_transform_moves_state :
  (RelationTransform.init_run example_table [2; 3] true
     (example_transform false, 0)).2 = (example_transform true, 0)
  ∧ (RelationTransform.sample
     (RandomWalkNegTransform.transform (example_pt_ops false) example_rw_config
        (vector [2; 4; 6]%Z))
     (example_transform false, 0)).2 = (example_transform false, 2)
  ∧ (RelationTransform.transform_run Z.leb example_inputs
       (example_transform false, 0)).2 = (example_transform false, 0).
Proof. repeat split; reflexivity. Qed.

(** Two runs of the sorting transform, on a dict and on a list that hold
    the same indices and the same edge weight. *)
Lemma transform_deterministic_witness :
  let first :=
    RelationTransform.transform_run Z.leb example_inputs
      (example_transform true, 0) in
  let second :=
    RelationTransform.transform_run Z.leb
      (RelationTransform.InSeq
         [VInt (Tensor [1; 2; 9] example_ids); VFloat example_weights; VNone])
      first.2 in
  first.2 = (example_transform true, 0)
  ∧ second = first
  ∧ first.1
    = RelationTransform.transform Z.leb (example_transform true) example_inputs.
Proof.
  apply (transform_deterministic Z.leb example_inputs
           (RelationTransform.InSeq
              [VInt (Tensor [1; 2; 9] example_ids); VFloat example_weights;
               VNone])
           (example_transform true) 0).
  reflexivity.
Defined.

(** * Further properties of the transforms *)

(** ** [RelationTransform.transform]: the forms of its input *)

Section relation_inputs.
Import RelationTransform.
Context {F : Type} (F_leb : F → F → bool).
Implicit Types (self : t) (inputs : inputs F) (d : gmap string (value F)).

(** A list or tuple, a dict and a bare tensor that hold the same indices
    and edge weight are transformed alike; the elements of a list after the
    second and the other entries of a dict are not looked at. *)
Theorem transform_input_forms self (iv ew : value F) (rest : list (value F)) d :
  transform F_leb self (InSeq (iv :: ew :: rest))
  = transform F_leb self
      (InDict (<["indices"%string := iv]> (<["edge_weight"%string := ew]> d)))
  ∧ transform F_leb self (InSeq (iv :: ew :: rest))
    = transform F_leb self (InSeq [iv; ew])
  ∧ transform F_leb self (InOther iv)
    = transform F_leb self (InSeq (iv :: VNone :: rest))
  ∧ transform F_leb self (InOther iv)
    = transform F_leb self
        (InDict (<["indices"%string := iv]> (delete "edge_weight"%string d))).
Proof.
  unfold transform. cbn [unpack take]. by simplify_map_eq.
Qed.

(** A list or tuple of fewer than two elements raises ValueError, a dict
    without indices KeyError, and indices that are None ValueError. *)
Theorem transform_input_errors self (xs : list (value F)) d inputs (ew : value F) :
  length xs < 2 →
  d !! "indices"%string = None →
  unpack inputs = Ok (VNone, ew) →
  transform F_leb self (InSeq xs) = Raise ValueError
  ∧ transform F_leb self (InDict d) = Raise KeyError
  ∧ transform F_leb self inputs = Raise ValueError.
Proof.
  intros Hxs Hd Hun. unfold transform. repeat split.
  - destruct xs as [|a [|b xs]]; simpl in *; (done || lia).
  - simpl. by rewrite Hd.
  - by rewrite Hun.
Qed.

(** Indices whose size is not a multiple of fanouts_dim are refused with
    InvalidArgumentError, whatever the table, the edge weight and
    sort_indices. *)
Theorem transform_size_mismatch self inputs (iv ew : value F) n :
  unpack inputs = Ok (iv, ew) →
  value_size iv = Some n →
  n `mod` fanouts_dim self ≠ 0 →
  transform F_leb self inputs = Raise InvalidArgumentError.
Proof.
  intros Hun Hsize Hmod. unfold transform. rewrite Hun, bind_Ok.
  assert (∀ A (leb : A → A → bool) (x : tensor A),
            size x = n → relation_of leb self x = Raise InvalidArgumentError) as Hrel.
  { intros A leb x Hx. unfold relation_of. rewrite reshape_rows.
    rewrite (bool_decide_eq_false_2
               (fanouts_dim self ≠ 0 ∧ size x `mod` fanouts_dim self = 0));
      [reflexivity|]. rewrite Hx. by intros [_ ?]. }
  destruct iv as [|x|x]; simpl in Hsize; [done|..]; injection Hsize as Hsize;
    cbn [relation_value]; by rewrite Hrel.
Qed.
End relation_inputs.

Lemma transform_input_errors_witness :
  RelationTransform.transform Z.leb (example_transform false)
    (RelationTransform.InSeq [VInt (vector example_ids)]) = Raise ValueError
  ∧ RelationTransform.transform Z.leb (example_transform false)
      (RelationTransform.InDict ∅) = Raise KeyError
  ∧ RelationTransform.transform Z.leb (example_transform false)
      (RelationTransform.InOther VNone) = Raise ValueError.
Proof.
  apply (transform_input_errors Z.leb (example_transform false)
           [VInt (vector example_ids)] ∅ (RelationTransform.InOther VNone) VNone).
  - simpl. lia.
  - reflexivity.
  - reflexivity.
Defined.

Lemma transform_size_mismatch_witness :
  RelationTransform.transform Z.leb (example_transform true)
    (RelationTransform.InOther (VInt (vector [1; 2; 3; 4]%Z)))
  = Raise InvalidArgumentError.
Proof.
  apply (transform_size_mismatch Z.leb (example_transform true)
           (RelationTransform.InOther (VInt (vector [1; 2; 3; 4]%Z)))
           (VInt (vector [1; 2; 3; 4]%Z)) VNone 4).
  - reflexivity.
  - reflexivity.
  - vm_compute. lia.
Defined.

(** ** [RelationTransform.transform]: the entries of its outputs *)

Section relation_entries_lemmas.
Import RelationTransform.
Context {A : Type}.

(** Row [a] of the relation indices holds, for the pair [p] of the table
    and the vertex [i] of the batch, row [c] of the transposed table, where
    [c] is entry [p * r + a] of the table of columns. *)
Lemma lookup_relation_data r num N (fi : list nat) (T : list A) fd a p i c :
  length T = fd * N → Forall (λ i, i < fd) fi → length fi = r * num →
  a < r → p < num → i < N → fi !! (p * r + a) = Some c →
  relation_data r num N fi T !! (a * (num * N) + p * N + i) = T !! (c * N + i).
Proof.
  intros HT Hfi Hlen Ha Hp Hi Hc. unfold relation_data.
  assert (∀ y, y ∈ fi → length (block N y T) = N) as Hblock.
  { intros y Hy. apply length_block.
    rewrite Forall_forall in Hfi. specialize (Hfi y Hy). rewrite HT. nia. }
  assert (length (gather_blocks N fi T) = (r * num) * N) as HG.
  { unfold gather_blocks. by rewrite (length_flat_map_const _ _ N), Hlen. }
  assert (∀ o k, o < r → k < num →
            length (block N o (block (r * N) k (gather_blocks N fi T))) = N)
    as Hinner.
  { intros o k Ho Hk. apply length_block.
    rewrite length_block; [nia|]. rewrite HG. nia. }
  rewrite <- Nat.add_assoc.
  rewrite (lookup_flat_map_const _ _ (num * N) a (p * N + i) a).
  - rewrite (lookup_flat_map_const _ _ N p i p).
    + rewrite lookup_block by done. rewrite lookup_block by nia.
      unfold gather_blocks.
      replace (p * (r * N) + (a * N + i)) with ((p * r + a) * N + i) by nia.
      rewrite (lookup_flat_map_const _ _ N (p * r + a) i c); [|done..].
      by apply lookup_block.
    + intros k Hk. apply elem_of_seq in Hk. apply Hinner; lia.
    + by apply lookup_seq_lt.
    + done.
  - intros o Ho. apply elem_of_seq in Ho.
    rewrite (length_flat_map_const _ _ N), length_seq; [done|].
    intros k Hk. apply elem_of_seq in Hk. apply Hinner; lia.
  - by apply lookup_seq_lt.
  - nia.
Qed.

(** The relation weight of a matrix of edge weights, in closed form. *)
Lemma weight_of_matrix_data (w : tensor A) N fd :
  shape w = [N; fd] → wf w →
  weight_of w
  = Ok (Tensor [N * (fd - 1); 1]
          (flat_map (λ o, drop 1 (block fd o (data w))) (seq 0 N))).
Proof.
  destruct w as [sh l]. unfold wf. cbn [shape data]. intros -> Hl.
  rewrite numel_matrix in Hl. unfold weight_of.
  rewrite tf_tail_columns_cons, bind_Ok.
  change [(-1)%Z; 1%Z] with [(-1)%Z; Z.of_nat 1].
  change (numel []) with 1. rewrite Nat.mul_1_r.
  set (l' := flat_map _ _).
  assert (length l' = N * (fd - 1)) as Hl'.
  { unfold l'. rewrite (length_flat_map_const _ _ (fd - 1)), length_seq; [done|].
    intros o Ho. apply elem_of_seq in Ho.
    rewrite length_drop, length_block by nia. lia. }
  by rewrite (reshape_rows_exact _ (N * (fd - 1)) 1) by (rewrite ?size_Tensor; lia).
Qed.

Lemma lookup_weight_data (l : list A) N fd i j :
  length l = N * fd → i < N → j < fd - 1 →
  flat_map (λ o, drop 1 (block fd o l)) (seq 0 N) !! (i * (fd - 1) + j)
  = l !! (i * fd + j + 1).
Proof.
  intros Hl Hi Hj.
  rewrite (lookup_flat_map_const _ _ (fd - 1) i j i).
  - rewrite lookup_drop, lookup_block by lia. f_equal. lia.
  - intros o Ho. apply elem_of_seq in Ho.
    rewrite length_drop, length_block by nia. lia.
  - by apply lookup_seq_lt.
  - done.
Qed.
End relation_entries_lemmas.

Section relation_entries.
Import RelationTransform.
Context {F : Type} (F_leb : F → F → bool).
Implicit Types (self : t) (inputs : inputs F) (out : gmap string (value F)).

(** Without sorting, the relation indices list the edges pair by pair of
    the table of columns and, within a pair, vertex by vertex of the batch:
    column [p * N + i] holds the entries of row [i] of the indices at the
    two columns of pair [p]. *)
Theorem transform_relation_entries self inputs (indices : tensor Z)
    (ew : value F) N out :
  sort_indices self = false →
  unpack inputs = Ok (VInt indices, ew) →
  size indices = N * fanouts_dim self →
  1 < fanouts_dim self →
  length (fanouts_indices self) = 2 * (fanouts_dim self - 1) →
  Forall (λ i, i < fanouts_dim self) (fanouts_indices self) →
  transform F_leb self inputs = Ok out →
  ∃ ri, out !! "relation_indices"%string = Some (VInt ri)
        ∧ shape ri = [2; (fanouts_dim self - 1) * N]
        ∧ ∀ a p i c,
            a < 2 → p < fanouts_dim self - 1 → i < N →
            fanouts_indices self !! (p * 2 + a) = Some c →
            data ri !! (a * ((fanouts_dim self - 1) * N) + p * N + i)
            = data indices !! (i * fanouts_dim self + c).
Proof.
  intros Hsort Hun Hsize Hfd Hlen Hrange Hout.
  apply transform_inv in Hout
    as (iv' & ew' & ri & ti & rw & Hun' & Hrel' & _ & ->).
  rewrite Hun in Hun'. apply Ok_pair_inj in Hun' as [<- <-].
  unfold relation_value in Hrel'.
  apply fmap_is_Ok in Hrel' as ([R Tg] & Hrel & Hpair).
  apply pair_equal_spec in Hpair as [-> ->]. cbn [prod_map fst snd].
  assert (length (fanouts_indices self) `div` 2 = fanouts_dim self - 1) as Hnum.
  { rewrite Hlen, Nat.mul_comm. apply Nat.div_mul. lia. }
  assert (length (fanouts_indices self) `div` (fanouts_dim self - 1) = 2) as Hr.
  { rewrite Hlen. apply Nat.div_mul. lia. }
  rewrite (relation_of_unsorted Z.leb self indices N) in Hrel
    by (rewrite ?Hnum, ?Hlen; try done; try lia;
        apply Nat.Div0.mod_mul).
  rewrite Hnum, Hr in Hrel.
  apply bind_is_Ok in Hrel as (Tg' & _ & Hrel).
  apply Ok_pair_inj in Hrel as [HR _].
  exists R. split; [by simplify_map_eq|]. rewrite <- HR.
  split; [reflexivity|]. cbn [data]. intros a p i c Ha Hp Hi Hc.
  assert (c < fanouts_dim self) as Hc'.
  { rewrite Forall_forall in Hrange. apply Hrange.
    by eapply list_elem_of_lookup_2. }
  rewrite (lookup_relation_data 2 (fanouts_dim self - 1) N _ _
             (fanouts_dim self) a p i c).
  - apply lookup_transpose_matrix; [exact Hsize|exact Hi|exact Hc'].
  - apply length_transpose_matrix. exact Hsize.
  - exact Hrange.
  - rewrite Hlen. lia.
  - exact Ha.
  - exact Hp.
  - exact Hi.
  - exact Hc.
Qed.

(** The relation weight lists the edge weights row by row without the
    first entry of each row; the width of the edge weights is not compared
    with fanouts_dim. *)
Theorem transform_weight_entries self inputs (iv : value F) (w : tensor F)
    N fd out :
  unpack inputs = Ok (iv, VFloat w) →
  shape w = [N; fd] → wf w →
  transform F_leb self inputs = Ok out →
  ∃ rw, out !! "relation_weight"%string = Some (VFloat rw)
        ∧ shape rw = [N * (fd - 1); 1]
        ∧ ∀ i j, i < N → j < fd - 1 →
            data rw !! (i * (fd - 1) + j) = data w !! (i * fd + j + 1).
Proof.
  intros Hun Hshape Hwf Hout.
  apply transform_inv in Hout
    as (iv' & ew' & ri & ti & rw & Hun' & _ & Hrw & ->).
  rewrite Hun in Hun'. apply Ok_pair_inj in Hun' as [<- <-].
  unfold weight_value in Hrw.
  rewrite (weight_of_matrix_data w N fd Hshape Hwf) in Hrw.
  destruct rw as [|rw|rw]; [done|done|].
  apply Ok_inj in Hrw. injection Hrw as Hrw.
  exists rw. split; [by simplify_map_eq|]. rewrite <- Hrw.
  split; [reflexivity|].
  cbn [data]. intros i j Hi Hj. apply lookup_weight_data; [|done..].
  unfold wf in Hwf. by rewrite Hwf, Hshape, numel_matrix.
Qed.

(** Indices of rank above 2 whose last dimension is fanouts_dim give
    target indices in the shape of the leading dimensions: the first entry of
    each row, in the order of the rows. *)
Theorem transform_target_leading_dims self inputs (indices : tensor Z)
    (ew : value F) lead out :
  unpack inputs = Ok (VInt indices, ew) →
  shape indices = lead ++ [fanouts_dim self] →
  2 ≤ length lead →
  wf indices →
  transform F_leb self inputs = Ok out →
  ∃ ti, out !! "target_indices"%string = Some (VInt ti)
        ∧ shape ti = lead
        ∧ length (data ti) = numel lead
        ∧ ∀ i, i < numel lead →
            data ti !! i = data indices !! (i * fanouts_dim self).
Proof.
  intros Hun Hshape Hlead Hwf Hout.
  apply transform_inv in Hout
    as (iv' & ew' & ri & ti & rw & Hun' & Hrel' & _ & ->).
  rewrite Hun in Hun'. apply Ok_pair_inj in Hun' as [<- <-].
  unfold relation_value in Hrel'.
  apply fmap_is_Ok in Hrel' as ([R Tg] & Hrel & Hpair).
  apply pair_equal_spec in Hpair as [-> ->]. cbn [prod_map fst snd].
  assert (size indices = numel lead * fanouts_dim self) as Hsize.
  { unfold size. unfold wf in Hwf.
    by rewrite Hwf, Hshape, numel_app, numel_singleton. }
  destruct (relation_of_target Z.leb self indices R Tg _ Hrel Hsize)
    as [Hfd Htg].
  unfold target_of in Htg. cbv zeta in Htg.
  assert (rank indices = length lead + 1) as Hrank.
  { unfold rank. by rewrite Hshape, length_app. }
  rewrite (bool_decide_eq_true_2 (2 < rank indices)) in Htg by lia.
  replace (take (rank indices - 1) (shape indices)) with lead in Htg
    by (rewrite Hshape, Hrank, take_app_length'; [done|lia]).
  rewrite reshape_exact in Htg.
  rewrite bool_decide_eq_true_2 in Htg
    by (rewrite size_Tensor; symmetry; by apply length_target_row).
  apply Ok_inj in Htg.
  exists Tg. split; [by simplify_map_eq|]. rewrite <- Htg.
  split; [reflexivity|]. cbn [data].
  split; [apply length_target_row; [exact Hfd|exact Hsize]|].
  intros i Hi. rewrite lookup_block by done.
  rewrite (lookup_transpose_matrix (numel lead) (fanouts_dim self) _ i 0)
    by (done || lia).
  f_equal. lia.
Qed.
End relation_entries.

Lemma transform_relation_entries_witness :
  ∃ out,
    RelationTransform.transform Z.leb (example_transform false)
      (RelationTransform.InOther (VInt (vector example_ids))) = Ok out
    ∧ ∃ ri, out !! "relation_indices"%string = Some (VInt ri)
            ∧ shape ri = [2; (9 - 1) * 2]
            ∧ ∀ a p i c,
                a < 2 → p < 9 - 1 → i < 2 →
                example_table [2; 3] !! (p * 2 + a) = Some c →
                data ri !! (a * ((9 - 1) * 2) + p * 2 + i)
                = example_ids !! (i * 9 + c).
Proof.
  eexists. split; [reflexivity|].
  apply (transform_relation_entries Z.leb (example_transform false)
           (RelationTransform.InOther (VInt (vector example_ids)))
           (vector example_ids) VNone 2).
  - reflexivity.
  - reflexivity.
  - reflexivity.
  - vm_compute. lia.
  - reflexivity.
  - apply (bool_decide_unpack _). vm_compute. exact I.
  - reflexivity.
Defined.

Lemma transform_weight_entries_witness :
  ∃ out,
    RelationTransform.transform Z.leb (example_transform false) example_inputs
    = Ok out
    ∧ ∃ rw, out !! "relation_weight"%string = Some (VFloat rw)
            ∧ shape rw = [2 * (9 - 1); 1]
            ∧ ∀ i j, i < 2 → j < 9 - 1 →
                data rw !! (i * (9 - 1) + j)
                = data example_weights !! (i * 9 + j + 1).
Proof.
  eexists. split; [reflexivity|].
  apply (transform_weight_entries Z.leb (example_transform false) example_inputs
           (VInt (Tensor [1; 2; 9] example_ids)) example_weights 2 9).
  - reflexivity.
  - reflexivity.
  - reflexivity.
  - reflexivity.
Defined.

Lemma transform_target_leading_dims_witness :
  ∃ out,
    RelationTransform.transform Z.leb (example_transform false) example_inputs
    = Ok out
    ∧ ∃ ti, out !! "target_indices"%string = Some (VInt ti)
            ∧ shape ti = [1; 2]
            ∧ length (data ti) = numel [1; 2]
            ∧ ∀ i, i < numel [1; 2] →
                data ti !! i = example_ids !! (i * 9).
Proof.
  eexists. split; [reflexivity|].
  apply (transform_target_leading_dims Z.leb (example_transform false)
           example_inputs (Tensor [1; 2; 9] example_ids)
           (VFloat example_weights) [1; 2]).
  - reflexivity.
  - reflexivity.
  - simpl. lia.
  - reflexivity.
  - reflexivity.
Defined.

(** ** The sampling transforms: results and errors *)

Section neighbor_neg_transform.
Import NeighborNegTransform.
Context {W : Type}.
Implicit Types (ops : TFOps W) (self : config).

(** When the service answers neighbors and enough sampled vertices,
    [transform] returns the inputs as a column, the first tensor of
    neighbors as a column, whatever its size, and the sampled vertices as a
    matrix with one row per input and negative_num columns. *)
Theorem transform_neighbors ops self inputs (neighbors negative : tensor Z)
    (others others' : list (tensor Z)) (w w1 w2 : W) :
  sample_neighbors ops (Tensor [size inputs] (data inputs))
    (edge_types self) 1 false w = (Ok (neighbors :: others), w1) →
  sample_vertices ops (vertex_type self)
    (Z.of_nat (size inputs) * negative_num self)%Z w1
    = (Ok (negative :: others'), w2) →
  (0 ≤ negative_num self)%Z →
  size negative = size inputs * Z.to_nat (negative_num self) →
  ∃ out,
    transform ops self inputs w = (Ok out, w2)
    ∧ dom out = {[ "target"%string; "context"%string; "negative"%string ]}
    ∧ out !! "target"%string = Some (Tensor [size inputs; 1] (data inputs))
    ∧ out !! "context"%string
      = Some (Tensor [size neighbors; 1] (data neighbors))
    ∧ out !! "negative"%string
      = Some (Tensor [size inputs; Z.to_nat (negative_num self)]
                (data negative)).
Proof.
  intros Hn Hneg Hnn Hsize. unfold transform.
  rewrite M_bind_lift, reshape_flat, (M_bind_Ok _ _ _ _ _ Hn).
  rewrite bool_decide_eq_false_2 by done.
  change [(-1)%Z; 1%Z] with [(-1)%Z; Z.of_nat 1].
  rewrite M_bind_lift, (reshape_rows_exact _ (size inputs) 1) by lia.
  rewrite M_bind_lift. cbn [py_index lookup list_lookup]. rewrite bind_Ok.
  rewrite (reshape_rows_exact _ (size neighbors) 1) by lia.
  cbv zeta. rewrite size_Tensor.
  change (length (data inputs)) with (size inputs).
  rewrite (M_bind_Ok _ _ _ _ _ Hneg).
  rewrite M_bind_lift. cbn [py_index lookup list_lookup]. rewrite bind_Ok.
  replace [Z.of_nat (size inputs); negative_num self]
    with (Z.of_nat <$> [size inputs; Z.to_nat (negative_num self)])
    by (simpl; rewrite Z2Nat.id by done; done).
  rewrite reshape_exact, numel_matrix, Hsize.
  rewrite bool_decide_eq_true_2 by done.
  eexists. split; [reflexivity|]. split; [set_solver|]. by simplify_map_eq.
Qed.

(** When the service answers no sampled vertices, [transform] raises
    IndexError; when the first tensor it answers has not
    size * negative_num entries, InvalidArgumentError.  Both sampling calls
    have been made by then. *)
Theorem transform_neighbors_negative_errors ops self inputs
    (neighbors : tensor Z) (others sampled : list (tensor Z)) (w w1 w2 : W) :
  sample_neighbors ops (Tensor [size inputs] (data inputs))
    (edge_types self) 1 false w = (Ok (neighbors :: others), w1) →
  sample_vertices ops (vertex_type self)
    (Z.of_nat (size inputs) * negative_num self)%Z w1 = (Ok sampled, w2) →
  (0 ≤ negative_num self)%Z →
  (sampled = [] → transform ops self inputs w = (Raise IndexError, w2))
  ∧ (∀ negative others',
       sampled = negative :: others' →
       size negative ≠ size inputs * Z.to_nat (negative_num self) →
       transform ops self inputs w = (Raise InvalidArgumentError, w2)).
Proof.
  intros Hn Hneg Hnn.
  assert (transform ops self inputs w
          = match (negative ← py_index sampled 0;
                   tf_reshape negative
                     (Z.of_nat <$> [size inputs; Z.to_nat (negative_num self)]))
            with
            | Ok negative =>
                (Ok (<["target"%string := Tensor [size inputs; 1] (data inputs)]>
                     (<["context"%string
                        := Tensor [size neighbors; 1] (data neighbors)]>
                     (<["negative"%string := negative]> ∅))), w2)
            | Raise e => (Raise e, w2)
            end) as ->.
  { unfold transform.
    rewrite M_bind_lift, reshape_flat, (M_bind_Ok _ _ _ _ _ Hn).
    rewrite bool_decide_eq_false_2 by done.
    change [(-1)%Z; 1%Z] with [(-1)%Z; Z.of_nat 1].
    rewrite M_bind_lift, (reshape_rows_exact _ (size inputs) 1) by lia.
    rewrite M_bind_lift. cbn [py_index lookup list_lookup]. rewrite bind_Ok.
    rewrite (reshape_rows_exact _ (size neighbors) 1) by lia.
    cbv zeta. rewrite size_Tensor.
    change (length (data inputs)) with (size inputs).
    rewrite (M_bind_Ok _ _ _ _ _ Hneg).
    rewrite M_bind_lift.
    replace [Z.of_nat (size inputs); negative_num self]
      with (Z.of_nat <$> [size inputs; Z.to_nat (negative_num self)])
      by (simpl; rewrite Z2Nat.id by done; done).
    reflexivity. }
  split.
  - intros ->. reflexivity.
  - intros negative others' -> Hsize.
    cbn [py_index lookup list_lookup]. rewrite bind_Ok, reshape_exact.
    rewrite bool_decide_eq_false_2; [reflexivity|].
    rewrite numel_matrix. congruence.
Qed.
End neighbor_neg_transform.

Lemma transform_neighbors_witness :
  ∃ out,
    NeighborNegTransform.transform (example_neighbor_ops false)
      (NeighborNegTransform.init [0%Z] [0%Z] 3) (Tensor [1; 2] [2; 4]%Z) 0
    = (Ok out, 2)
    ∧ dom out = {[ "target"%string; "context"%string; "negative"%string ]}
    ∧ out !! "target"%string = Some (Tensor [2; 1] [2; 4]%Z)
    ∧ out !! "context"%string = Some (Tensor [2; 1] [3; 5]%Z)
    ∧ out !! "negative"%string = Some (Tensor [2; 3] (replicate 6 0%Z)).
Proof.
  apply (transform_neighbors (example_neighbor_ops false)
           (NeighborNegTransform.init [0%Z] [0%Z] 3) (Tensor [1; 2] [2; 4]%Z)
           (Tensor [2; 1] [3; 5]%Z) (Tensor [6] (replicate 6 0%Z)) [] [] 0 1 2).
  - reflexivity.
  - reflexivity.
  - simpl. lia.
  - reflexivity.
Defined.

Lemma transform_neighbors_negative_errors_witness :
  ([Tensor [5] (replicate 5 0%Z)] = [] →
   NeighborNegTransform.transform (example_neighbor_ops true)
     (NeighborNegTransform.init [0%Z] [0%Z] 3) (vector [2; 4]%Z) 0
   = (Raise IndexError, 2))
  ∧ (∀ negative others',
       [Tensor [5] (replicate 5 0%Z)] = negative :: others' →
       size negative ≠ 2 * 3 →
       NeighborNegTransform.transform (example_neighbor_ops true)
         (NeighborNegTransform.init [0%Z] [0%Z] 3) (vector [2; 4]%Z) 0
       = (Raise InvalidArgumentError, 2)).
Proof.
  apply (transform_neighbors_negative_errors (example_neighbor_ops true)
           (NeighborNegTransform.init [0%Z] [0%Z] 3) (vector [2; 4]%Z)
           (Tensor [2; 1] [3; 5]%Z) [] [Tensor [5] (replicate 5 0%Z)] 0 1 2).
  - reflexivity.
  - reflexivity.
  - simpl. lia.
Defined.

Section rw_neg_transform.
Import RandomWalkNegTransform.
Context {F W : Type}.
Implicit Types (ops : PTOps F W) (self : config F).

(** Pairs whose last dimension is not 2 cannot be split into target and
    context: [transform] raises RuntimeError, and the service is not asked
    for negative vertices. *)
Theorem transform_pairs_width ops self inputs (pairs : tensor Z)
    (outer : list nat) (c : nat) (w w1 : W) :
  sample_pairs_by_random_walk ops (Tensor [size inputs] (data inputs))
    (metapath self) (repetition self) (context_size self)
    (walk_p self) (walk_q self) w = (Ok (Some pairs), w1) →
  shape pairs = outer ++ [c] →
  c ≠ 2 →
  transform ops self inputs w = (Raise RuntimeError, w1).
Proof.
  intros Hpairs Hsh Hc. unfold transform. cbv zeta.
  rewrite (M_bind_Ok _ _ _ _ _ Hpairs), M_bind_lift.
  unfold torch_split_last. rewrite Hsh, reverse_app, reverse_singleton. cbn [app].
  rewrite (bool_decide_eq_false_2 (sum_list [1; 1] = c)); [reflexivity|].
  simpl. congruence.
Qed.

(** When the service answers no sampled vertices, [transform] raises
    IndexError; when the first tensor it answers has not
    P * negative_num entries for the P pairs, RuntimeError. *)
Theorem transform_pairs_negative_errors ops self inputs (pairs : tensor Z)
    (sampled : list (tensor Z)) (P : nat) (w w1 w2 : W) :
  sample_pairs_by_random_walk ops (Tensor [size inputs] (data inputs))
    (metapath self) (repetition self) (context_size self)
    (walk_p self) (walk_q self) w = (Ok (Some pairs), w1) →
  shape pairs = [P; 2] →
  sample_vertices ops (vertex_type self) (negative_num self * Z.of_nat P)%Z w1
    = (Ok sampled, w2) →
  (0 ≤ negative_num self)%Z →
  (sampled = [] → transform ops self inputs w = (Raise IndexError, w2))
  ∧ (∀ negative others,
       sampled = negative :: others →
       size negative ≠ P * Z.to_nat (negative_num self) →
       transform ops self inputs w = (Raise RuntimeError, w2)).
Proof.
  intros Hpairs Hsh Hneg Hnn. destruct pairs as [sh d]. simpl in Hsh. subst sh.
  assert (transform ops self inputs w
          = match (negative ← py_index sampled 0;
                   torch_view negative
                     (Z.of_nat <$> [P; Z.to_nat (negative_num self)]))
            with
            | Ok negative =>
                (Ok (<["target"%string := Tensor [P; 1] (column P 2 0 d)]>
                     (<["context"%string := Tensor [P; 1] (column P 2 1 d)]>
                     (<["negative"%string := negative]> ∅))), w2)
            | Raise e => (Raise e, w2)
            end) as ->.
  { unfold transform. cbv zeta. rewrite (M_bind_Ok _ _ _ _ _ Hpairs).
    rewrite M_bind_lift, torch_split_pairs, bind_Ok.
    rewrite M_bind_lift. cbn [torch_size0 shape].
    rewrite (M_bind_Ok _ _ _ _ _ Hneg).
    rewrite M_bind_lift.
    replace [Z.of_nat P; negative_num self]
      with (Z.of_nat <$> [P; Z.to_nat (negative_num self)])
      by (simpl; rewrite Z2Nat.id by done; done).
    reflexivity. }
  split.
  - intros ->. reflexivity.
  - intros negative others -> Hsize.
    cbn [py_index lookup list_lookup]. rewrite bind_Ok.
    unfold torch_view. rewrite reshape_exact.
    rewrite bool_decide_eq_false_2; [reflexivity|].
    rewrite numel_matrix. congruence.
Qed.
End rw_neg_transform.

Lemma transform_pairs_width_witness :
  RandomWalkNegTransform.transform (example_pt_ops_bad true) example_rw_config
    (vector [2; 4; 6]%Z) 0 = (Raise RuntimeError, 1).
Proof.
  apply (transform_pairs_width (example_pt_ops_bad true) example_rw_config
           (vector [2; 4; 6]%Z)
           (Tensor [3; 3] [2; 3; 4; 4; 5; 6; 6; 7; 8]%Z) [3] 3 0 1).
  - reflexivity.
  - reflexivity.
  - lia.
Defined.

Lemma transform_pairs_negative_errors_witness :
  ([Tensor [8] (replicate 8 0%Z)] = [] →
   RandomWalkNegTransform.transform (example_pt_ops_bad false) example_rw_config
     (vector [2; 4; 6]%Z) 0 = (Raise IndexError, 2))
  ∧ (∀ negative others,
       [Tensor [8] (replicate 8 0%Z)] = negative :: others →
       size negative ≠ 3 * 3 →
       RandomWalkNegTransform.transform (example_pt_ops_bad false)
         example_rw_config (vector [2; 4; 6]%Z) 0 = (Raise RuntimeError, 2)).
Proof.
  apply (transform_pairs_negative_errors (example_pt_ops_bad false)
           example_rw_config (vector [2; 4; 6]%Z)
           (Tensor [3; 2] [2; 3; 4; 5; 6; 7]%Z)
           [Tensor [8] (replicate 8 0%Z)] 3 0 1 2).
  - reflexivity.
  - reflexivity.
  - reflexivity.
  - simpl. lia.
Defined.

(** ** [MultiHopFeatureTransform.__init__]: the config it builds *)

Section multi_hop_feature_config.
Import MultiHopFeatureTransform.

Lemma Forall_eq_replicate (a : Z) (l : list Z) :
  Forall (λ x, x = a) l → l = replicate (length l) a.
Proof. induction 1 as [|x l -> _ IH]; [done|]. simpl. by rewrite <- IH. Qed.

Lemma check_dense_inv names dd dims :
  check_dense (Some names) dd = Ok dims →
  truthy dd = true ∧ ∃ ds, dims = DList ds ∧ length ds = length names.
Proof.
  unfold check_dense, assert. destruct (truthy dd) eqn:Htruthy; [|done].
  rewrite bind_Ok. cbv zeta.
  destruct dd as [|d|ds]; [done|..]; cbn [expand py_len]; rewrite bind_Ok;
    case_bool_decide as Hlen; [|done| |done]; rewrite bind_Ok;
    intros [= <-]; (split; [done|]); eexists; (split; [done|]).
  - by rewrite length_replicate.
  - done.
Qed.

Lemma check_sparse_inv names sd dims :
  check_sparse (Some names) sd = Ok dims →
  dims = DList (replicate (length names) 1%Z).
Proof.
  unfold check_sparse, assert. cbv zeta.
  assert (∀ entries,
            (if bool_decide (Forall (λ dim, dim = 1%Z) entries)
             then _ ← (if bool_decide (length names = length entries)
                       then Ok () else Raise AssertionError);
                  Ok (DList entries)
             else Raise ValueError) = Ok dims →
            dims = DList (replicate (length names) 1%Z)) as Hentries.
  { intros entries. case_bool_decide as Hall; [|done].
    case_bool_decide as Hlen; [|done]. rewrite bind_Ok. intros [= <-].
    rewrite Hlen. f_equal. by apply Forall_eq_replicate. }
  destruct sd as [|d|ds]; cbn [expand py_iter]; rewrite bind_Ok; apply Hentries.
Qed.

Lemma init_inv mp fo ew dn dd sn sd self :
  init mp fo ew dn dd sn sd = Ok self →
  ∃ dd' sd',
    check_dense dn dd = Ok dd' ∧ check_sparse sn sd = Ok sd'
    ∧ (dn ≠ None ∨ sn ≠ None)
    ∧ self = {| metapath := mp; fanouts := fo; edge_weight := ew;
                dense_feature_names := dn; dense_feature_dims := dd';
                sparse_feature_names := sn; sparse_feature_dims := sd' |}.
Proof.
  intros Hinit.
  assert (dn ≠ None ∨ sn ≠ None) as Hnames.
  { destruct dn, sn; [by left|by left|by right|done]. }
  assert (init mp fo ew dn dd sn sd
          = dd' ← check_dense dn dd; sd' ← check_sparse sn sd;
            Ok {| metapath := mp; fanouts := fo; edge_weight := ew;
                  dense_feature_names := dn; dense_feature_dims := dd';
                  sparse_feature_names := sn; sparse_feature_dims := sd' |})
    as Heq.
  { unfold init. destruct dn, sn; try done. }
  rewrite Heq in Hinit.
  apply bind_is_Ok in Hinit as (dd' & Hdense & Hinit).
  apply bind_is_Ok in Hinit as (sd' & Hsparse & Hinit).
  apply Ok_inj in Hinit. eauto 10.
Qed.

(** A config that [__init__] accepts has at least one list of feature
    names; its dense dims are a list with one entry per dense feature name,
    its sparse dims a list of ones with one entry per sparse feature name,
    and dims given without names are kept as they are. *)
Theorem init_config_invariant mp fo ew dn dd sn sd self :
  init mp fo ew dn dd sn sd = Ok self →
  metapath self = mp ∧ fanouts self = fo ∧ edge_weight self = ew
  ∧ dense_feature_names self = dn ∧ sparse_feature_names self = sn
  ∧ (dn ≠ None ∨ sn ≠ None)
  ∧ (∀ names, dn = Some names →
       ∃ ds, dense_feature_dims self = DList ds ∧ length ds = length names)
  ∧ (dn = None → dense_feature_dims self = dd)
  ∧ (∀ names, sn = Some names →
       sparse_feature_dims self = DList (replicate (length names) 1%Z))
  ∧ (sn = None → sparse_feature_dims self = sd).
Proof.
  intros Hinit.
  apply init_inv in Hinit as (dd' & sd' & Hdense & Hsparse & Hnames & ->).
  cbn. repeat split; try done.
  - intros names ->. by apply check_dense_inv in Hdense as [_ ?].
  - intros ->. simpl in Hdense. by injection Hdense.
  - intros names ->. by apply check_sparse_inv in Hsparse.
  - intros ->. simpl in Hsparse. by injection Hsparse.
Qed.

(** With dense feature names, [__init__] raises AssertionError when the
    dense dims are None, 0, an empty list or a list of another length than
    the names, whatever the sparse arguments are; and when the dense
    arguments pass, a list of sparse dims that are all 1 but of another
    length than the sparse names raises it as well. *)
Theorem init_dims_assertions mp fo ew dn dd sn sd names :
  dn = Some names →
  truthy dd = false ∨ (∃ ds, dd = DList ds ∧ length ds ≠ length names) →
  init mp fo ew dn dd sn sd = Raise AssertionError
  ∧ (∀ dd' snames ds,
       is_ok (check_dense dn dd') = true →
       Forall (λ dim, dim = 1%Z) ds → length ds ≠ length snames →
       init mp fo ew dn dd' (Some snames) (DList ds) = Raise AssertionError).
Proof.
  intros -> Hdd. split.
  - unfold init.
    assert (check_dense (Some names) dd = Raise AssertionError) as ->;
      [|by destruct sn].
    unfold check_dense, assert.
    destruct Hdd as [->|(ds & -> & Hlen)]; [done|].
    cbn [truthy]. case_bool_decide; [|done]. rewrite bind_Ok.
    cbn [expand py_len]. rewrite bind_Ok.
    by rewrite bool_decide_eq_false_2 by congruence.
  - intros dd' snames ds Hdense Hall Hlen. unfold init.
    destruct (check_dense (Some names) dd') as [dims|e]; [|done].
    rewrite bind_Ok. unfold check_sparse, assert. cbn [expand py_iter].
    rewrite bind_Ok, bool_decide_eq_true_2 by done.
    by rewrite bool_decide_eq_false_2 by congruence.
Qed.
End multi_hop_feature_config.

Lemma init_config_invariant_witness :
  let self :=
    {| MultiHopFeatureTransform.metapath := [[0%Z]; [0%Z]];
       MultiHopFeatureTransform.fanouts := [2; 3];
       MultiHopFeatureTransform.edge_weight := false;
       MultiHopFeatureTransform.dense_feature_names := Some ["feature"%string];
       MultiHopFeatureTransform.dense_feature_dims :=
         MultiHopFeatureTransform.DList [5%Z];
       MultiHopFeatureTransform.sparse_feature_names :=
         Some ["id"%string; "kind"%string];
       MultiHopFeatureTransform.sparse_feature_dims :=
         MultiHopFeatureTransform.DList [1%Z; 1%Z] |} in
  MultiHopFeatureTransform.dense_feature_dims self
  = MultiHopFeatureTransform.DList [5%Z]
  ∧ MultiHopFeatureTransform.sparse_feature_dims self
    = MultiHopFeatureTransform.DList (replicate 2 1%Z).
Proof.
  intros self.
  destruct (init_config_invariant [[0%Z]; [0%Z]] [2; 3] false
              (Some ["feature"%string]) (MultiHopFeatureTransform.DList [5%Z])
              (Some ["id"%string; "kind"%string]) MultiHopFeatureTransform.DNone
              self)
    as (_ & _ & _ & _ & _ & _ & _ & _ & Hsparse & _).
  - reflexivity.
  - split; [reflexivity|]. exact (Hsparse _ eq_refl).
Defined.

Lemma init_dims_assertions_witness :
  MultiHopFeatureTransform.init [[0%Z]; [0%Z]] [2; 3] false
    (Some ["a"%string; "b"%string]) (MultiHopFeatureTransform.DList [5%Z])
    (Some ["id"%string]) MultiHopFeatureTransform.DNone
  = Raise AssertionError
  ∧ MultiHopFeatureTransform.init [[0%Z]; [0%Z]] [2; 3] false
      (Some ["a"%string; "b"%string]) (MultiHopFeatureTransform.DInt 5)
      (Some ["id"%string]) (MultiHopFeatureTransform.DList [1%Z; 1%Z])
    = Raise AssertionError.
Proof.
  destruct (init_dims_assertions [[0%Z]; [0%Z]] [2; 3] false
              (Some ["a"%string; "b"%string])
              (MultiHopFeatureTransform.DList [5%Z])
              (Some ["id"%string]) MultiHopFeatureTransform.DNone
              ["a"%string; "b"%string]) as [Hdense Hsparse].
  - reflexivity.
  - right. exists [5%Z]. split; [reflexivity|]. simpl. lia.
  - split; [exact Hdense|].
    apply (Hsparse (MultiHopFeatureTransform.DInt 5) ["id"%string] [1%Z; 1%Z]).
    + reflexivity.
    + repeat constructor.
    + simpl. lia.
Defined.

(** ** [MultiHopFeatureTransform.transform]: the entries of its output *)

Section multi_hop_feature_transform.
Import MultiHopFeatureTransform.
Context {F W : Type}.
Implicit Types (ops : TFOps F W) (self : config).

Lemma M_bind_inv {B C} (m : M W B) (f : B → M W C) w c w2 :
  (m ≫= f) w = (Ok c, w2) → ∃ b w1, m w = (Ok b, w1) ∧ f b w1 = (Ok c, w2).
Proof.
  unfold mbind, M_bind. destruct (m w) as [[b|e] w1]; [eauto|done].
Qed.

Lemma M_bind_ext {B C} (m : M W B) (f g : B → M W C) w :
  (∀ b w1, f b w1 = g b w1) → (m ≫= f) w = (m ≫= g) w.
Proof.
  intros Hfg. unfold mbind, M_bind. by destruct (m w) as [[b|e] w1].
Qed.

(** [get_feature] answers None exactly when it is given no feature
    names. *)
Lemma get_feature_Some {A}
    (fetch : list (tensor Z) → list string → list Z → M W (list (tensor A)))
    vertices names dims indices origin_shape w r w' :
  get_feature fetch vertices names dims indices origin_shape w = (Ok r, w') →
  is_Some r ↔ is_Some names.
Proof.
  unfold get_feature. destruct names as [names|].
  - intros H. apply M_bind_inv in H as (ds & w1 & _ & H).
    apply M_bind_inv in H as (fs & w2 & _ & H).
    unfold lift in H. injection H as H _.
    apply bind_is_Ok in H as (f1 & _ & H).
    apply bind_is_Ok in H as (f2 & _ & H). cbv zeta in H.
    apply bind_is_Ok in H as (f3 & _ & H).
    apply Ok_inj in H as <-. split; eauto.
  - intros [= <- _]. split; intros [? ?]; done.
Qed.

(** What [transform] does once the service has answered the table of
    vertex ids. *)
Lemma transform_unfold ops self inputs ids weights w w1 :
  sample_multi_hop ops inputs w = (Ok (ids, weights), w1) →
  transform ops self inputs w
  = (dense_features ←
       get_feature (get_pod_feature_float32 ops)
         (vector (unique_values [] (data ids)))
         (dense_feature_names self) (dense_feature_dims self)
         (Tensor [size ids]
            ((λ v, default 0 (index_of v (unique_values [] (data ids))))
             <$> data ids))
         (shape ids);
     let outputs : gmap string (value F) :=
       match dense_features with
       | Some d => <["dense"%string := VFloat d]> {["ids"%string := VInt ids]}
       | None => {["ids"%string := VInt ids]}
       end in
     sparse_features ←
       get_feature (get_pod_feature_int64 ops)
         (vector (unique_values [] (data ids)))
         (sparse_feature_names self) (sparse_feature_dims self)
         (Tensor [size ids]
            ((λ v, default 0 (index_of v (unique_values [] (data ids))))
             <$> data ids))
         (shape ids);
     let outputs := match sparse_features with
                    | Some s => <["sparse"%string := VInt s]> outputs
                    | None => outputs
                    end in
     if edge_weight self
     then match weights with
          | Some ew => mret (<["edge_weight"%string := VFloat ew]> outputs)
          | None => lift (Raise IndexError)
          end
     else mret outputs) w1.
Proof.
  intros Hhops. unfold transform. rewrite (M_bind_Ok _ _ _ _ _ Hhops).
  cbn [fst snd]. rewrite M_bind_lift, reshape_flat.
  by rewrite M_bind_lift, tf_unique_vector.
Qed.

(** The dict that [transform] returns holds the table of vertex ids the
    service answered under ids, dense and sparse exactly when the config has
    dense and sparse feature names, and edge_weight exactly when the config
    asks for edge weights, which the service then has answered; it has no
    other keys. *)
Theorem transform_output_keys ops self inputs out w w2 :
  transform ops self inputs w = (Ok out, w2) →
  ∃ ids weights w1,
    sample_multi_hop ops inputs w = (Ok (ids, weights), w1)
    ∧ out !! "ids"%string = Some (VInt ids)
    ∧ (is_Some (out !! "dense"%string) ↔ is_Some (dense_feature_names self))
    ∧ (is_Some (out !! "sparse"%string) ↔ is_Some (sparse_feature_names self))
    ∧ (edge_weight self = true →
       ∃ wt, weights = Some wt
             ∧ out !! "edge_weight"%string = Some (VFloat wt))
    ∧ (edge_weight self = false → out !! "edge_weight"%string = None)
    ∧ dom out ⊆ {[ "ids"%string; "dense"%string; "sparse"%string;
                   "edge_weight"%string ]}.
Proof.
  intros H.
  assert (∃ ids weights w1,
            sample_multi_hop ops inputs w = (Ok (ids, weights), w1))
    as (ids & weights & w1 & Hhops).
  { unfold transform in H. apply M_bind_inv in H as ([ids wts] & w1 & Hs & _).
    eauto. }
  exists ids, weights, w1. split; [exact Hhops|].
  rewrite (transform_unfold _ _ _ _ _ _ _ Hhops) in H.
  apply M_bind_inv in H as (d & w3 & Hd & H). cbv zeta in H.
  apply M_bind_inv in H as (s & w4 & Hs & H).
  apply get_feature_Some in Hd. apply get_feature_Some in Hs.
  rewrite <- Hd, <- Hs. clear Hd Hs.
  destruct d as [d|], s as [s|], (edge_weight self), weights as [wt|];
    unfold mret, M_ret, lift in H; try discriminate H;
    apply pair_equal_spec in H as [H _]; apply Ok_inj in H as <-;
    (split; [by simplify_map_eq|]);
    (split; [simplify_map_eq; split; intros Hx;
             first [by apply is_Some_None in Hx|eauto]|]);
    (split; [simplify_map_eq; split; intros Hx;
             first [by apply is_Some_None in Hx|eauto]|]);
    (split; [intros ?; first [done|eexists; split; [done|by simplify_map_eq]]|]);
    (split; [intros ?; first [done|by simplify_map_eq]|]);
    rewrite ?dom_insert_L, ?dom_singleton_L; intros k;
    rewrite !elem_of_union, !elem_of_singleton; tauto.
Qed.

Lemma foldr_add_replicate (n : nat) :
  foldr Z.add 0%Z (replicate n 1%Z) = Z.of_nat n.
Proof. induction n as [|n IH]; [done|]. cbn [replicate foldr]. lia. Qed.

(** For a config built by [__init__] with sparse feature names, and a
    service whose int64 features are one number per vertex and name, the
    sparse tensor has the shape of the table of vertex ids followed by the
    number of names, and lists the features of the vertices in the order of
    the table. *)
Theorem transform_sparse_features ops mp fo ew dn dd sd self
    (row : Z → string → list Z) (names : list string)
    (inputs ids : tensor Z) (weights : option (tensor F)) (w w1 : W) :
  init mp fo ew dn dd (Some names) sd = Ok self →
  names ≠ [] →
  (∀ v, Forall (λ name, length (row v name) = 1) names) →
  elementwise (get_pod_feature_int64 ops) row names
    (replicate (length names) 1%Z) →
  sample_multi_hop ops inputs w = (Ok (ids, weights), w1) →
  wf ids →
  (∀ out w2,
     transform ops self inputs w = (Ok out, w2) →
     out !! "sparse"%string
     = Some (VInt (Tensor (shape ids ++ [length names])
                     (flat_map (features_of row names) (data ids)))))
  ∧ (dn = None → ew = false →
     ∃ out w2, transform ops self inputs w = (Ok out, w2)).
Proof.
  intros Hinit Hne Hrow Helem Hhops Hwf.
  apply init_inv in Hinit as (dd' & sd' & Hdense & Hsparse & _ & ->).
  apply check_sparse_inv in Hsparse as ->.
  assert (∀ w3, ∃ w',
            get_feature (get_pod_feature_int64 ops)
              (vector (unique_values [] (data ids)))
              (Some names) (DList (replicate (length names) 1%Z))
              (Tensor [size ids]
                 ((λ v, default 0 (index_of v (unique_values [] (data ids))))
                  <$> data ids))
              (shape ids) w3
            = (Ok (Some (Tensor (shape ids ++ [length names])
                           (flat_map (features_of row names) (data ids)))), w'))
    as Hfeature.
  { intros w3.
    destruct (get_feature_unique (get_pod_feature_int64 ops) row names
                (replicate (length names) 1%Z) ids Helem Hne) with (w := w3)
      as [w' Hw'].
    - by rewrite length_replicate.
    - apply Forall_replicate. lia.
    - intros v. specialize (Hrow v). clear -Hrow.
      induction Hrow as [|name names Hname _ IH]; [constructor|].
      cbn [length replicate]. by constructor.
    - exact Hwf.
    - exists w'. rewrite Hw'. by rewrite foldr_add_replicate, Nat2Z.id. }
  rewrite (transform_unfold _ _ _ _ _ _ _ Hhops). cbn [dense_feature_names
    dense_feature_dims sparse_feature_names sparse_feature_dims edge_weight].
  split.
  - intros out w2 H.
    apply M_bind_inv in H as (d & w3 & _ & H). cbv zeta in H.
    destruct (Hfeature w3) as [w' Hs].
    rewrite (M_bind_Ok _ _ _ _ _ Hs) in H.
    destruct d as [d|], ew, weights as [wt|];
      unfold mret, M_ret, lift in H; try discriminate H;
      injection H as <- _; by simplify_map_eq.
  - intros -> ->. simpl in Hdense. injection Hdense as <-.
    destruct (Hfeature w1) as [w' Hs].
    rewrite (M_bind_Ok (get_feature _ _ None _ _ _) _ w1 None w1 eq_refl).
    cbv zeta. rewrite (M_bind_Ok _ _ _ _ _ Hs). unfold mret, M_ret. eauto.
Qed.

Lemma NoDup_unique_values (seen xs : list Z) :
  NoDup seen → NoDup (unique_values seen xs).
Proof.
  revert seen. induction xs as [|x xs IH]; intros seen Hseen; [done|].
  cbn [unique_values]. destruct (index_of x seen) as [k|] eqn:Hk; [by apply IH|].
  apply IH. apply NoDup_app. split; [done|]. split; [|apply NoDup_singleton].
  intros y Hy ->%list_elem_of_singleton.
  apply index_of_elem in Hy as [? Hy]. congruence.
Qed.

(** [transform] asks for the features of every vertex of the table once:
    two services that answer the same table and the same features for every
    list of distinct vertices are transformed alike. *)
Theorem transform_fetches_distinct ops ops' self inputs w :
  sample_multi_hop ops inputs w = sample_multi_hop ops' inputs w →
  (∀ vs names dims w',
     NoDup (data vs) →
     get_pod_feature_float32 ops [vs] names dims w'
     = get_pod_feature_float32 ops' [vs] names dims w') →
  (∀ vs names dims w',
     NoDup (data vs) →
     get_pod_feature_int64 ops [vs] names dims w'
     = get_pod_feature_int64 ops' [vs] names dims w') →
  transform ops self inputs w = transform ops' self inputs w.
Proof.
  intros Hhops Hfloat Hint.
  assert (∀ A (fetch fetch' : list (tensor Z) → list string → list Z
                              → M W (list (tensor A)))
            xs names dims indices origin_shape w',
            (∀ vs names dims w', NoDup (data vs) →
               fetch [vs] names dims w' = fetch' [vs] names dims w') →
            get_feature fetch (vector (unique_values [] xs)) names dims
              indices origin_shape w'
            = get_feature fetch' (vector (unique_values [] xs)) names dims
                indices origin_shape w') as Hget.
  { intros A fetch fetch' xs names dims indices origin_shape w' Hfetch.
    unfold get_feature. destruct names as [names|]; [|done].
    apply M_bind_ext. intros ds w3. unfold mbind, M_bind.
    rewrite Hfetch; [done|]. apply NoDup_unique_values. constructor. }
  destruct (sample_multi_hop ops inputs w) as [[[ids weights]|e] w1] eqn:Hs.
  - rewrite (transform_unfold _ _ _ _ _ _ _ Hs).
    rewrite (transform_unfold _ _ _ _ _ _ _ (eq_sym Hhops)).
    unfold mbind at 1 3. unfold M_bind at 1 3.
    rewrite (Hget _ _ _ _ _ _ _ _ _ Hfloat).
    destruct (get_feature _ _ _ _ _ _ w1) as [[d|e] w3]; [|done]. cbv zeta.
    unfold mbind, M_bind.
    by rewrite (Hget _ _ _ _ _ _ _ _ _ Hint).
  - unfold transform.
    rewrite (M_bind_Raise _ _ _ _ _ Hs).
    by rewrite (M_bind_Raise _ _ _ _ _ (eq_sym Hhops)).
Qed.
End multi_hop_feature_transform.

Lemma transform_output_keys_witness :
  let out : gmap string (value Z) :=
    <["dense"%string
      := VFloat (Tensor [2; 3; 5]
           (flat_map (MultiHopFeatureTransform.features_of
                        example_row ["feature"%string])
                     [2; 3; 3; 4; 5; 5]%Z))]>
      {["ids"%string := VInt (Tensor [2; 3] [2; 3; 3; 4; 5; 5]%Z)]} in
  ∃ ids weights w1,
    MultiHopFeatureTransform.sample_multi_hop example_feature_ops
      (vector [2; 4]%Z) 0 = (Ok (ids, weights), w1)
    ∧ out !! "ids"%string = Some (VInt ids)
    ∧ (is_Some (out !! "dense"%string)
       ↔ is_Some (MultiHopFeatureTransform.dense_feature_names
                    example_feature_config))
    ∧ (is_Some (out !! "sparse"%string)
       ↔ is_Some (MultiHopFeatureTransform.sparse_feature_names
                    example_feature_config))
    ∧ (MultiHopFeatureTransform.edge_weight example_feature_config = true →
       ∃ wt, weights = Some wt
             ∧ out !! "edge_weight"%string = Some (VFloat wt))
    ∧ (MultiHopFeatureTransform.edge_weight example_feature_config = false →
       out !! "edge_weight"%string = None)
    ∧ dom out ⊆ {[ "ids"%string; "dense"%string; "sparse"%string;
                   "edge_weight"%string ]}.
Proof.
  intros out.
  apply (transform_output_keys example_feature_ops example_feature_config
           (vector [2; 4]%Z) out 0 2).
  reflexivity.
Defined.

Lemma transform_sparse_features_witness :
  ∃ out w2,
    MultiHopFeatureTransform.transform example_sparse_ops example_sparse_config
      (vector [2; 4]%Z) 0 = (Ok out, w2)
    ∧ out !! "sparse"%string
      = Some (VInt (Tensor [2; 3; 2]
                (flat_map (MultiHopFeatureTransform.features_of
                             example_sparse_row ["id"%string; "kind"%string])
                          [2; 3; 3; 4; 5; 5]%Z))).
Proof.
  destruct (transform_sparse_features example_sparse_ops [[0%Z]] [2] false
              None MultiHopFeatureTransform.DNone MultiHopFeatureTransform.DNone
              example_sparse_config example_sparse_row
              ["id"%string; "kind"%string] (vector [2; 4]%Z)
              (Tensor [2; 3] [2; 3; 3; 4; 5; 5]%Z) None 0 1)
    as [Hout Hreturns].
  - reflexivity.
  - discriminate.
  - intros v. repeat constructor.
  - intros vertices w. exists (S w). reflexivity.
  - reflexivity.
  - reflexivity.
  - destruct (Hreturns eq_refl eq_refl) as (out & w2 & Htransform).
    exists out, w2. split; [exact Htransform|].
    exact (Hout out w2 Htransform).
Defined.

Lemma transform_fetches_distinct_witness :
  MultiHopFeatureTransform.transform example_feature_ops example_feature_config
    (vector [2; 4]%Z) 0
  = MultiHopFeatureTransform.transform example_feature_ops_strict
      example_feature_config (vector [2; 4]%Z) 0.
Proof.
  apply (transform_fetches_distinct example_feature_ops
           example_feature_ops_strict example_feature_config
           (vector [2; 4]%Z) 0).
  - reflexivity.
  - intros vs names dims w' Hvs. simpl.
    rewrite bool_decide_eq_true_2; [reflexivity|]. by constructor.
  - intros vs names dims w' Hvs. simpl.
    rewrite bool_decide_eq_true_2; [reflexivity|]. by constructor.
Defined.

(** ** The example [custom_save_predict_fn] *)

Section save_predict_lemmas.
Context {F : Type} (format_6f : F → string).








(** A scalar where a row is expected cannot be iterated over. *)
Lemma format_line_scalar i (l : list F) :
  format_line format_6f i (Tensor [] l) = Raise TypeError.
Proof. done. Qed.



End save_predict_lemmas.



(** The file of the example: two lines, for the ids 7 and 8. *)
Example custom_save_predict_fn_example :
  custom_save_predict_fn example_format_6f (vector [7; 8; 9]%Z)
    (Tensor [2; 3] [1; 2; 3; 4; 5; 6]%Z) "out" 0 ∅
  = (Ok (),
     {["out/embedding_0.csv"%string
       := ("7,1.000000,2.000000,3.000000" +:+ newline
           +:+ "8,4.000000,5.000000,6.000000" +:+ newline)%string]}).
Proof. vm_compute. reflexivity. Qed.

(** ** The example [SAGEEncode] *)

Section sage_encode_init.
Import SAGEEncode.
Context {F : Type}.
Variable get_fanouts_indices : list nat → list nat.

(** For fanouts that are not empty an encoder is built: it has one layer
    per fanout, all with the activation relu but the last, which has none,
    and a relation transform for these fanouts that does not sort.  For
    empty fanouts the relation transform refuses to be built. *)
Theorem init_layers (hidden_dim : Z) (dense_feature_dims : list Z)
    (fanouts : list nat) (aggregator_name : string) (dropout_rate : F) :
  fanouts ≠ [] →
  (∃ self,
     init get_fanouts_indices hidden_dim dense_feature_dims fanouts
       aggregator_name dropout_rate = Ok self
     ∧ num_layers self = length fanouts
     ∧ length (layers self) = length fanouts
     ∧ (∀ i l, layers self !! i = Some l →
          layer_hidden_dim l = hidden_dim
          ∧ layer_aggregator_name l = aggregator_name
          ∧ layer_dropout_rate l = dropout_rate
          ∧ layer_activation l
            = if bool_decide (i + 1 = length fanouts)
              then None else Some "relu"%string)
     ∧ RelationTransform.init get_fanouts_indices fanouts false
       = Ok (relation self))
  ∧ init get_fanouts_indices hidden_dim dense_feature_dims []
      aggregator_name dropout_rate = Raise AssertionError.
Proof.
  intros Hne. split; [|reflexivity].
  unfold init, RelationTransform.init. cbv zeta.
  rewrite bool_decide_eq_false_2 by done. rewrite bind_Ok.
  eexists. split; [reflexivity|]. cbn [num_layers layers relation].
  assert (0 < length fanouts) as Hlen by (destruct fanouts; [done|simpl; lia]).
  split; [done|]. split.
  { rewrite length_app, length_replicate. simpl. lia. }
  split; [|done].
  intros i l Hl. apply lookup_app_Some in Hl as [Hl|[Hi Hl]].
  - apply lookup_replicate in Hl as [-> Hi].
    rewrite bool_decide_eq_false_2 by lia. done.
  - rewrite length_replicate in Hi, Hl.
    apply list_lookup_singleton_Some in Hl as [Hi' <-].
    rewrite bool_decide_eq_true_2 by lia. done.
Qed.
End sage_encode_init.

Section sage_encode_call.
Import SAGEEncode.
Context {F : Type} (F_leb : F → F → bool).
Variable feature_combiner_call :
  list Z → gmap string (value F) → result (tensor F * gmap string (value F)).
Variable layer_call :
  layer F → gmap string (value F) → result (tensor F * gmap string (value F)).

Lemma target_row_lookup {A} N fd (l : list A) i :
  fd ≠ 0 → length l = N * fd → i < N →
  block N 0 (transpose_data [N; fd] l) !! i = l !! (i * fd).
Proof.
  intros Hfd Hl Hi. rewrite lookup_block by done.
  rewrite (lookup_transpose_matrix N fd l i 0) by (done || lia).
  f_equal. lia.
Qed.

(** The target indices of a table of rank at most 2, in closed form. *)
Lemma transform_target_closed (self : RelationTransform.t)
    (inputs : RelationTransform.inputs F) (indices : tensor Z) (ew : value F)
    N out :
  RelationTransform.unpack inputs = Ok (VInt indices, ew) →
  rank indices ≤ 2 →
  size indices = N * RelationTransform.fanouts_dim self →
  RelationTransform.transform F_leb self inputs = Ok out →
  RelationTransform.fanouts_dim self ≠ 0
  ∧ ∃ ti, out !! "target_indices"%string = Some (VInt ti)
          ∧ shape ti = [N]
          ∧ data ti = block N 0 (transpose_data
                                   [N; RelationTransform.fanouts_dim self]
                                   (data indices)).
Proof.
  intros Hun Hrank Hsize Hout.
  apply transform_inv in Hout
    as (iv' & ew' & ri & ti & rw & Hun' & Hrel' & _ & ->).
  rewrite Hun in Hun'. apply Ok_pair_inj in Hun' as [<- <-].
  unfold RelationTransform.relation_value in Hrel'.
  apply fmap_is_Ok in Hrel' as ([R Tg] & Hrel & Hpair).
  apply pair_equal_spec in Hpair as [-> ->]. cbn [prod_map fst snd].
  destruct (relation_of_target Z.leb self indices R Tg N Hrel Hsize)
    as [Hfd Htg].
  split; [exact Hfd|].
  unfold RelationTransform.target_of in Htg. cbv zeta in Htg.
  rewrite bool_decide_eq_false_2 in Htg by lia.
  apply Ok_inj in Htg.
  exists Tg. split; [by simplify_map_eq|]. rewrite <- Htg. split; reflexivity.
Qed.

(** The layers are given the relation graph with the key feature set;
    when they leave an entry of the dict alone, the loop does. *)
Lemma run_layers_keeps (key : string) layers graph feature graph' feature' :
  key ≠ "feature"%string →
  (∀ l g f g', layer_call l g = Ok (f, g') → g' !! key = g !! key) →
  run_layers layer_call layers graph feature = Ok (graph', feature') →
  graph' !! key = graph !! key.
Proof.
  intros Hkey Hkeeps. revert graph feature.
  induction layers as [|l layers IH]; intros graph feature Hrun.
  - cbn [run_layers] in Hrun. by apply Ok_pair_inj in Hrun as [<- _].
  - cbn [run_layers] in Hrun.
    apply bind_is_Ok in Hrun as ([f g] & Hcall & Hrun).
    rewrite (IH _ _ Hrun), (Hkeeps _ _ _ _ Hcall).
    by rewrite lookup_insert_ne.
Qed.

(** When the layers leave the target indices of the relation graph
    alone, the encoder answers one row per vertex of the batch: the row of
    the features of the last layer at the first entry of the vertex's row of
    indices. *)
Theorem call_gathers_targets (self : t F) (inputs inputs' : gmap string (value F))
    (f0 feat : tensor F) (indices : tensor Z)
    (graph graph' : gmap string (value F)) (N M h : nat) :
  feature_combiner_call (feature_combiner self) inputs = Ok (f0, inputs') →
  inputs' !! "indices"%string = Some (VInt indices) →
  rank indices ≤ 2 →
  size indices = N * RelationTransform.fanouts_dim (relation self) →
  RelationTransform.transform F_leb (relation self)
    (RelationTransform.InDict inputs') = Ok graph →
  (∀ l g f g', layer_call l g = Ok (f, g') →
     g' !! "target_indices"%string = g !! "target_indices"%string) →
  run_layers layer_call (layers self) graph f0 = Ok (graph', feat) →
  shape feat = [M; h] → wf feat →
  (∀ i z, i < N →
     data indices !! (i * RelationTransform.fanouts_dim (relation self))
     = Some z → (0 ≤ z < Z.of_nat M)%Z) →
  ∃ out,
    call F_leb feature_combiner_call layer_call self inputs = Ok out
    ∧ shape out = [N; h]
    ∧ ∀ i z, i < N →
        data indices !! (i * RelationTransform.fanouts_dim (relation self))
        = Some z →
        block h i (data out) = block h (Z.to_nat z) (data feat).
Proof.
  intros Hcomb Hindices Hrank Hsize Htransform Hkeeps Hrun Hshape Hwf Hrange.
  assert (RelationTransform.unpack (RelationTransform.InDict inputs')
          = Ok (VInt indices,
                default VNone (inputs' !! "edge_weight"%string))) as Hun.
  { unfold RelationTransform.unpack. by rewrite Hindices. }
  destruct (transform_target_closed _ _ _ _ N _ Hun Hrank Hsize Htransform)
    as (Hfd & ti & Hti & Hti_shape & Hti_data).
  set (fd := RelationTransform.fanouts_dim (relation self)) in *.
  assert (∀ i, i < N → ∃ z, data ti !! i = Some z
                            ∧ data indices !! (i * fd) = Some z) as Hentries.
  { intros i Hi. rewrite Hti_data.
    rewrite (target_row_lookup N fd (data indices) i Hfd Hsize Hi).
    destruct (lookup_lt_is_Some_2 (data indices) (i * fd)) as [z Hz]; [|eauto].
    unfold size in Hsize. rewrite Hsize. nia. }
  assert (length (data ti) = N) as Hti_len.
  { rewrite Hti_data. by apply length_target_row. }
  assert (Forall (λ z, (0 ≤ z < Z.of_nat M)%Z) (data ti)) as Hall.
  { apply Forall_lookup. intros i z Hz.
    assert (i < N) as Hi by (rewrite <- Hti_len; by eapply lookup_lt_Some).
    destruct (Hentries i Hi) as (z' & Hz' & Hind).
    rewrite Hz in Hz'. injection Hz' as <-. by apply (Hrange i). }
  unfold call. rewrite Hcomb, bind_Ok. cbv beta iota.
  rewrite Htransform, bind_Ok, Hrun, bind_Ok. cbv beta iota.
  rewrite (run_layers_keeps "target_indices" _ _ _ _ _ ltac:(done) Hkeeps Hrun).
  rewrite Hti, bind_Ok. unfold gather_targets.
  rewrite bool_decide_eq_true_2
    by (eapply Forall_impl; [exact Hall|]; simpl; lia).
  destruct feat as [sh l]. cbn [shape data] in *. subst sh.
  rewrite tf_gather_rows
    by (cbn [data]; apply Forall_fmap;
        eapply Forall_impl; [exact Hall|]; simpl; lia).
  cbn [shape data]. rewrite Hti_shape, numel_singleton.
  eexists. split; [reflexivity|]. split; [reflexivity|]. cbn [data].
  intros i z Hi Hz. destruct (Hentries i Hi) as (z' & Hz' & Hind).
  rewrite Hz in Hind. injection Hind as <-.
  unfold gather_blocks.
  apply (block_flat_map_const (λ j, block h j l) _ h i (Z.to_nat z)).
  - intros y Hy. apply list_elem_of_fmap in Hy as (z'' & -> & Hy).
    rewrite Forall_forall in Hall. specialize (Hall z'' Hy).
    apply length_block. unfold wf in Hwf. cbn [shape data] in Hwf.
    rewrite Hwf, numel_matrix. nia.
  - by rewrite list_lookup_fmap, Hz'.
Qed.
End sage_encode_call.

Lemma init_layers_witness :
  (∃ self,
     SAGEEncode.init example_table 64 [1433%Z] [5; 5] "mean" 0%Z = Ok self
     ∧ SAGEEncode.num_layers self = length [5; 5]
     ∧ length (SAGEEncode.layers self) = length [5; 5]
     ∧ (∀ i l, SAGEEncode.layers self !! i = Some l →
          SAGEEncode.layer_hidden_dim l = 64%Z
          ∧ SAGEEncode.layer_aggregator_name l = "mean"%string
          ∧ SAGEEncode.layer_dropout_rate l = 0%Z
          ∧ SAGEEncode.layer_activation l
            = if bool_decide (i + 1 = length [5; 5])
              then None else Some "relu"%string)
     ∧ RelationTransform.init example_table [5; 5] false
       = Ok (SAGEEncode.relation self))
  ∧ SAGEEncode.init example_table 64 [1433%Z] [] "mean" 0%Z
    = Raise AssertionError.
Proof.
  apply (init_layers example_table 64 [1433%Z] [5; 5] "mean" 0%Z).
  discriminate.
Defined.

Lemma call_gathers_targets_witness :
  ∃ out,
    SAGEEncode.call Z.leb example_combiner example_layer example_encoder
      example_encoder_inputs = Ok out
    ∧ shape out = [2; 1]
    ∧ ∀ i z, i < 2 →
        example_ids !! (i * 9) = Some z →
        block 1 i (data out)
        = block 1 (Z.to_nat z) [0; 40; 80; 120; 160; 200; 240; 280; 320; 360]%Z.
Proof.
  apply (call_gathers_targets Z.leb example_combiner example_layer
           example_encoder example_encoder_inputs example_encoder_inputs
           (Tensor [10; 1] [0; 10; 20; 30; 40; 50; 60; 70; 80; 90]%Z)
           (Tensor [10; 1] [0; 40; 80; 120; 160; 200; 240; 280; 320; 360]%Z)
           (Tensor [2; 9] example_ids)
           example_relation_graph
           (<["feature"%string
              := VFloat (Tensor [10; 1]
                           [0; 20; 40; 60; 80; 100; 120; 140; 160; 180]%Z)]>
              example_relation_graph)
           2 10 1).
  - reflexivity.
  - reflexivity.
  - vm_compute. lia.
  - reflexivity.
  - reflexivity.
  - intros l g f g' Hcall. unfold example_layer in Hcall.
    destruct (g !! "feature"%string) as [[| |x]|]; try discriminate Hcall.
    injection Hcall as _ <-. reflexivity.
  - vm_compute. reflexivity.
  - reflexivity.
  - reflexivity.
  - intros i z Hi Hz. destruct i as [|[|i]]; [| |lia];
      vm_compute in Hz; injection Hz as <-; lia.
Defined.

(** The encoder of the example answers the features, doubled by each of
    the two layers, of the vertices 5 and 2 of the batch. *)
Example call_example :
  SAGEEncode.call Z.leb example_combiner example_layer example_encoder
    example_encoder_inputs = Ok (Tensor [2; 1] [200; 80]%Z).
Proof. vm_compute. reflexivity. Qed.

(** ** The example [Inputs] of node2vec *)

Section node2vec_inputs_transform.
Import Node2vecInputs.
Context {F W : Type}.

Lemma M_bind_fmap_Some {B C} (m : M W B) (k : B → M W C) (kn : M W C) w :
  ((λ w, let '(r, w') := m w in (Some <$> r, w'))
   ≫= λ o, match o with Some b => k b | None => kn end) w
  = (m ≫= k) w.
Proof. unfold mbind, M_bind. by destruct (m w) as [[b|e] w1]. Qed.

(** On inputs that can be viewed flat, the transform of the example is
    the library's [RandomWalkNegTransform] built from the same options with
    walk_length and without metapath: on a service that answers pairs, both
    calls give the same dict or the same error and leave the service in the
    same state.  On inputs that cannot, the example raises RuntimeError
    before it calls the service, which the library, flattening with
    [flatten()], does not. *)
Theorem transform_as_library (ops : PTOps F W) (self : config F)
    (cfg : RandomWalkNegTransform.config F) (inputs : tensor Z)
    (flat_viewable : bool) (w : W) :
  RandomWalkNegTransform.init (vertex_type self) (edge_types self)
    (negative_num self) (context_size self) (repetition self)
    (walk_p self) (walk_q self) (Some (walk_length self)) None = Ok cfg →
  transform ops self inputs flat_viewable w
  = if flat_viewable
    then RandomWalkNegTransform.transform (as_library_ops ops) cfg inputs w
    else (Raise RuntimeError, w).
Proof.
  intros Hinit. cbn in Hinit. apply Ok_inj in Hinit as <-.
  destruct flat_viewable; [|reflexivity].
  unfold transform, RandomWalkNegTransform.transform. cbv zeta.
  cbn [RandomWalkNegTransform.metapath RandomWalkNegTransform.repetition
       RandomWalkNegTransform.context_size RandomWalkNegTransform.walk_p
       RandomWalkNegTransform.walk_q RandomWalkNegTransform.vertex_type
       RandomWalkNegTransform.negative_num].
  rewrite M_bind_lift. unfold torch_view at 1. rewrite reshape_flat.
  cbn [as_library_ops RandomWalkNegTransform.sample_pairs_by_random_walk
       RandomWalkNegTransform.sample_vertices].
  symmetry. apply M_bind_fmap_Some.
Qed.
End node2vec_inputs_transform.

Lemma transform_as_library_witness :
  Node2vecInputs.transform example_node2vec_ops example_node2vec_config
    (Tensor [1; 3] [2; 4; 6]%Z) true 0
  = RandomWalkNegTransform.transform
      (Node2vecInputs.as_library_ops example_node2vec_ops)
      {| RandomWalkNegTransform.vertex_type := [0%Z];
         RandomWalkNegTransform.edge_types := [0%Z];
         RandomWalkNegTransform.negative_num := 5;
         RandomWalkNegTransform.context_size := 2;
         RandomWalkNegTransform.repetition := 5;
         RandomWalkNegTransform.walk_p := 1%Z;
         RandomWalkNegTransform.walk_q := 1%Z;
         RandomWalkNegTransform.walk_length := Some 3%Z;
         RandomWalkNegTransform.metapath := [[0%Z]; [0%Z]; [0%Z]] |}
      (Tensor [1; 3] [2; 4; 6]%Z) 0
  ∧ Node2vecInputs.transform example_node2vec_ops example_node2vec_config
      (Tensor [1; 3] [2; 4; 6]%Z) false 0
    = (Raise RuntimeError, 0).
Proof.
  split.
  - apply (transform_as_library example_node2vec_ops example_node2vec_config
             _ (Tensor [1; 3] [2; 4; 6]%Z) true 0).
    reflexivity.
  - apply (transform_as_library example_node2vec_ops example_node2vec_config
             {| RandomWalkNegTransform.vertex_type := [0%Z];
                RandomWalkNegTransform.edge_types := [0%Z];
                RandomWalkNegTransform.negative_num := 5;
                RandomWalkNegTransform.context_size := 2;
                RandomWalkNegTransform.repetition := 5;
                RandomWalkNegTransform.walk_p := 1%Z;
                RandomWalkNegTransform.walk_q := 1%Z;
                RandomWalkNegTransform.walk_length := Some 3%Z;
                RandomWalkNegTransform.metapath := [[0%Z]; [0%Z]; [0%Z]] |}
             (Tensor [1; 3] [2; 4; 6]%Z) false 0).
    reflexivity.
Defined.

(** ** What the transforms do not look at *)

Section relation_independence.
Import RelationTransform.
Context {F : Type} (F_leb : F → F → bool).
Implicit Types (self : t) (inputs : inputs F) (out : gmap string (value F)).

(** The relation indices and the target indices are computed from the
    indices alone, the relation weight from the edge weight alone: two inputs
    with the same indices give the same relation indices and target indices
    whatever their edge weights are, and two inputs with the same edge weight
    give the same relation weight whatever their indices are. *)
Theorem transform_independent_parts self inputs1 inputs2
    (iv1 iv2 ew1 ew2 : value F) out1 out2 :
  unpack inputs1 = Ok (iv1, ew1) →
  unpack inputs2 = Ok (iv2, ew2) →
  transform F_leb self inputs1 = Ok out1 →
  transform F_leb self inputs2 = Ok out2 →
  (iv1 = iv2 →
   out1 !! "relation_indices"%string = out2 !! "relation_indices"%string
   ∧ out1 !! "target_indices"%string = out2 !! "target_indices"%string)
  ∧ (ew1 = ew2 →
     out1 !! "relation_weight"%string = out2 !! "relation_weight"%string).
Proof.
  intros Hun1 Hun2 Hout1 Hout2.
  apply transform_inv in Hout1
    as (iv1' & ew1' & ri1 & ti1 & rw1 & Hun1' & Hrel1 & Hrw1 & ->).
  apply transform_inv in Hout2
    as (iv2' & ew2' & ri2 & ti2 & rw2 & Hun2' & Hrel2 & Hrw2 & ->).
  rewrite Hun1 in Hun1'. apply Ok_pair_inj in Hun1' as [<- <-].
  rewrite Hun2 in Hun2'. apply Ok_pair_inj in Hun2' as [<- <-].
  split.
  - intros <-. rewrite Hrel1 in Hrel2.
    apply Ok_pair_inj in Hrel2 as [<- <-]. by simplify_map_eq.
  - intros <-. rewrite Hrw1 in Hrw2. apply Ok_inj in Hrw2 as <-.
    by simplify_map_eq.
Qed.
End relation_independence.

Section sampling_inputs_shape.
Context {F W : Type}.

(** The sampling transforms flatten their inputs: two batches with the
    same vertices in the same order, of whatever shapes, are transformed
    alike. *)
Theorem transform_flattens_inputs
    (pt_ops : RandomWalkNegTransform.PTOps F W)
    (rw : RandomWalkNegTransform.config F)
    (tf_ops : NeighborNegTransform.TFOps W) (nn : NeighborNegTransform.config)
    (inputs1 inputs2 : tensor Z) (w : W) :
  data inputs1 = data inputs2 →
  RandomWalkNegTransform.transform pt_ops rw inputs1 w
  = RandomWalkNegTransform.transform pt_ops rw inputs2 w
  ∧ NeighborNegTransform.transform tf_ops nn inputs1 w
    = NeighborNegTransform.transform tf_ops nn inputs2 w.
Proof.
  intros Hdata.
  assert (size inputs1 = size inputs2) as Hsize by (unfold size; by rewrite Hdata).
  split.
  - unfold RandomWalkNegTransform.transform. by rewrite Hdata, Hsize.
  - unfold NeighborNegTransform.transform.
    rewrite !M_bind_lift, !reshape_flat, Hdata, Hsize.
    apply M_bind_ext. intros context w1.
    case_bool_decide; [done|].
    change [(-1)%Z; 1%Z] with [(-1)%Z; Z.of_nat 1].
    rewrite !M_bind_lift.
    rewrite (reshape_rows_exact inputs1 (size inputs2) 1) by lia.
    rewrite (reshape_rows_exact inputs2 (size inputs2) 1) by lia.
    by rewrite Hdata.
Qed.
End sampling_inputs_shape.

Lemma transform_independent_parts_witness :
  ∃ out1 out2,
    RelationTransform.transform Z.leb (example_transform false) example_inputs
    = Ok out1
    ∧ RelationTransform.transform Z.leb (example_transform false)
        (RelationTransform.InOther (VInt (Tensor [1; 2; 9] example_ids)))
      = Ok out2
    ∧ out1 !! "relation_indices"%string = out2 !! "relation_indices"%string
    ∧ out1 !! "target_indices"%string = out2 !! "target_indices"%string.
Proof.
  eexists. eexists. split; [reflexivity|]. split; [reflexivity|].
  refine (proj1 (transform_independent_parts Z.leb (example_transform false)
           example_inputs
           (RelationTransform.InOther (VInt (Tensor [1; 2; 9] example_ids)))
           (VInt (Tensor [1; 2; 9] example_ids))
           (VInt (Tensor [1; 2; 9] example_ids))
           (VFloat example_weights) VNone _ _ _ _ _ _) eq_refl).
  - reflexivity.
  - reflexivity.
  - reflexivity.
  - reflexivity.
Defined.

Lemma transform_flattens_inputs_witness :
  RandomWalkNegTransform.transform (example_pt_ops false) example_rw_config
    (Tensor [1; 3] [2; 4; 6]%Z) 0
  = RandomWalkNegTransform.transform (example_pt_ops false) example_rw_config
      (vector [2; 4; 6]%Z) 0
  ∧ NeighborNegTransform.transform (example_neighbor_ops false)
      (NeighborNegTransform.init [0%Z] [0%Z] 3) (Tensor [1; 3] [2; 4; 6]%Z) 0
    = NeighborNegTransform.transform (example_neighbor_ops false)
        (NeighborNegTransform.init [0%Z] [0%Z] 3) (vector [2; 4; 6]%Z) 0.
Proof.
  apply (transform_flattens_inputs (example_pt_ops false) example_rw_config
           (example_neighbor_ops false)
           (NeighborNegTransform.init [0%Z] [0%Z] 3)
           (Tensor [1; 3] [2; 4; 6]%Z) (vector [2; 4; 6]%Z) 0).
  reflexivity.
Defined.
